(** * Payment collection: the record store, the payment gate and the
      manual-payment flow of [server.ts], with the form validation of the
      client ([App], [handlePayment]).

    The SQLite database of [server.ts] is embedded as an explicit store
    ([DB]): the [payments] table as the list of its rows in rowid order, the
    AUTOINCREMENT counter, and the single [payment_status] setting.  Every
    Express route handler is a function from the store and the request to a
    response and the next store.  Platform functions whose text is not part
    of the repository (environment variables, [encodeURIComponent],
    [parseFloat], SQLite's affinity conversions) are the fields of the
    [Runtime] class. *)

From Stdlib Require Import Bool Arith NArith ZArith Zpow_facts QArith Lia List.
From Stdlib Require Import Ascii String.
From Stdlib Require Import Sorted Permutation.
Import ListNotations.

Local Open Scope string_scope.
Local Open Scope N_scope.

(** ** JavaScript values *)

(** An IEEE double, by its exact value (-0 is identified with 0). *)
Inductive number : Type :=
| NaN
| Infinity (negative : bool)
| Finite (q : Q).

(** A field of a parsed JSON body.  [JUndefined] is a missing field,
    [JArray] a nested array with its elements, and [JObject] a nested plain
    object, given by the text its string conversion yields. *)
#[warnings="-register-all"]
Inductive jsval : Type :=
| JUndefined
| JNull
| JBool (b : bool)
| JNum (n : number)
| JStr (s : string)
| JArray (items : list jsval)
| JObject (text : string).

(** The operator [<] on numbers: false as soon as one side is NaN. *)
Definition num_lt (a b : number) : bool :=
  match a, b with
  | NaN, _ | _, NaN => false
  | Infinity true, Infinity true => false
  | Infinity true, _ => true
  | _, Infinity true => false
  | Infinity false, _ => false
  | Finite _, Infinity false => true
  | Finite x, Finite y => negb (Qle_bool y x)
  end.

(** [a === s] for a string literal [s]. *)
Definition strict_eq_str (a : jsval) (s : string) : bool :=
  match a with
  | JStr x => String.eqb x s
  | _ => false
  end.

(** ** Decimal text *)

Definition digit (d : N) : ascii := ascii_of_N (48 + d).

(** [Number.prototype.toString] on a non-negative integer.  The fuel bounds
    the number of digits; the number of bits of [n] is enough. *)
Fixpoint toString_aux (fuel : nat) (n : N) (acc : string) : string :=
  match fuel with
  | O => acc
  | S fuel' =>
      if n <? 10 then String (digit n) acc
      else toString_aux fuel' (n / 10) (String (digit (n mod 10)) acc)
  end.

Definition toString (n : N) : string := toString_aux (S (N.size_nat n)) n "".

Fixpoint repeat_char (c : ascii) (k : nat) : string :=
  match k with
  | O => ""
  | S k' => String c (repeat_char c k')
  end.

(** [s.padStart(width, c)] for a one-character filler. *)
Definition padStart (width : nat) (c : ascii) (s : string) : string :=
  repeat_char c (Nat.sub width (String.length s)) ++ s.

(** Fixed-width fields, as the date formatters print them. *)
Definition two_digits (n : N) : string :=
  String (digit (n / 10 mod 10)) (String (digit (n mod 10)) "").

Definition four_digits (n : N) : string :=
  String (digit (n / 1000 mod 10))
    (String (digit (n / 100 mod 10)) (two_digits n)).

(** [s.replace(/-/g, '')]. *)
Fixpoint remove_dashes (s : string) : string :=
  match s with
  | EmptyString => ""
  | String c r =>
      if Ascii.eqb c "-"%char then remove_dashes r
      else String c (remove_dashes r)
  end.

(** [s.slice(0, k)]. *)
Definition slice0 (k : nat) (s : string) : string := String.substring 0 k s.

(** [/^\d{10}$/.test(s)]. *)
Definition is_digit (c : ascii) : bool :=
  (48 <=? N_of_ascii c) && (N_of_ascii c <=? 57).

Fixpoint all_digits (s : string) : bool :=
  match s with
  | EmptyString => true
  | String c r => is_digit c && all_digits r
  end.

Definition ten_digits (s : string) : bool :=
  Nat.eqb (String.length s) 10 && all_digits s.

(** The number a text of decimal digits denotes, read from the left onto
    [acc]; [None] when a character is not a digit. *)
Fixpoint digits_value (s : string) (acc : N) : option N :=
  match s with
  | EmptyString => Some acc
  | String c r =>
      if is_digit c then digits_value r (10 * acc + (N_of_ascii c - 48))
      else None
  end.

Definition digits_number (s : string) : option N :=
  match s with
  | EmptyString => None
  | _ => digits_value s 0
  end.

(** ** The clock *)

(** A UTC instant, as its calendar fields. Both [Date.prototype.toISOString]
    and SQLite's [date('now')] / [CURRENT_TIMESTAMP] print UTC.  An instant
    lies in the years 0 to 9999, where both print the year as four digits:
    past 9999 [toISOString] prints a sign and six digits and SQLite's date
    functions are not defined, so the record holds no such year. *)
Record DateTime : Type := mkDateTime {
  year : N; month : N; day : N;
  hour : N; minute : N; second : N; millis : N;
  year_four_digits : (year <=? 9999) = true
}.

Definition wf_datetime (t : DateTime) : Prop :=
  year t <= 9999 /\ 1 <= month t <= 12 /\ 1 <= day t <= 31 /\
  hour t <= 23 /\ minute t <= 59 /\ second t <= 59 /\ millis t <= 999.

Definition three_digits (n : N) : string :=
  String (digit (n / 100 mod 10)) (two_digits n).

(** [t.toISOString()]: YYYY-MM-DDTHH:MM:SS.mmmZ *)
Definition toISOString (t : DateTime) : string :=
  four_digits (year t) ++ "-" ++ two_digits (month t) ++ "-" ++
  two_digits (day t) ++ "T" ++ two_digits (hour t) ++ ":" ++
  two_digits (minute t) ++ ":" ++ two_digits (second t) ++ "." ++
  three_digits (millis t) ++ "Z".

(** SQLite [date('now')]: YYYY-MM-DD *)
Definition sql_date (t : DateTime) : string :=
  four_digits (year t) ++ "-" ++ two_digits (month t) ++ "-" ++
  two_digits (day t).

(** SQLite [CURRENT_TIMESTAMP]: YYYY-MM-DD HH:MM:SS *)
Definition sql_current_timestamp (t : DateTime) : string :=
  sql_date t ++ " " ++ two_digits (hour t) ++ ":" ++
  two_digits (minute t) ++ ":" ++ two_digits (second t).

(** The clock reads of one run of the submit handler: [new Date()], the
    [date('now')] of the counting query, and the [CURRENT_TIMESTAMP] default
    of the insertion. *)
Record Clock : Type := mkClock {
  js_now : DateTime;
  count_now : DateTime;
  insert_now : DateTime
}.

Definition at_instant (t : DateTime) : Clock := mkClock t t t.

Definition same_day (a b : DateTime) : Prop :=
  year a = year b /\ month a = month b /\ day a = day b.

(** ** The platform *)

(** What the handlers take from their platform: the environment variables
    read through [process.env], two JavaScript built-ins, and the coercions
    SQLite applies to a bound value that does not have the storage class of
    its column. *)
Class Runtime : Type := {
  ADMIN_UPI_ID : option string;
  ADMIN_NAME : option string;
  ADMIN_USERNAME : option string;
  ADMIN_PASSWORD : option string;
  (** [None] when the built-in throws URIError (a lone surrogate) *)
  encodeURIComponent : string -> option string;
  (** [Number.prototype.toString] *)
  number_to_string : number -> string;
  parseFloat : string -> number;
  (** a number stored in a TEXT column *)
  sql_text_of_number : number -> string;
  (** a text stored in a REAL column: its value when it reads as a number *)
  sql_real_of_text : string -> option number;
  (** a text compared with the INTEGER column [id] *)
  sql_integer_of_text : string -> option Z
}.

(** [process.env.X || fallback]: the empty string is falsy. *)
Definition env_or (v : option string) (fallback : string) : string :=
  match v with
  | Some s => if String.eqb s "" then fallback else s
  | None => fallback
  end.

(** String conversion of a value in a template literal or in [+].  An
    array is joined with commas, a null or missing element giving the empty
    text. *)
Fixpoint js_to_string `{Runtime} (v : jsval) : string :=
  match v with
  | JUndefined => "undefined"
  | JNull => "null"
  | JBool true => "true"
  | JBool false => "false"
  | JNum n => number_to_string n
  | JStr s => s
  | JArray items =>
      (fix join (l : list jsval) : string :=
         match l with
         | [] => ""
         | x :: l' =>
             let element :=
               match x with
               | JUndefined | JNull => ""
               | _ => js_to_string x
               end in
             match l' with
             | [] => element
             | _ :: _ => element ++ "," ++ join l'
             end
         end) items
  | JObject text => text
  end.

(** ** The payments table *)

(** The [amount] column has REAL affinity: a text that does not read as a
    number is stored as text. *)
Inductive amount_value : Type :=
| Real (n : number)
| Text (s : string).

(** A row of [payments].  The INTEGER column [is_trashed] only ever holds
    0 or 1 (its default, and the two literals the handlers write), so it is
    a boolean here; [created_at] is the text SQLite stored. *)
Record Payment : Type := mkPayment {
  id : Z;
  transaction_id : string;
  name : string;
  phone : string;
  address : string;
  amount : amount_value;
  status : string;
  is_trashed : bool;
  created_at : string
}.

Definition set_is_trashed (b : bool) (r : Payment) : Payment :=
  mkPayment (id r) (transaction_id r) (name r) (phone r) (address r)
    (amount r) (status r) b (created_at r).

(** The database file: the rows of [payments] in rowid order, the
    AUTOINCREMENT counter kept in [sqlite_sequence], and the value of the one
    row of [settings]. *)
Record DB : Type := mkDB {
  payments : list Payment;
  sqlite_sequence : Z;
  payment_status : string
}.

(** The database after the initialisation script has run on a new file. *)
Definition initial_db : DB := mkDB [] 0%Z "active".

Definition with_payments (db : DB) (rows : list Payment) : DB :=
  mkDB rows (sqlite_sequence db) (payment_status db).

(** Values that reach a prepared statement. *)
Inductive sqlval : Type :=
| SqlNull
| SqlReal (n : number)
| SqlText (s : string).

Notation "x <- e ;; k" :=
  (match e with Some x => k | None => None end)
  (at level 61, e at next level, right associativity, only parsing).

(** Binding one JavaScript value to a [?]: the driver takes numbers, strings
    and null, and throws a TypeError (here [None]) on anything else. *)
Definition bind_param (v : jsval) : option sqlval :=
  match v with
  | JNull => Some SqlNull
  | JNum NaN => Some SqlNull
  | JNum n => Some (SqlReal n)
  | JStr s => Some (SqlText s)
  | JUndefined | JBool _ | JArray _ | JObject _ => None
  end.

(** The elements of an array argument, each bound as one value. *)
Fixpoint bind_array (items : list jsval) : option (list sqlval) :=
  match items with
  | [] => Some []
  | v :: rest =>
      b <- bind_param v ;;
      bs <- bind_array rest ;;
      Some (b :: bs)
  end.

(** The values the arguments of [stmt.run] give to the anonymous
    placeholders, in order.  The driver takes the elements of an array
    argument as so many values, and a plain object as the named parameters,
    of which the statements of [server.ts] have none; a second plain object
    is a TypeError.  [bound_object] tells that a plain object has been
    seen. *)
Fixpoint bind_arguments (bound_object : bool) (args : list jsval)
  : option (list sqlval) :=
  match args with
  | [] => Some []
  | JArray items :: rest =>
      bs <- bind_array items ;;
      cs <- bind_arguments bound_object rest ;;
      Some (bs ++ cs)%list
  | JObject _ :: rest =>
      if bound_object then None else bind_arguments true rest
  | v :: rest =>
      b <- bind_param v ;;
      cs <- bind_arguments bound_object rest ;;
      Some (b :: cs)
  end.

(** A TEXT NOT NULL column. *)
Definition text_not_null `{Runtime} (v : sqlval) : option string :=
  match v with
  | SqlNull => None
  | SqlReal n => Some (sql_text_of_number n)
  | SqlText s => Some s
  end.

(** A REAL NOT NULL column. *)
Definition real_not_null `{Runtime} (v : sqlval) : option amount_value :=
  match v with
  | SqlNull => None
  | SqlReal n => Some (Real n)
  | SqlText s =>
      match sql_real_of_text s with
      | Some n => Some (Real n)
      | None => Some (Text s)
      end
  end.

Definition max_rowid (rows : list Payment) : Z :=
  fold_right (fun r m => Z.max (id r) m) 0%Z rows.

(** INTEGER PRIMARY KEY AUTOINCREMENT: one more than the largest rowid the
    table has ever held. *)
Definition next_rowid (db : DB) : Z :=
  (Z.max (max_rowid (payments db)) (sqlite_sequence db) + 1)%Z.

Definition has_transaction_id (tid : string) (rows : list Payment) : bool :=
  existsb (fun r => String.eqb (transaction_id r) tid) rows.

(** INSERT INTO payments (transaction_id, name, phone, address, amount,
    status) VALUES (?, ?, ?, ?, ?, ?), run at the instant [t] with its six
    placeholders bound.  [None] is a thrown error: a NOT NULL column given
    null, or the UNIQUE constraint on [transaction_id]; nothing is written
    then. *)
Definition insert_row `{Runtime} (t : DateTime) (db : DB)
    (tid : string) (bname bphone baddress bamount : sqlval) (st : string)
  : option DB :=
  cname <- text_not_null bname ;;
  cphone <- text_not_null bphone ;;
  caddress <- text_not_null baddress ;;
  camount <- real_not_null bamount ;;
  if has_transaction_id tid (payments db) then None
  else
    let rowid := next_rowid db in
    let row := mkPayment rowid tid cname cphone caddress camount st false
                 (sql_current_timestamp t) in
    Some (mkDB (payments db ++ [row]) rowid (payment_status db)).

(** [stmt.run(transactionId, name, phone, address, amount, 'success')] on
    the statement above.  The values of the six arguments must be exactly
    six (a RangeError otherwise); the first and the last are then the texts
    of the two string arguments. *)
Definition insert_payment `{Runtime} (t : DateTime) (db : DB)
    (tid : string) (vname vphone vaddress vamount : jsval) (st : string)
  : option DB :=
  bound <- bind_arguments false
             [JStr tid; vname; vphone; vaddress; vamount; JStr st] ;;
  match bound with
  | [SqlText btid; bname; bphone; baddress; bamount; SqlText bstatus] =>
      insert_row t db btid bname bphone baddress bamount bstatus
  | _ => None
  end.

(** SELECT * FROM payments WHERE transaction_id = ? (first row) *)
Definition select_by_transaction_id (tid : string) (db : DB) : option Payment :=
  find (fun r => String.eqb (transaction_id r) tid) (payments db).

(** ORDER BY created_at DESC over rows taken in rowid order; rows with equal
    [created_at] keep their rowid order. *)
Fixpoint insert_desc (r : Payment) (l : list Payment) : list Payment :=
  match l with
  | [] => [r]
  | x :: l' =>
      if String.leb (created_at x) (created_at r) then r :: l
      else x :: insert_desc r l'
  end.

Definition order_by_created_at_desc (l : list Payment) : list Payment :=
  fold_right insert_desc [] l.

(** SELECT * FROM payments WHERE is_trashed = 0 ORDER BY created_at DESC *)
Definition select_active (db : DB) : list Payment :=
  order_by_created_at_desc
    (filter (fun r => negb (is_trashed r)) (payments db)).

(** SELECT * FROM payments WHERE is_trashed = 1 ORDER BY created_at DESC *)
Definition select_trashed (db : DB) : list Payment :=
  order_by_created_at_desc (filter is_trashed (payments db)).

(** SELECT COUNT( * ) FROM payments WHERE created_at >= date('now'): a
    comparison of texts, byte by byte. *)
Definition count_since (today : string) (db : DB) : N :=
  N.of_nat
    (List.length
       (filter (fun r => String.leb today (created_at r)) (payments db))).

(** The [:id] path segment against the [id] column. *)
Definition id_matches `{Runtime} (param : string) (r : Payment) : bool :=
  match sql_integer_of_text param with
  | Some z => Z.eqb (id r) z
  | None => false
  end.

(** UPDATE payments SET is_trashed = b WHERE id = ? *)
Definition update_is_trashed_by_id `{Runtime} (b : bool) (param : string)
    (db : DB) : DB :=
  with_payments db
    (map (fun r => if id_matches param r then set_is_trashed b r else r)
       (payments db)).

(** DELETE FROM payments WHERE id = ? AND is_trashed = 1 *)
Definition delete_trashed_by_id `{Runtime} (param : string) (db : DB) : DB :=
  with_payments db
    (filter (fun r => negb (id_matches param r && is_trashed r))
       (payments db)).

(** UPDATE payments SET is_trashed = 1 WHERE is_trashed = 0 *)
Definition trash_all (db : DB) : DB :=
  with_payments db
    (map (fun r => if negb (is_trashed r) then set_is_trashed true r else r)
       (payments db)).

(** UPDATE payments SET is_trashed = 0 WHERE is_trashed = 1 *)
Definition restore_all (db : DB) : DB :=
  with_payments db
    (map (fun r => if is_trashed r then set_is_trashed false r else r)
       (payments db)).

(** DELETE FROM payments WHERE is_trashed = 1 *)
Definition delete_all_trashed (db : DB) : DB :=
  with_payments db (filter (fun r => negb (is_trashed r)) (payments db)).

(** UPDATE settings SET value = ? WHERE key = 'payment_status' *)
Definition update_payment_status (v : string) (db : DB) : DB :=
  mkDB (payments db) (sqlite_sequence db) v.

(** ** Requests and responses *)

(** The fields the two payment handlers take from [req.body]. *)
Record PaymentBody : Type := mkPaymentBody {
  body_name : jsval;
  body_phone : jsval;
  body_address : jsval;
  body_amount : jsval
}.

(** The JSON objects the handlers send, by shape. *)
Inductive ResBody : Type :=
| ErrorBody (error : string)
    (** [{ error }] *)
| UpiUrlBody (upiUrl : string)
    (** [{ upiUrl }] *)
| SavedBody (transactionId : string) (payment : option Payment)
    (** [{ status: "success", transactionId, payment }] *)
| LoginBody (success : bool) (token : option string) (error : option string)
    (** [{ success, token }] or [{ success, error }] *)
| SuccessBody (success : bool)
    (** [{ success }] *)
| StatusBody (success : bool) (status : string)
    (** [{ success, status }] *)
| RowsBody (rows : list Payment)
| ValueBody (value : string)
    (** [{ value }] *).

Record Response : Type := mkResponse {
  code : N;
  body : ResBody
}.

Definition json (b : ResBody) : Response := mkResponse 200 b.

(** The [success] member of a response, when it has one. *)
Definition success_of (r : Response) : option bool :=
  match body r with
  | LoginBody s _ _ | SuccessBody s | StatusBody s _ => Some s
  | _ => None
  end.

Definition paused_message : string :=
  "Payments are currently paused by the administrator.".

Section Server.

Context `{RT : Runtime}.

(** POST /api/initiate-manual-payment *)
Definition initiate_manual_payment (db : DB) (b : PaymentBody)
  : Response * DB :=
  if String.eqb (payment_status db) "paused" then
    (mkResponse 403 (ErrorBody paused_message), db)
  else
    let upiId := env_or ADMIN_UPI_ID "9511648488@ybl" in
    let adminName := env_or ADMIN_NAME "Abhay Rathod" in
    match encodeURIComponent adminName,
          encodeURIComponent ("Payment from " ++ js_to_string (body_name b))
    with
    | Some pn, Some tn =>
        let upiUrl :=
          "upi://pay?pa=" ++ upiId ++ "&pn=" ++ pn ++ "&am=" ++
          js_to_string (body_amount b) ++ "&cu=INR&tn=" ++ tn in
        (json (UpiUrlBody upiUrl), db)
    | _, _ =>
        (mkResponse 500 (ErrorBody "Failed to initiate payment"), db)
    end.

(** The receipt id of the submit handler: REC-[YYYYMMDD]-[sequence]. *)
Definition dateStr (today : DateTime) : string :=
  remove_dashes (slice0 10 (toISOString today)).

Definition sequentialNumber (count : N) : string :=
  padStart 4 "0"%char (toString (count + 1)).

Definition make_transactionId (clk : Clock) (db : DB) : string :=
  "REC-" ++ dateStr (js_now clk) ++ "-" ++
  sequentialNumber (count_since (sql_date (count_now clk)) db).

(** POST /api/submit-manual-payment *)
Definition submit_manual_payment (clk : Clock) (db : DB) (b : PaymentBody)
  : Response * DB :=
  if String.eqb (payment_status db) "paused" then
    (mkResponse 403 (ErrorBody paused_message), db)
  else
    let transactionId := make_transactionId clk db in
    match insert_payment (insert_now clk) db transactionId
            (body_name b) (body_phone b) (body_address b) (body_amount b)
            "success"
    with
    | Some db' =>
        let payment := select_by_transaction_id transactionId db' in
        (json (SavedBody transactionId payment), db')
    | None =>
        (mkResponse 500 (ErrorBody "Failed to save payment"), db)
    end.

(** POST /api/admin/login *)
Definition admin_login (db : DB) (username password : jsval)
  : Response * DB :=
  let adminUser := env_or ADMIN_USERNAME "Abhay" in
  let adminPass := env_or ADMIN_PASSWORD "Abhay123" in
  if strict_eq_str username adminUser && strict_eq_str password adminPass
  then (json (LoginBody true (Some "admin-session-token") None), db)
  else (mkResponse 401 (LoginBody false None (Some "Invalid credentials")), db).

(** GET /api/admin/payments *)
Definition admin_payments (db : DB) : Response * DB :=
  (json (RowsBody (select_active db)), db).

(** GET /api/admin/trash *)
Definition admin_trash (db : DB) : Response * DB :=
  (json (RowsBody (select_trashed db)), db).

(** GET /api/payment-status *)
Definition get_payment_status (db : DB) : Response * DB :=
  (json (ValueBody (payment_status db)), db).

(** POST /api/admin/update-status *)
Definition update_status (db : DB) (st : jsval) : Response * DB :=
  match st with
  | JStr s =>
      if negb (String.eqb s "active") && negb (String.eqb s "paused") then
        (mkResponse 400 (ErrorBody "Invalid status"), db)
      else (json (StatusBody true s), update_payment_status s db)
  | _ => (mkResponse 400 (ErrorBody "Invalid status"), db)
  end.

(** POST /api/admin/delete-payment/:id *)
Definition delete_payment (db : DB) (param : string) : Response * DB :=
  (json (SuccessBody true), update_is_trashed_by_id true param db).

(** POST /api/admin/restore-payment/:id *)
Definition restore_payment (db : DB) (param : string) : Response * DB :=
  (json (SuccessBody true), update_is_trashed_by_id false param db).

(** POST /api/admin/permanent-delete/:id *)
Definition permanent_delete (db : DB) (param : string) : Response * DB :=
  (json (SuccessBody true), delete_trashed_by_id param db).

(** POST /api/admin/clear-payments *)
Definition clear_payments (db : DB) : Response * DB :=
  (json (SuccessBody true), trash_all db).

(** POST /api/admin/restore-payments *)
Definition restore_payments (db : DB) : Response * DB :=
  (json (SuccessBody true), restore_all db).

(** POST /api/admin/empty-trash *)
Definition empty_trash (db : DB) : Response * DB :=
  (json (SuccessBody true), delete_all_trashed db).

(** *** The router *)

Inductive Request : Type :=
| InitiateManualPayment (b : PaymentBody)
| SubmitManualPayment (clk : Clock) (b : PaymentBody)
| AdminLogin (username password : jsval)
| AdminPayments
| AdminTrash
| PaymentStatus
| UpdateStatus (st : jsval)
| DeletePayment (param : string)
| RestorePayment (param : string)
| PermanentDelete (param : string)
| ClearPayments
| RestorePayments
| EmptyTrash.

Definition handle (db : DB) (rq : Request) : Response * DB :=
  match rq with
  | InitiateManualPayment b => initiate_manual_payment db b
  | SubmitManualPayment clk b => submit_manual_payment clk db b
  | AdminLogin u p => admin_login db u p
  | AdminPayments => admin_payments db
  | AdminTrash => admin_trash db
  | PaymentStatus => get_payment_status db
  | UpdateStatus st => update_status db st
  | DeletePayment p => delete_payment db p
  | RestorePayment p => restore_payment db p
  | PermanentDelete p => permanent_delete db p
  | ClearPayments => clear_payments db
  | RestorePayments => restore_payments db
  | EmptyTrash => empty_trash db
  end.

(** The server on a sequence of requests, each handled to completion: the
    exchanges in order, and the database at the end. *)
Fixpoint serve (db : DB) (rqs : list Request)
  : list (Request * Response) * DB :=
  match rqs with
  | [] => ([], db)
  | rq :: rest =>
      let (r, db1) := handle db rq in
      let (rs, db2) := serve db1 rest in
      ((rq, r) :: rs, db2)
  end.

(** The privileged routes: those acting on records or on the gate. *)
Definition privileged (rq : Request) : bool :=
  match rq with
  | UpdateStatus _ | DeletePayment _ | RestorePayment _ | PermanentDelete _
  | ClearPayments | RestorePayments | EmptyTrash => true
  | _ => false
  end.

Definition is_login (rq : Request) : bool :=
  match rq with
  | AdminLogin _ _ => true
  | _ => false
  end.

(** *** The payment form of the client *)

Record FormData : Type := mkFormData {
  form_name : string;
  form_phone : string;
  form_address : string;
  form_amount : string
}.

Inductive View : Type :=
| ViewForm | ViewQr | ViewSuccess | ViewAdminLogin | ViewAdminDashboard.

(** The part of the state of [App] that [handlePayment] reads and sets. *)
Record AppState : Type := mkAppState {
  view : View;
  loading : bool;
  app_error : option string;
  upiUrl : option string;
  formData : FormData
}.

(** The three checks at the head of [handlePayment]: the message it sets
    when one fails. *)
Definition validate (f : FormData) : option string :=
  if String.eqb (form_name f) "" || String.eqb (form_phone f) "" ||
     String.eqb (form_address f) "" || String.eqb (form_amount f) ""
  then Some "All fields are required"
  else if negb (ten_digits (form_phone f))
  then Some "Please enter a valid 10-digit phone number"
  else if num_lt (parseFloat (form_amount f)) (Finite 100)
  then Some "Minimum payment amount is ₹100"
  else None.

(** [JSON.stringify] of a number, read back by the server: null unless the
    number is finite. *)
Definition json_number (n : number) : jsval :=
  match n with
  | Finite _ => JNum n
  | _ => JNull
  end.

(** The body [handlePayment] and [confirmPayment] post. *)
Definition request_body (f : FormData) : PaymentBody :=
  mkPaymentBody (JStr (form_name f)) (JStr (form_phone f))
    (JStr (form_address f)) (json_number (parseFloat (form_amount f))).

(** [handlePayment], with the server it posts to.  The second component
    tells whether a request was sent. *)
Definition handlePayment (st : AppState) (db : DB)
  : AppState * bool * DB :=
  let f := formData st in
  match validate f with
  | Some msg => (mkAppState (view st) false (Some msg) (upiUrl st) f, false, db)
  | None =>
      let (res, db') := initiate_manual_payment db (request_body f) in
      match body res with
      | ErrorBody e =>
          if String.eqb e "" then
            (mkAppState ViewQr false None None f, true, db')
          else (mkAppState (view st) false (Some e) (upiUrl st) f, true, db')
      | UpiUrlBody u => (mkAppState ViewQr false None (Some u) f, true, db')
      | _ => (mkAppState ViewQr false None None f, true, db')
      end
  end.

End Server.

(** ** The rest of the client *)

(** [s.replace(/\D/g, '')]: every character that is not a decimal digit
    is dropped. *)
Fixpoint remove_non_digits (s : string) : string :=
  match s with
  | EmptyString => ""
  | String c r =>
      if is_digit c then String c (remove_non_digits r)
      else remove_non_digits r
  end.

(** [s.includes(t)] *)
Fixpoint includes (s t : string) : bool :=
  String.prefix t s ||
  match s with
  | EmptyString => false
  | String _ r => includes r t
  end.

(** The state of [App]: the part of [AppState], and the other state
    variables.  [listedPayments] is the state variable [payments];
    [noReceipts] is the item of that name in the local storage of the
    browser; [alerts] are the messages shown by [alert], last first. *)
Record Ui : Type := mkUi {
  app : AppState;
  lastPayment : option Payment;
  adminAuth : bool;
  listedPayments : list Payment;
  trashPayments : list Payment;
  showTrash : bool;
  searchTerm : string;
  paymentStatus : string;
  noReceipts : option string;
  alerts : list string
}.

(** The state at the first render. *)
Definition initial_ui : Ui :=
  mkUi (mkAppState ViewForm false None (Some "") (mkFormData "" "" "" ""))
    None false [] [] false "" "active" None [].

Definition set_app (a : AppState) (u : Ui) : Ui :=
  mkUi a (lastPayment u) (adminAuth u) (listedPayments u) (trashPayments u)
    (showTrash u) (searchTerm u) (paymentStatus u) (noReceipts u) (alerts u).

Definition setView (v : View) (u : Ui) : Ui :=
  set_app (mkAppState v (loading (app u)) (app_error (app u))
             (upiUrl (app u)) (formData (app u))) u.

Definition setError (e : option string) (u : Ui) : Ui :=
  set_app (mkAppState (view (app u)) (loading (app u)) e
             (upiUrl (app u)) (formData (app u))) u.

Definition setFormData (f : FormData) (u : Ui) : Ui :=
  set_app (mkAppState (view (app u)) (loading (app u)) (app_error (app u))
             (upiUrl (app u)) f) u.

Definition setAdminAuth (b : bool) (u : Ui) : Ui :=
  mkUi (app u) (lastPayment u) b (listedPayments u) (trashPayments u)
    (showTrash u) (searchTerm u) (paymentStatus u) (noReceipts u) (alerts u).

Definition setPayments (l : list Payment) (u : Ui) : Ui :=
  mkUi (app u) (lastPayment u) (adminAuth u) l (trashPayments u)
    (showTrash u) (searchTerm u) (paymentStatus u) (noReceipts u) (alerts u).

Definition setTrashPayments (l : list Payment) (u : Ui) : Ui :=
  mkUi (app u) (lastPayment u) (adminAuth u) (listedPayments u) l
    (showTrash u) (searchTerm u) (paymentStatus u) (noReceipts u) (alerts u).

Definition setShowTrash (b : bool) (u : Ui) : Ui :=
  mkUi (app u) (lastPayment u) (adminAuth u) (listedPayments u)
    (trashPayments u) b (searchTerm u) (paymentStatus u) (noReceipts u)
    (alerts u).

Definition setSearchTerm (t : string) (u : Ui) : Ui :=
  mkUi (app u) (lastPayment u) (adminAuth u) (listedPayments u)
    (trashPayments u) (showTrash u) t (paymentStatus u) (noReceipts u)
    (alerts u).

Definition setPaymentStatus (v : string) (u : Ui) : Ui :=
  mkUi (app u) (lastPayment u) (adminAuth u) (listedPayments u)
    (trashPayments u) (showTrash u) (searchTerm u) v (noReceipts u)
    (alerts u).

Definition setLastPayment (p : option Payment) (u : Ui) : Ui :=
  mkUi (app u) p (adminAuth u) (listedPayments u) (trashPayments u)
    (showTrash u) (searchTerm u) (paymentStatus u) (noReceipts u) (alerts u).

Definition alert (msg : string) (u : Ui) : Ui :=
  mkUi (app u) (lastPayment u) (adminAuth u) (listedPayments u)
    (trashPayments u) (showTrash u) (searchTerm u) (paymentStatus u)
    (noReceipts u) (msg :: alerts u).

(** [localStorage.setItem('noReceipts', 'true')] *)
Definition blockReceipts (u : Ui) : Ui :=
  mkUi (app u) (lastPayment u) (adminAuth u) (listedPayments u)
    (trashPayments u) (showTrash u) (searchTerm u) (paymentStatus u)
    (Some "true") (alerts u).

(** [localStorage.getItem('noReceipts') === 'true'] *)
Definition receipts_blocked (u : Ui) : bool :=
  match noReceipts u with
  | Some v => String.eqb v "true"
  | None => false
  end.

Section Client.

Context `{RT : Runtime}.

(** The browser and the server on a settled page, with this browser as the
    only client: every handler is run to its end, requests and answers
    included, before the next one starts.  The page calls [fetchPayments()]
    and [fetchTrash()] without waiting for them; here their answers too
    arrive, in the order of the calls, before the next event. *)
Definition World : Type := (Ui * DB)%type.

Definition fetchPaymentStatus (w : World) : World :=
  let (u, db) := w in
  let (res, db') := get_payment_status db in
  match body res with
  | ValueBody v =>
      if String.eqb v "" then (u, db') else (setPaymentStatus v u, db')
  | _ => (u, db')
  end.

Definition fetchPayments (w : World) : World :=
  let (u, db) := w in
  let (res, db') := admin_payments db in
  match body res with
  | RowsBody rows => (setPayments rows u, db')
  | _ => (u, db')
  end.

Definition fetchTrash (w : World) : World :=
  let (u, db) := w in
  let (res, db') := admin_trash db in
  match body res with
  | RowsBody rows => (setTrashPayments rows u, db')
  | _ => (u, db')
  end.

(** The effect run once after the first render. *)
Definition mount (w : World) : World :=
  let (u, db) := fetchTrash (fetchPaymentStatus w) in
  (blockReceipts u, db).

(** [togglePaymentStatus(newStatus)] *)
Definition togglePaymentStatus (newStatus : string) (w : World) : World :=
  let (u, db) := w in
  let (res, db') := update_status db (JStr newStatus) in
  match success_of res with
  | Some true => (setPaymentStatus newStatus u, db')
  | _ => (u, db')
  end.

(** [handlePayment], on the whole state. *)
Definition submitPaymentForm (w : World) : World :=
  let (u, db) := w in
  let '(a, _, db') := handlePayment (app u) db in
  (set_app a u, db').

(** [confirmPayment] *)
Definition confirmPayment (clk : Clock) (w : World) : World :=
  let (u, db) := w in
  let f := formData (app u) in
  let (res, db') := submit_manual_payment clk db (request_body f) in
  match body res with
  | SavedBody _ payment =>
      let u1 := setLastPayment payment u in
      if receipts_blocked u then
        (alert "Payment submitted successfully"
           (set_app (mkAppState ViewForm false None (upiUrl (app u))
                       (mkFormData "" "" "" "")) u1), db')
      else
        (set_app (mkAppState ViewSuccess false None (upiUrl (app u)) f) u1,
         db')
  | _ =>
      (set_app (mkAppState (view (app u)) false
                  (Some "Failed to save payment") (upiUrl (app u)) f) u,
       db')
  end.

(** [handleAdminLogin], with the two values of the login form. *)
Definition handleAdminLogin (username password : string) (w : World)
  : World :=
  let (u, db) := w in
  let (res, db') := admin_login db (JStr username) (JStr password) in
  match success_of res with
  | Some true =>
      let (u1, db1) := fetchPayments (setAdminAuth true u, db') in
      (setView ViewAdminDashboard u1, db1)
  | _ => (setError (Some "Invalid credentials") u, db')
  end.

(** The id of a listed row, as the template literal prints it. *)
Definition id_text (i : Z) : string :=
  number_to_string (Finite (inject_Z i)).

(** [clearPayments]; [confirmed] is the answer to [window.confirm]. *)
Definition clearPayments (confirmed : bool) (w : World) : World :=
  if negb confirmed then w
  else
    let (u, db) := w in
    let (res, db') := clear_payments db in
    match success_of res with
    | Some true => fetchTrash (setPayments [] u, db')
    | _ => (alert "Failed to clear payments" u, db')
    end.

(** [restorePayments] *)
Definition restorePayments (w : World) : World :=
  let (u, db) := w in
  let (res, db') := restore_payments db in
  match success_of res with
  | Some true =>
      let (u1, db1) := fetchTrash (fetchPayments (u, db')) in
      (setShowTrash false u1, db1)
  | _ => (u, db')
  end.

(** [emptyTrash] *)
Definition emptyTrash (confirmed : bool) (w : World) : World :=
  if negb confirmed then w
  else
    let (u, db) := w in
    let (res, db') := empty_trash db in
    match success_of res with
    | Some true => (setTrashPayments [] u, db')
    | _ => (u, db')
    end.

(** [deletePayment(id)] *)
Definition deletePayment (i : Z) (confirmed : bool) (w : World) : World :=
  if negb confirmed then w
  else
    let (u, db) := w in
    let (res, db') := delete_payment db (id_text i) in
    match success_of res with
    | Some true => fetchTrash (fetchPayments (u, db'))
    | _ => (u, db')
    end.

(** [restorePayment(id)] *)
Definition restorePayment (i : Z) (w : World) : World :=
  let (u, db) := w in
  let (res, db') := restore_payment db (id_text i) in
  match success_of res with
  | Some true => fetchTrash (fetchPayments (u, db'))
  | _ => (u, db')
  end.

(** [permanentDeletePayment(id)] *)
Definition permanentDeletePayment (i : Z) (confirmed : bool) (w : World)
  : World :=
  if negb confirmed then w
  else
    let (u, db) := w in
    let (res, db') := permanent_delete db (id_text i) in
    match success_of res with
    | Some true => fetchTrash (u, db')
    | _ => (u, db')
    end.

(** The Trash Bin button: [setShowTrash(!showTrash)], and [fetchTrash()]
    when the bin is being opened. *)
Definition toggleTrash (w : World) : World :=
  let (u, db) := w in
  let w1 := (setShowTrash (negb (showTrash u)) u, db) in
  if negb (showTrash u) then fetchTrash w1 else w1.

(** What the user can do, by the handler it runs. *)
Inductive UiEvent : Type :=
| ClickShowForm
    (** the logo, Cancel, Make Another Payment, Back to Payment Form:
        [setView('form')] *)
| ClickAdminLogin
    (** [setView('admin-login')] *)
| ClickLogout
    (** [setAdminAuth(false); setView('form')] *)
| ChangeName (v : string)
| ChangePhone (v : string)
| ChangeAddress (v : string)
| ChangeAmount (v : string)
| SubmitPaymentForm
| ClickQrCode (clk : Clock)
| SubmitLoginForm (username password : string)
| ClickPlay
| ClickPause
| ClickTrashBin
| ClickRestoreAll
| ClickEmptyTrash (confirmed : bool)
| ChangeSearch (v : string)
| ClickTrashRow (i : Z) (confirmed : bool)
| ClickRestoreRow (i : Z)
| ClickPurgeRow (i : Z) (confirmed : bool).

Definition on_ui (f : Ui -> Ui) (w : World) : World := (f (fst w), snd w).

Definition ui_step (w : World) (e : UiEvent) : World :=
  match e with
  | ClickShowForm => on_ui (setView ViewForm) w
  | ClickAdminLogin => on_ui (setView ViewAdminLogin) w
  | ClickLogout => on_ui (fun u => setView ViewForm (setAdminAuth false u)) w
  | ChangeName v =>
      on_ui (fun u =>
               let f := formData (app u) in
               setFormData (mkFormData v (form_phone f) (form_address f)
                              (form_amount f)) u) w
  | ChangePhone v =>
      on_ui (fun u =>
               let f := formData (app u) in
               setFormData (mkFormData (form_name f) (remove_non_digits v)
                              (form_address f) (form_amount f)) u) w
  | ChangeAddress v =>
      on_ui (fun u =>
               let f := formData (app u) in
               setFormData (mkFormData (form_name f) (form_phone f) v
                              (form_amount f)) u) w
  | ChangeAmount v =>
      on_ui (fun u =>
               let f := formData (app u) in
               setFormData (mkFormData (form_name f) (form_phone f)
                              (form_address f) v) u) w
  | SubmitPaymentForm => submitPaymentForm w
  | ClickQrCode clk => confirmPayment clk w
  | SubmitLoginForm username password => handleAdminLogin username password w
  | ClickPlay => togglePaymentStatus "active" w
  | ClickPause => togglePaymentStatus "paused" w
  | ClickTrashBin => toggleTrash w
  | ClickRestoreAll => restorePayments w
  | ClickEmptyTrash c => emptyTrash c w
  | ChangeSearch v => on_ui (setSearchTerm v) w
  | ClickTrashRow i c => deletePayment i c w
  | ClickRestoreRow i => restorePayment i w
  | ClickPurgeRow i c => permanentDeletePayment i c w
  end.

(** The page from its first render on: the mount effect, then the
    events. *)
Definition ui_run (db : DB) (es : list UiEvent) : World :=
  fold_left ui_step es (mount (initial_ui, db)).

End Client.

(** [filteredPayments], and the filter of the table rows: the search term
    in the name or the transaction id, whatever the case of the letters,
    or in the phone.  [toLowerCase] is the built-in. *)
Definition matches_search (toLowerCase : string -> string) (term : string)
    (p : Payment) : bool :=
  includes (toLowerCase (name p)) (toLowerCase term) ||
  includes (phone p) term ||
  includes (toLowerCase (transaction_id p)) (toLowerCase term).

Definition filteredPayments (toLowerCase : string -> string)
    (term : string) (rows : list Payment) : list Payment :=
  filter (matches_search toLowerCase term) rows.

(** ** Notions of the statements *)

(** PRIMARY KEY on [id] and UNIQUE on [transaction_id]. *)
Definition db_ok (db : DB) : Prop :=
  NoDup (map id (payments db)) /\ NoDup (map transaction_id (payments db)).

(** The states in which a single-record operation has nothing to do: no row
    has the id, or the row is already in the state asked for (for permanent
    delete: is not in the trash). *)
Definition nothing_to_do `{Runtime} (rq : Request) (db : DB) : Prop :=
  match rq with
  | DeletePayment p =>
      forall r, In r (payments db) -> id_matches p r = true ->
                is_trashed r = true
  | RestorePayment p | PermanentDelete p =>
      forall r, In r (payments db) -> id_matches p r = true ->
                is_trashed r = false
  | _ => False
  end.

(** The date of the receipt id: the eight digits of the UTC date. *)
Definition yyyymmdd (t : DateTime) : string :=
  four_digits (year t) ++ two_digits (month t) ++ two_digits (day t).

(** Whether the instant [d] falls on the UTC day of [today] or later. *)
Definition on_or_after_day (today d : DateTime) : bool :=
  match year d ?= year today with
  | Lt => false
  | Gt => true
  | Eq =>
      match month d ?= month today with
      | Lt => false
      | Gt => true
      | Eq => negb (day d <? day today)
      end
  end.

(** The row a submission writes when its fields are stored as [cn], [cp],
    [ca] and [cm]. *)
Definition new_row (clk : Clock) (db : DB) (cn cp ca : string)
    (cm : amount_value) : Payment :=
  mkPayment (next_rowid db) (make_transactionId clk db) cn cp ca cm
    "success" false (sql_current_timestamp (insert_now clk)).

Definition db_with_row (db : DB) (row : Payment) : DB :=
  mkDB (payments db ++ [row]) (id row) (payment_status db).

(** A body of three texts and a finite amount. *)
Definition plain_body (n p a : string) (q : Q) : PaymentBody :=
  mkPaymentBody (JStr n) (JStr p) (JStr a) (JNum (Finite q)).

(** The messages of the form. *)
Definition validation_messages : list string :=
  ["All fields are required";
   "Please enter a valid 10-digit phone number";
   "Minimum payment amount is ₹100"].

(** ** Notions of the further statements *)

(** The two values the gate setting can take. *)
Definition valid_status (s : string) : Prop := s = "active" \/ s = "paused".

Definition is_update_status (rq : Request) : bool :=
  match rq with
  | UpdateStatus _ => true
  | _ => false
  end.

(** The two routes of the payment flow. *)
Definition is_payment_request (rq : Request) : bool :=
  match rq with
  | InitiateManualPayment _ | SubmitManualPayment _ _ => true
  | _ => false
  end.

(** The routes that move records to the trash. *)
Definition is_trash_request (rq : Request) : bool :=
  match rq with
  | DeletePayment _ | ClearPayments => true
  | _ => false
  end.

(** No row has an id above the AUTOINCREMENT counter. *)
Definition counter_ok (db : DB) : Prop :=
  forall r, In r (payments db) -> (id r <= sqlite_sequence db)%Z.

(** The values the driver binds and a NOT NULL column takes. *)
Definition storable (v : jsval) : bool :=
  match v with
  | JStr _ => true
  | JNum NaN => false
  | JNum _ => true
  | _ => false
  end.

Definition is_array (v : jsval) : bool :=
  match v with
  | JArray _ => true
  | _ => false
  end.

Definition is_plain_object (v : jsval) : bool :=
  match v with
  | JObject _ => true
  | _ => false
  end.

(** The values an argument of [stmt.run] stands for: the elements of an
    array, none for a plain object, the argument itself otherwise. *)
Definition spread (v : jsval) : list jsval :=
  match v with
  | JArray items => items
  | JObject _ => []
  | _ => [v]
  end.

(** What the four fields of a body give to the placeholders between the
    receipt id and the status. *)
Definition field_values (b : PaymentBody) : list jsval :=
  (spread (body_name b) ++ spread (body_phone b) ++
   spread (body_address b) ++ spread (body_amount b))%list.

Definition no_plain_object (b : PaymentBody) : Prop :=
  is_plain_object (body_name b) = false /\
  is_plain_object (body_phone b) = false /\
  is_plain_object (body_address b) = false /\
  is_plain_object (body_amount b) = false.

Definition no_array (b : PaymentBody) : Prop :=
  is_array (body_name b) = false /\ is_array (body_phone b) = false /\
  is_array (body_address b) = false /\ is_array (body_amount b) = false.

(** Newest first: [a] may stand before [b] in a listing. *)
Definition not_older (a b : Payment) : Prop :=
  String.leb (created_at b) (created_at a) = true.

(** The clock reads of a submit all fall on the UTC day of [D]. *)
Definition on_day (D : DateTime) (clk : Clock) : Prop :=
  wf_datetime (count_now clk) /\ wf_datetime (insert_now clk) /\
  same_day (js_now clk) D /\ same_day (count_now clk) D /\
  same_day (insert_now clk) D.

(** The receipt id of the day of [D] with sequence [k] + 1. *)
Definition receipt_of_day (D : DateTime) (k : nat) : string :=
  "REC-" ++ yyyymmdd D ++ "-" ++ sequentialNumber (N.of_nat k).

Definition is_plain (b : PaymentBody) : Prop :=
  exists n p a q, b = plain_body n p a q.

(** ** A runtime for examples

    Enough of Node and SQLite to run the handlers on the inputs used in the
    examples below: no environment variable is set, and the conversions are
    those of the real platform on texts of one to fifteen decimal digits
    and on non-negative integers below 10^15.  Outside of these the
    platform does more (exponents, signs, fractions, spaces around a
    number); the examples stay inside. *)

Definition integer_text (n : number) : string :=
  match n with
  | Finite (Qmake (Zpos p) 1) => toString (Npos p)
  | Finite (Qmake Z0 1) => "0"
  | _ => "NaN"
  end.

(** A REAL value in a TEXT column: SQLite prints the fraction too. *)
Definition real_text (n : number) : string :=
  match n with
  | Finite (Qmake (Zpos p) 1) => toString (Npos p) ++ ".0"
  | Finite (Qmake Z0 1) => "0.0"
  | _ => "NaN"
  end.

Definition N_number (n : N) : number := Finite (inject_Z (Z.of_N n)).

Definition unreserved (c : ascii) : bool :=
  let n := N_of_ascii c in
  ((65 <=? n) && (n <=? 90)) || ((97 <=? n) && (n <=? 122)) || is_digit c ||
  existsb (Ascii.eqb c) (list_ascii_of_string "-_.!~*'()").

Definition hex_digit (d : N) : ascii :=
  if d <? 10 then ascii_of_N (48 + d) else ascii_of_N (55 + d).

Fixpoint percent_encode (s : string) : string :=
  match s with
  | EmptyString => ""
  | String c r =>
      if unreserved c then String c (percent_encode r)
      else
        let n := N_of_ascii c in
        String "%" (String (hex_digit (n / 16))
          (String (hex_digit (n mod 16)) (percent_encode r)))
  end.

Definition sample_runtime : Runtime := {|
  ADMIN_UPI_ID := None;
  ADMIN_NAME := None;
  ADMIN_USERNAME := None;
  ADMIN_PASSWORD := None;
  encodeURIComponent := fun s => Some (percent_encode s);
  number_to_string := integer_text;
  parseFloat := fun s =>
    match digits_number s with Some n => N_number n | None => NaN end;
  sql_text_of_number := real_text;
  sql_real_of_text := fun s => option_map N_number (digits_number s);
  sql_integer_of_text := fun s => option_map Z.of_N (digits_number s)
|}.

Definition noon : DateTime := mkDateTime 2026 11 3 12 0 0 0 eq_refl.
Definition later : DateTime := mkDateTime 2026 11 3 12 30 15 250 eq_refl.

Definition alice : PaymentBody :=
  mkPaymentBody (JStr "Alice") (JStr "9876543210") (JStr "12 Hill Road")
    (JNum (N_number 500)).

Definition bob : PaymentBody :=
  mkPaymentBody (JStr "Bob") (JStr "9123456780") (JStr "4 Lake View")
    (JNum (N_number 250)).

Definition serve_sample : DB -> list Request -> list (Request * Response) * DB :=
  @serve sample_runtime.

(** Two payments on the same day. *)
Definition two_payments : DB :=
  snd (serve_sample initial_db
         [SubmitManualPayment (at_instant noon) alice;
          SubmitManualPayment (at_instant later) bob]).

(** The same, with the first payment moved to the trash. *)
Definition first_in_trash : DB :=
  snd (serve_sample two_payments [DeletePayment "1"]).

Definition alice_row (trashed : bool) : Payment :=
  mkPayment 1 "REC-20261103-0001" "Alice" "9876543210" "12 Hill Road"
    (Real (N_number 500)) "success" trashed "2026-11-03 12:00:00".

Definition bob_row (trashed : bool) : Payment :=
  mkPayment 2 "REC-20261103-0002" "Bob" "9123456780" "4 Lake View"
    (Real (N_number 250)) "success" trashed "2026-11-03 12:30:15".

Definition submit_sample : Clock -> DB -> PaymentBody -> Response * DB :=
  @submit_manual_payment sample_runtime.

Definition one_payment : DB := mkDB [alice_row false] 1 "active".

(** A form that the checks of [handlePayment] turn down, and the body made
    of its fields. *)
Definition short_phone : FormData :=
  mkFormData "Carol" "12345" "7 Mill Lane" "99".

Definition short_phone_body : PaymentBody :=
  mkPaymentBody (JStr "Carol") (JStr "12345") (JStr "7 Mill Lane")
    (JNum (N_number 99)).

Definition carol_row : Payment :=
  mkPayment 1 "REC-20261103-0001" "Carol" "12345" "7 Mill Lane"
    (Real (N_number 99)) "success" false "2026-11-03 12:00:00".

(** A day on which 10000 payments have been stored, as 10000 submits at
    noon store them. *)
Definition busy_row (k : N) : Payment :=
  mkPayment (Z.of_N k) ("REC-20261103-" ++ sequentialNumber (k - 1))
    "Alice" "9876543210" "12 Hill Road" (Real (N_number 500)) "success"
    false "2026-11-03 12:00:00".

Definition busy_day : DB :=
  mkDB (map (fun k => busy_row (N.of_nat k)) (seq 1 (N.to_nat 10000)))
    10000 "active".

(** The table after two payments of which the first was moved to the trash
    and permanently deleted. *)
Definition after_purge : DB :=
  snd (serve_sample two_payments [DeletePayment "1"; PermanentDelete "1"]).

(** A form that passes the checks, one with an amount that is no number,
    and the page holding each. *)
Definition alice_form : FormData :=
  mkFormData "Alice" "9876543210" "12 Hill Road" "500".

Definition worded_amount : FormData :=
  mkFormData "Alice" "9876543210" "12 Hill Road" "five hundred".

Definition page_with (f : FormData) : Ui := setFormData f initial_ui.

(** A body whose name is an array of two texts and whose phone is the empty
    array, and the row the server stores for it. *)
Definition spread_body : PaymentBody :=
  mkPaymentBody (JArray [JStr "Dev"; JStr "9000000001"]) (JArray [])
    (JStr "3 Park Row") (JNum (N_number 250)).

Definition dev_row : Payment :=
  mkPayment 1 "REC-20261103-0001" "Dev" "9000000001" "3 Park Row"
    (Real (N_number 250)) "success" false "2026-11-03 12:00:00".

Definition paused_db : DB := snd (update_status initial_db (JStr "paused")).

(** * Properties *)

(** ** Tactics *)

(** Linear arithmetic with division and remainder by constants. *)
Ltac lia_div := zify; Z.to_euclidean_division_equations; lia.

Ltac decide_lt n m :=
  let C := fresh "C" in
  assert (C : (n ?= m) = Lt) by (apply N.compare_lt_iff; lia_div);
  rewrite C; reflexivity.

Ltac decide_gt n m :=
  let C := fresh "C" in
  assert (C : (n ?= m) = Gt) by (apply N.compare_gt_iff; lia_div);
  rewrite C; reflexivity.

(** A list of distinct closed keys has no repetition. *)
Ltac solve_nodup :=
  repeat (constructor; [simpl; intuition discriminate|]); constructor.


(** ** Lists and listings *)

Lemma in_insert_desc (x r : Payment) (l : list Payment) :
  In x (insert_desc r l) <-> x = r \/ In x l.
Proof.
  induction l as [|y l IH]; simpl.
  - intuition congruence.
  - destruct (String.leb (created_at y) (created_at r)); simpl.
    + intuition congruence.
    + rewrite IH. intuition congruence.
Qed.

Lemma in_order_by_created_at_desc (x : Payment) (l : list Payment) :
  In x (order_by_created_at_desc l) <-> In x l.
Proof.
  induction l as [|y l IH]; simpl.
  - tauto.
  - rewrite in_insert_desc, IH. intuition congruence.
Qed.

Lemma in_select_active (x : Payment) (db : DB) :
  In x (select_active db) <-> In x (payments db) /\ is_trashed x = false.
Proof.
  unfold select_active.
  rewrite in_order_by_created_at_desc, filter_In, negb_true_iff. tauto.
Qed.

Lemma in_select_trashed (x : Payment) (db : DB) :
  In x (select_trashed db) <-> In x (payments db) /\ is_trashed x = true.
Proof.
  unfold select_trashed.
  rewrite in_order_by_created_at_desc, filter_In. tauto.
Qed.

Lemma set_is_trashed_same (r : Payment) :
  set_is_trashed (is_trashed r) r = r.
Proof. destruct r; reflexivity. Qed.

Lemma map_unchanged {A : Type} (f : A -> A) (l : list A) :
  (forall x, In x l -> f x = x) -> map f l = l.
Proof.
  intros Hf. induction l as [|a l IH]; simpl.
  - reflexivity.
  - rewrite Hf by (left; reflexivity).
    rewrite IH by (intros x Hx; apply Hf; right; exact Hx). reflexivity.
Qed.

Lemma filter_unchanged {A : Type} (f : A -> bool) (l : list A) :
  (forall x, In x l -> f x = true) -> filter f l = l.
Proof.
  intros Hf. induction l as [|a l IH]; simpl.
  - reflexivity.
  - rewrite Hf by (left; reflexivity).
    rewrite IH by (intros x Hx; apply Hf; right; exact Hx). reflexivity.
Qed.

Lemma with_payments_same (db : DB) : with_payments db (payments db) = db.
Proof. destruct db; reflexivity. Qed.

(** ** The constraints of the schema *)

Lemma db_ok_initial : db_ok initial_db.
Proof. split; constructor. Qed.

Lemma max_rowid_bound (r : Payment) (rows : list Payment) :
  In r rows -> (id r <= max_rowid rows)%Z.
Proof.
  induction rows as [|x rows IH]; simpl; [tauto|].
  intros [->|Hin]; [lia|]. specialize (IH Hin). lia.
Qed.

Lemma has_transaction_id_false (tid : string) (rows : list Payment) :
  has_transaction_id tid rows = false ->
  ~ In tid (map transaction_id rows).
Proof.
  unfold has_transaction_id. intros Hex Hin.
  apply in_map_iff in Hin. destruct Hin as [r [Hr Hin]].
  assert (Ht : existsb (fun r => String.eqb (transaction_id r) tid) rows = true).
  { apply existsb_exists. exists r. split; [exact Hin|].
    rewrite Hr. apply String.eqb_refl. }
  congruence.
Qed.

Lemma NoDup_app_one {A : Type} (l : list A) (a : A) :
  NoDup l -> ~ In a l -> NoDup (l ++ [a]).
Proof.
  intros Hl Ha. induction l as [|x l IH]; simpl.
  - constructor; [tauto | constructor].
  - inversion Hl; subst. constructor.
    + rewrite in_app_iff. simpl. intros [H|[H|[]]]; [tauto|].
      apply Ha. left. symmetry. exact H.
    + apply IH; [assumption|]. intros H. apply Ha. right. exact H.
Qed.

(** Deleting rows keeps a column without repetition. *)
Lemma unique_column_after_delete {K : Type} (column : Payment -> K)
    (kept : Payment -> bool) (rows : list Payment) :
  NoDup (map column rows) -> NoDup (map column (filter kept rows)).
Proof.
  intros Hrows. induction rows as [|r rows IH]; simpl; [constructor|].
  apply NoDup_cons_iff in Hrows. destruct Hrows as [Hfresh Hrest].
  destruct (kept r); simpl; [|exact (IH Hrest)].
  constructor; [|exact (IH Hrest)].
  intros Hdup. apply Hfresh. apply in_map_iff in Hdup.
  destruct Hdup as [r' [Hkey Hin]]. apply filter_In in Hin.
  apply in_map_iff. exists r'. tauto.
Qed.

Section StoreProperties.

Context `{RT : Runtime}.

(** An argument that is bound as one value, at the end, gives the last
    value. *)
Lemma bind_arguments_last (o : bool) (args : list jsval) (w : jsval)
    (bw : sqlval) :
  bind_param w = Some bw ->
  bind_arguments o (args ++ [w]) =
  match bind_arguments o args with
  | Some cs => Some (cs ++ [bw])%list
  | None => None
  end.
Proof.
  intros Hw. revert o. induction args as [|v args IH]; intros o.
  { destruct w as [| |b|n|x|items|text]; try discriminate Hw;
      try destruct n; simpl in Hw; inversion Hw; reflexivity. }
  rewrite <- app_comm_cons.
  destruct v as [| |b|n|x|items|text];
    cbn [bind_arguments bind_param]; try reflexivity;
    try (rewrite IH; destruct (bind_arguments o args); reflexivity).
  - destruct n; rewrite IH; destruct (bind_arguments o args); reflexivity.
  - destruct (bind_array items) as [bs|]; [|reflexivity].
    rewrite IH. destruct (bind_arguments o args); [|reflexivity].
    rewrite app_assoc. reflexivity.
  - destruct o; [reflexivity|]. apply IH.
Qed.

(** The insertion in terms of the values of the four fields of the body:
    the receipt id and ['success'] fill the first and the last placeholder,
    so the fields must give exactly the four values in between. *)
Lemma insert_payment_fields (t : DateTime) (db : DB) (tid : string)
    (vn vp va vm : jsval) (st : string) :
  insert_payment t db tid vn vp va vm st =
  match bind_arguments false [vn; vp; va; vm] with
  | Some [bn; bp; ba; bm] => insert_row t db tid bn bp ba bm st
  | _ => None
  end.
Proof.
  unfold insert_payment.
  change [JStr tid; vn; vp; va; vm; JStr st]
    with (JStr tid :: ([vn; vp; va; vm] ++ [JStr st]))%list.
  change (bind_arguments false
            (JStr tid :: ([vn; vp; va; vm] ++ [JStr st]))%list)
    with (match bind_arguments false ([vn; vp; va; vm] ++ [JStr st])%list with
          | Some cs => Some (SqlText tid :: cs)
          | None => None
          end).
  rewrite (bind_arguments_last _ _ (JStr st) (SqlText st) eq_refl).
  destruct (bind_arguments false [vn; vp; va; vm])
    as [[|bn [|bp [|ba [|bm [|x l]]]]]|]; try reflexivity.
  destruct x, l; reflexivity.
Qed.

Ltac bound_values H :=
  rewrite insert_payment_fields in H;
  destruct (bind_arguments false _) as [[|bn [|bp [|ba [|bm [|? ?]]]]]|];
  try discriminate H; unfold insert_row in H.

(** What a successful insertion wrote. *)
Lemma insert_payment_some (t : DateTime) (db db' : DB) (tid : string)
    (vn vp va vm : jsval) (st : string) :
  insert_payment t db tid vn vp va vm st = Some db' ->
  exists cn cp ca cm,
    has_transaction_id tid (payments db) = false /\
    db' = mkDB (payments db ++
                 [mkPayment (next_rowid db) tid cn cp ca cm st false
                    (sql_current_timestamp t)])
            (next_rowid db) (payment_status db).
Proof.
  intros H. bound_values H.
  destruct (text_not_null bn) as [cn|]; [|discriminate].
  destruct (text_not_null bp) as [cp|]; [|discriminate].
  destruct (text_not_null ba) as [ca|]; [|discriminate].
  destruct (real_not_null bm) as [cm|]; [|discriminate].
  destruct (has_transaction_id tid (payments db)) eqn:Hex; [discriminate|].
  inversion H; subst. exists cn, cp, ca, cm. split; reflexivity.
Qed.

Lemma insert_payment_ok (t : DateTime) (db db' : DB) (tid : string)
    (vn vp va vm : jsval) (st : string) :
  db_ok db -> insert_payment t db tid vn vp va vm st = Some db' -> db_ok db'.
Proof.
  intros [Hid Htid] H.
  apply insert_payment_some in H.
  destruct H as [cn [cp [ca [cm [Hfresh ->]]]]].
  split; simpl; rewrite map_app; simpl.
  - apply NoDup_app_one; [exact Hid|].
    intros Hin. apply in_map_iff in Hin. destruct Hin as [r [Hr Hin]].
    apply max_rowid_bound in Hin. unfold next_rowid in Hr. lia.
  - apply NoDup_app_one; [exact Htid|].
    apply has_transaction_id_false. exact Hfresh.
Qed.

Lemma map_id_set_trashed (f : Payment -> bool) (b : bool)
    (rows : list Payment) :
  map id (map (fun r => if f r then set_is_trashed b r else r) rows) =
  map id rows.
Proof.
  rewrite map_map. apply map_ext. intros r. destruct (f r); reflexivity.
Qed.

Lemma map_tid_set_trashed (f : Payment -> bool) (b : bool)
    (rows : list Payment) :
  map transaction_id
    (map (fun r => if f r then set_is_trashed b r else r) rows) =
  map transaction_id rows.
Proof.
  rewrite map_map. apply map_ext. intros r. destruct (f r); reflexivity.
Qed.

(** Every handler keeps the constraints of the schema. *)
Lemma handle_db_ok (db : DB) (rq : Request) :
  db_ok db -> db_ok (snd (handle db rq)).
Proof.
  intros Hok. destruct rq; simpl; try exact Hok.
  - unfold initiate_manual_payment.
    destruct (String.eqb (payment_status db) "paused"); [exact Hok|].
    destruct (encodeURIComponent _); [|exact Hok].
    destruct (encodeURIComponent _); exact Hok.
  - unfold submit_manual_payment.
    destruct (String.eqb (payment_status db) "paused"); [exact Hok|].
    destruct (insert_payment _ _ _ _ _ _ _ _) as [db'|] eqn:Hins;
      [|exact Hok].
    simpl. eapply insert_payment_ok; eassumption.
  - unfold admin_login. destruct (_ && _); exact Hok.
  - unfold update_status. destruct st; try exact Hok.
    destruct (_ && _); exact Hok.
  - destruct Hok as [H1 H2]. split; simpl.
    + rewrite map_id_set_trashed. exact H1.
    + rewrite map_tid_set_trashed. exact H2.
  - destruct Hok as [H1 H2]. split; simpl.
    + rewrite map_id_set_trashed. exact H1.
    + rewrite map_tid_set_trashed. exact H2.
  - destruct Hok as [H1 H2]. split; simpl; apply unique_column_after_delete; assumption.
  - destruct Hok as [H1 H2]. split; simpl.
    + rewrite map_id_set_trashed. exact H1.
    + rewrite map_tid_set_trashed. exact H2.
  - destruct Hok as [H1 H2]. split; simpl.
    + rewrite map_id_set_trashed. exact H1.
    + rewrite map_tid_set_trashed. exact H2.
  - destruct Hok as [H1 H2]. split; simpl; apply unique_column_after_delete; assumption.
Qed.

Lemma serve_db_ok (rqs : list Request) (db : DB) :
  db_ok db -> db_ok (snd (serve db rqs)).
Proof.
  revert db. induction rqs as [|rq rqs IH]; intros db Hok; simpl.
  - exact Hok.
  - pose proof (handle_db_ok db rq Hok) as H1.
    destruct (handle db rq) as [r db1]. simpl in H1.
    specialize (IH db1 H1). destruct (serve db1 rqs) as [rs db2].
    exact IH.
Qed.

(** Two rows of a table with the same [id] are the same row. *)
Lemma same_id_same_row (rows : list Payment) (r x : Payment) :
  NoDup (map id rows) -> In r rows -> In x rows -> id r = id x -> r = x.
Proof.
  induction rows as [|y rows IH]; simpl; [tauto|].
  intros Hnd Hr Hx Heq. inversion Hnd as [|? ? Hnotin Hnd']; subst.
  destruct Hr as [->|Hr], Hx as [->|Hx].
  - reflexivity.
  - exfalso. apply Hnotin. rewrite Heq. apply in_map. exact Hx.
  - exfalso. apply Hnotin. rewrite <- Heq. apply in_map. exact Hr.
  - apply IH; assumption.
Qed.

Lemma id_matches_same_id (param : string) (r x : Payment) :
  id_matches param r = true -> id_matches param x = true -> id r = id x.
Proof.
  unfold id_matches. destruct (sql_integer_of_text param); [|discriminate].
  rewrite !Z.eqb_eq. congruence.
Qed.

End StoreProperties.

(** ** The payment gate *)

Section Gate.

Context `{RT : Runtime}.

(** C1.  While the setting is 'paused', the initiate handler and the submit
    handler both answer 403 with the paused message, and the database they
    leave is the one they found: no row is created and the AUTOINCREMENT
    counter does not move. *)
Theorem paused_gate_rejects_payments (clk : Clock) (db : DB)
    (b : PaymentBody) :
  payment_status db = "paused" ->
  initiate_manual_payment db b =
    (mkResponse 403 (ErrorBody paused_message), db) /\
  submit_manual_payment clk db b =
    (mkResponse 403 (ErrorBody paused_message), db).
Proof.
  intros Hp. unfold initiate_manual_payment, submit_manual_payment.
  rewrite Hp. simpl. split; reflexivity.
Qed.

End Gate.

Lemma paused_gate_rejects_payments_witness :
  let db := snd (update_status initial_db (JStr "paused")) in
  @initiate_manual_payment sample_runtime db alice =
    (mkResponse 403 (ErrorBody paused_message), db) /\
  @submit_manual_payment sample_runtime (at_instant noon) db alice =
    (mkResponse 403 (ErrorBody paused_message), db).
Proof.
  exact (@paused_gate_rejects_payments sample_runtime (at_instant noon)
           (snd (update_status initial_db (JStr "paused")))
           alice eq_refl).
Defined.

(** ** Trash, restore and permanent delete *)

Section Lifecycle.

Context `{RT : Runtime}.

Lemma find_map_preserved {A : Type} (f : A -> bool) (g : A -> A)
    (l : list A) :
  (forall x, f (g x) = f x) ->
  find f (map g l) = option_map g (find f l).
Proof.
  intros Hfg. induction l as [|a l IH]; simpl; [reflexivity|].
  rewrite Hfg. destruct (f a); [reflexivity | exact IH].
Qed.

Lemma id_matches_set_is_trashed (param : string) (b : bool) (r : Payment) :
  id_matches param (set_is_trashed b r) = id_matches param r.
Proof. reflexivity. Qed.

(** C6.  Permanent delete of a record removes it when, and only when, its
    [is_trashed] flag is set: the record is then in neither listing, no row
    with its id is left, and the rows kept are exactly the other rows.  On
    a record whose flag is clear the database is left as it was. *)
Theorem permanent_delete_only_trashed (db : DB) (param : string)
    (r : Payment) :
  db_ok db -> In r (payments db) -> id_matches param r = true ->
  let out := permanent_delete db param in
  (is_trashed r = true ->
     ~ In r (select_active (snd out)) /\
     ~ In r (select_trashed (snd out)) /\
     (forall x, In x (payments (snd out)) -> id x <> id r) /\
     (forall x, In x (payments (snd out)) <-> In x (payments db) /\ x <> r)) /\
  (is_trashed r = false -> snd out = db).
Proof.
  intros [Hid _] Hin Hm. simpl.
  assert (Honly : forall x, In x (payments db) ->
                    id_matches param x = true -> x = r).
  { intros x Hx Hmx. symmetry.
    apply (same_id_same_row (payments db)); try assumption.
    eapply id_matches_same_id; eassumption. }
  split.
  - intros Ht.
    assert (Hkept : forall x,
              In x (filter (fun r0 => negb (id_matches param r0 && is_trashed r0))
                      (payments db)) <-> In x (payments db) /\ x <> r).
    { intros x. rewrite filter_In. split.
      - intros [Hx Hk]. split; [exact Hx|]. intros ->.
        rewrite Hm, Ht in Hk. discriminate.
      - intros [Hx Hne]. split; [exact Hx|].
        destruct (id_matches param x) eqn:Hmx; [|reflexivity].
        exfalso. apply Hne. apply Honly; assumption. }
    split; [|split; [|split]].
    + rewrite in_select_active. simpl. rewrite Hkept. tauto.
    + rewrite in_select_trashed. simpl. rewrite Hkept. tauto.
    + intros x Hx Heq. apply Hkept in Hx. destruct Hx as [Hx Hne].
      apply Hne. symmetry.
      apply (same_id_same_row (payments db)); auto.
    + exact Hkept.
  - intros Hf. unfold delete_trashed_by_id.
    rewrite filter_unchanged; [apply with_payments_same|].
    intros x Hx. destruct (id_matches param x) eqn:Hmx; [|reflexivity].
    rewrite (Honly x Hx Hmx), Hf. reflexivity.
Qed.

(** C8.  Moving an existing record to the trash and restoring it leaves the
    record active with every other column as before; the other rows, the
    AUTOINCREMENT counter and the gate are untouched. *)
Theorem delete_then_restore_roundtrip (db : DB) (param : string)
    (r : Payment) :
  find (id_matches param) (payments db) = Some r ->
  let db1 := snd (delete_payment db param) in
  let db2 := snd (restore_payment db1 param) in
  exists r',
    find (id_matches param) (payments db2) = Some r' /\
    is_trashed r' = false /\
    id r' = id r /\ transaction_id r' = transaction_id r /\
    name r' = name r /\ phone r' = phone r /\ address r' = address r /\
    amount r' = amount r /\ status r' = status r /\
    created_at r' = created_at r /\
    find (id_matches param) (payments db1) = Some (set_is_trashed true r) /\
    (forall x, id_matches param x = false ->
       (In x (payments db2) <-> In x (payments db))) /\
    sqlite_sequence db2 = sqlite_sequence db /\
    payment_status db2 = payment_status db.
Proof.
  intros Hfind. simpl.
  pose proof (find_some _ _ Hfind) as [Hin Hm].
  assert (Hkeep : forall (b : bool) (x : Payment),
            id_matches param
              (if id_matches param x then set_is_trashed b x else x) =
            id_matches param x).
  { intros b x. destruct (id_matches param x) eqn:E; exact E. }
  assert (H1 : find (id_matches param)
                 (map (fun r0 => if id_matches param r0
                                 then set_is_trashed true r0 else r0)
                    (payments db)) = Some (set_is_trashed true r)).
  { rewrite find_map_preserved by apply Hkeep.
    rewrite Hfind. simpl. rewrite Hm. reflexivity. }
  exists (set_is_trashed false r).
  split.
  { rewrite find_map_preserved by apply Hkeep.
    rewrite H1. simpl.
    rewrite id_matches_set_is_trashed, Hm. reflexivity. }
  do 9 (split; [reflexivity|]).
  split; [exact H1|]. split; [|split; reflexivity].
  intros x Hx. rewrite map_map, in_map_iff. split.
  - intros [y [Hy Hy']]. destruct (id_matches param y) eqn:Ey;
      cbv iota in Hy.
    + rewrite id_matches_set_is_trashed, Ey in Hy. subst x.
      change (id_matches param y = false) in Hx. congruence.
    + rewrite Ey in Hy. subst x. exact Hy'.
  - intros Hx'. exists x. split; [|exact Hx'].
    rewrite Hx. rewrite Hx. reflexivity.
Qed.

(** C9, as the code has it.  On an id that is absent or in the wrong state,
    trash, restore and permanent delete throw nothing and leave the database
    unchanged, and the response is 200 with success = true. *)
Theorem lifecycle_noop_reports_success (db : DB) (rq : Request) :
  nothing_to_do rq db ->
  handle db rq = (json (SuccessBody true), db).
Proof.
  destruct rq; simpl; try tauto; intros Hn.
  - unfold delete_payment, update_is_trashed_by_id. f_equal.
    rewrite map_unchanged; [apply with_payments_same|].
    intros x Hx. destruct (id_matches param x) eqn:E; [|reflexivity].
    rewrite <- (Hn x Hx E). apply set_is_trashed_same.
  - unfold restore_payment, update_is_trashed_by_id. f_equal.
    rewrite map_unchanged; [apply with_payments_same|].
    intros x Hx. destruct (id_matches param x) eqn:E; [|reflexivity].
    rewrite <- (Hn x Hx E). apply set_is_trashed_same.
  - unfold permanent_delete, delete_trashed_by_id. f_equal.
    rewrite filter_unchanged; [apply with_payments_same|].
    intros x Hx. destruct (id_matches param x) eqn:E; [|reflexivity].
    rewrite (Hn x Hx E). reflexivity.
Qed.

Lemma no_trashed_after_restore (l : list Payment) :
  filter is_trashed (map (set_is_trashed false) l) = [].
Proof. induction l as [|y l IH]; simpl; [reflexivity | exact IH]. Qed.

(** C7, as the code has it.  After trash-all then restore-all every row of
    the table is active, with its other columns unchanged, and the trash is
    empty: the active listing holds the rows that were active and those that
    were already in the trash.  It is the listing from before exactly when
    the trash was empty before. *)
Theorem clear_then_restore_all_active (db : DB) :
  db_ok db ->
  let db2 := snd (restore_payments (snd (clear_payments db))) in
  payments db2 = map (set_is_trashed false) (payments db) /\
  select_trashed db2 = [] /\
  (forall x, In x (select_active db2) <->
             exists r, In r (payments db) /\ x = set_is_trashed false r) /\
  ((forall r, In r (payments db) -> is_trashed r = false) ->
     db2 = db /\ select_active db2 = select_active db) /\
  ((forall x, In x (select_active db2) <-> In x (select_active db)) ->
     forall r, In r (payments db) -> is_trashed r = false).
Proof.
  intros [Hid _]. simpl.
  assert (Hrows : map (fun r => if is_trashed r then set_is_trashed false r else r)
                    (map (fun r => if negb (is_trashed r)
                                   then set_is_trashed true r else r)
                       (payments db)) =
                  map (set_is_trashed false) (payments db)).
  { rewrite map_map. apply map_ext. intros r.
    destruct r as [i t n p a m s [|] c]; reflexivity. }
  assert (Hact : forall x,
            In x (select_active (restore_all (trash_all db))) <->
            exists r, In r (payments db) /\ x = set_is_trashed false r).
  { intros x. rewrite in_select_active. simpl. rewrite Hrows, in_map_iff.
    split.
    - intros [[r [Hr Hin]] _]. exists r. split; [exact Hin | now symmetry].
    - intros [r [Hin ->]]. split; [|reflexivity]. exists r. tauto. }
  split; [exact Hrows|]. split; [|split; [exact Hact|split]].
  - unfold select_trashed. simpl. rewrite Hrows.
    rewrite no_trashed_after_restore. reflexivity.
  - intros Hall.
    assert (Hdb : restore_all (trash_all db) = db).
    { unfold restore_all, trash_all, with_payments. simpl. rewrite Hrows.
      rewrite map_unchanged; [destruct db; reflexivity|].
      intros x Hx. rewrite <- (Hall x Hx). apply set_is_trashed_same. }
    rewrite Hdb. split; reflexivity.
  - intros Hsame r Hin.
    destruct (is_trashed r) eqn:Ht; [|reflexivity]. exfalso.
    assert (Hx : In (set_is_trashed false r) (select_active db)).
    { apply Hsame. apply Hact. exists r. split; [exact Hin | reflexivity]. }
    apply in_select_active in Hx. destruct Hx as [Hx _].
    assert (Heq : set_is_trashed false r = r).
    { apply (same_id_same_row (payments db)); auto. }
    rewrite <- Heq in Ht. discriminate.
Qed.

End Lifecycle.

(** ** The admin login *)

Section Login.

Context `{RT : Runtime}.

Lemma strict_eq_str_true (v : jsval) (s : string) :
  strict_eq_str v s = true <-> v = JStr s.
Proof.
  destruct v; simpl; try (split; [discriminate | intros H; discriminate H]).
  rewrite String.eqb_eq. split; congruence.
Qed.

Lemma admin_login_reads_only (db : DB) (u p : jsval) :
  snd (admin_login db u p) = db.
Proof. unfold admin_login. destruct (_ && _); reflexivity. Qed.

(** C10, as the code has it.  The login handler only compares the submitted
    credentials with the configured ones: it answers success exactly when
    both are equal, 401 with "Invalid credentials" otherwise, and writes
    nothing.  No other handler looks at a credential, so what the server
    does on a sequence of requests, to the table and to the gate, and what
    it answers to each request that is not a login, is the same with the
    logins taken out. *)
Theorem login_does_not_gate_admin_routes (db : DB) (rqs : list Request) :
  let without_login := filter (fun rq => negb (is_login rq)) rqs in
  snd (serve db without_login) = snd (serve db rqs) /\
  fst (serve db without_login) =
    filter (fun x => negb (is_login (fst x))) (fst (serve db rqs)) /\
  (forall u p,
     snd (admin_login db u p) = db /\
     (success_of (fst (admin_login db u p)) = Some true <->
      u = JStr (env_or ADMIN_USERNAME "Abhay") /\
      p = JStr (env_or ADMIN_PASSWORD "Abhay123")) /\
     (success_of (fst (admin_login db u p)) <> Some true ->
      fst (admin_login db u p) =
        mkResponse 401 (LoginBody false None (Some "Invalid credentials")))).
Proof.
  simpl. split; [|split].
  - revert db. induction rqs as [|rq rqs IH]; intros db; simpl.
    + reflexivity.
    + destruct (is_login rq) eqn:El; simpl.
      * destruct rq; try discriminate. simpl.
        pose proof (admin_login_reads_only db username password) as Hdb.
        destruct (admin_login db username password) as [r db1].
        simpl in Hdb. subst db1. rewrite IH.
        destruct (serve db rqs). reflexivity.
      * destruct (handle db rq) as [r db1]. specialize (IH db1).
        destruct (serve db1 (filter _ rqs)).
        destruct (serve db1 rqs). exact IH.
  - revert db. induction rqs as [|rq rqs IH]; intros db; simpl.
    + reflexivity.
    + destruct (is_login rq) eqn:El; simpl.
      * destruct rq; try discriminate. simpl.
        pose proof (admin_login_reads_only db username password) as Hdb.
        destruct (admin_login db username password) as [r db1].
        simpl in Hdb. subst db1. rewrite IH.
        destruct (serve db rqs). simpl. reflexivity.
      * destruct (handle db rq) as [r db1]. specialize (IH db1).
        destruct (serve db1 (filter _ rqs)).
        destruct (serve db1 rqs). simpl in *. rewrite El. simpl.
        f_equal. exact IH.
  - intros u p. split; [apply admin_login_reads_only|].
    unfold admin_login.
    destruct (strict_eq_str u _ && strict_eq_str p _) eqn:E; simpl.
    + apply andb_true_iff in E. rewrite !strict_eq_str_true in E.
      split; [split; [intros _; exact E | reflexivity]|].
      intros H. exfalso. apply H. reflexivity.
    + split; [|reflexivity]. split; [discriminate|]. intros [-> ->].
      simpl in E. rewrite !String.eqb_refl in E. discriminate.
Qed.

End Login.

(** ** Examples on a running server *)

Lemma two_payments_rows :
  two_payments = mkDB [alice_row false; bob_row false] 2 "active".
Proof. vm_compute. reflexivity. Qed.

Lemma first_in_trash_rows :
  first_in_trash = mkDB [alice_row true; bob_row false] 2 "active".
Proof. vm_compute. reflexivity. Qed.

Lemma first_in_trash_ok : db_ok first_in_trash.
Proof. split; vm_compute; solve_nodup. Defined.

Lemma two_payments_ok : db_ok two_payments.
Proof. split; vm_compute; solve_nodup. Defined.

Lemma permanent_delete_only_trashed_witness :
  ~ In (alice_row true)
      (select_trashed
         (snd (@permanent_delete sample_runtime first_in_trash "1"))) /\
  snd (@permanent_delete sample_runtime first_in_trash "2") = first_in_trash.
Proof.
  split.
  - refine (proj1 (proj2 (proj1
      (@permanent_delete_only_trashed sample_runtime first_in_trash "1"
         (alice_row true) first_in_trash_ok _ _) _))).
    + vm_compute. left. reflexivity.
    + vm_compute. reflexivity.
    + reflexivity.
  - refine (proj2
      (@permanent_delete_only_trashed sample_runtime first_in_trash "2"
         (bob_row false) first_in_trash_ok _ _) _).
    + vm_compute. right. left. reflexivity.
    + vm_compute. reflexivity.
    + reflexivity.
Defined.

Lemma delete_then_restore_roundtrip_witness :
  exists r',
    find (@id_matches sample_runtime "2")
      (payments
         (snd (@restore_payment sample_runtime
                 (snd (@delete_payment sample_runtime two_payments "2"))
                 "2"))) = Some r' /\
    is_trashed r' = false /\ transaction_id r' = "REC-20261103-0002".
Proof.
  destruct (@delete_then_restore_roundtrip sample_runtime two_payments "2"
              (bob_row false) eq_refl)
    as [r' [Hf [Ht [_ [Htid _]]]]].
  exists r'. split; [exact Hf|]. split; [exact Ht | exact Htid].
Defined.

(** C9 as stated fails: trash of an id that no row has answers
    success = true, not success = false. *)
Lemma absent_id_reports_success_true :
  payments initial_db = [] /\
  @delete_payment sample_runtime initial_db "7" =
    (json (SuccessBody true), initial_db) /\
  @restore_payment sample_runtime initial_db "7" =
    (json (SuccessBody true), initial_db) /\
  @permanent_delete sample_runtime initial_db "7" =
    (json (SuccessBody true), initial_db) /\
  success_of (fst (@delete_payment sample_runtime initial_db "7")) <>
    Some false.
Proof. vm_compute. repeat split; discriminate. Qed.

Lemma lifecycle_noop_reports_success_witness :
  @handle sample_runtime first_in_trash (DeletePayment "1") =
    (json (SuccessBody true), first_in_trash) /\
  @handle sample_runtime first_in_trash (PermanentDelete "2") =
    (json (SuccessBody true), first_in_trash) /\
  @handle sample_runtime first_in_trash (RestorePayment "9") =
    (json (SuccessBody true), first_in_trash).
Proof.
  split; [|split];
    apply (@lifecycle_noop_reports_success sample_runtime);
    vm_compute; intros r [<-|[<-|[]]]; intros H;
    try reflexivity; discriminate H.
Defined.

(** C7 as stated fails: with a record already in the trash, trash-all then
    restore-all brings that record back into the active listing. *)
Lemma clear_then_restore_revives_trash :
  let db2 := snd (restore_payments (snd (clear_payments first_in_trash))) in
  select_active first_in_trash = [bob_row false] /\
  select_active db2 = [bob_row false; alice_row false] /\
  select_active db2 <> select_active first_in_trash.
Proof. vm_compute. repeat split. discriminate. Qed.

Lemma clear_then_restore_all_active_witness :
  snd (restore_payments (snd (clear_payments two_payments))) = two_payments /\
  select_trashed
    (snd (restore_payments (snd (clear_payments first_in_trash)))) = [].
Proof.
  split.
  - refine (proj1 (proj1 (proj2 (proj2 (proj2
      (@clear_then_restore_all_active two_payments two_payments_ok)))) _)).
    vm_compute. intros r [<-|[<-|[]]]; reflexivity.
  - exact (proj1 (proj2
      (@clear_then_restore_all_active first_in_trash first_in_trash_ok))).
Defined.

(** C10 as stated fails: with no login in the sequence, the gate is closed
    by a bare update-status request, and a record is moved to the trash and
    permanently deleted by bare requests. *)
Lemma admin_routes_without_login :
  let pause := [UpdateStatus (JStr "paused")] in
  let purge := [DeletePayment "1"; PermanentDelete "1"] in
  forallb privileged (pause ++ purge) = true /\
  existsb is_login (pause ++ purge) = false /\
  payment_status initial_db = "active" /\
  payment_status (snd (serve_sample initial_db pause)) = "paused" /\
  payments (snd (serve_sample two_payments purge)) = [bob_row false].
Proof. vm_compute. repeat split. Qed.

(** ** Dates as text *)

Lemma N_of_ascii_digit (d : N) : d < 10 -> N_of_ascii (digit d) = 48 + d.
Proof. intros H. unfold digit. apply N_ascii_embedding. lia. Qed.

Lemma digit_not_dash (d : N) :
  d < 10 -> Ascii.eqb (digit d) "-"%char = false.
Proof.
  intros H. apply Ascii.eqb_neq. intros E.
  apply (f_equal N_of_ascii) in E. rewrite N_of_ascii_digit in E by exact H.
  change (N_of_ascii "-") with 45 in E. lia.
Qed.

Lemma append_assoc (a b c : string) : (a ++ b) ++ c = a ++ (b ++ c).
Proof. induction a as [|x a IH]; simpl; [reflexivity | now rewrite IH]. Qed.

Lemma append_nil_r (a : string) : a ++ "" = a.
Proof. induction a as [|x a IH]; simpl; [reflexivity | now rewrite IH]. Qed.

Lemma length_append (a b : string) :
  String.length (a ++ b) = (String.length a + String.length b)%nat.
Proof. induction a as [|x a IH]; simpl; [reflexivity | now rewrite IH]. Qed.

Lemma mod10_lt (n : N) : n mod 10 < 10.
Proof. apply N.mod_lt. discriminate. Qed.

Lemma dateStr_yyyymmdd (t : DateTime) : dateStr t = yyyymmdd t.
Proof.
  unfold dateStr, yyyymmdd, toISOString, slice0, four_digits, two_digits.
  cbn [append substring remove_dashes].
  rewrite !digit_not_dash by apply mod10_lt.
  reflexivity.
Qed.

Lemma compare_digit_cons (a b : N) (s t : string) :
  a < 10 -> b < 10 ->
  String.compare (String (digit a) s) (String (digit b) t) =
  match a ?= b with
  | Eq => String.compare s t
  | c => c
  end.
Proof.
  intros Ha Hb. cbn [String.compare]. unfold Ascii.compare.
  rewrite !N_of_ascii_digit by assumption.
  replace (48 + a ?= 48 + b) with (a ?= b); [reflexivity|].
  destruct (N.compare_spec a b) as [E|L|G]; symmetry.
  - subst. apply N.compare_refl.
  - apply N.compare_lt_iff. lia.
  - apply N.compare_gt_iff. lia.
Qed.

Lemma compare_two_digits (n m : N) (s t : string) :
  n < 100 -> m < 100 ->
  String.compare (two_digits n ++ s) (two_digits m ++ t) =
  match n ?= m with
  | Eq => String.compare s t
  | c => c
  end.
Proof.
  intros Hn Hm. unfold two_digits. cbn [append].
  rewrite !compare_digit_cons by apply mod10_lt.
  destruct (N.compare_spec (n / 10 mod 10) (m / 10 mod 10)) as [E1|L1|G1].
  - destruct (N.compare_spec (n mod 10) (m mod 10)) as [E2|L2|G2].
    + replace m with n by lia_div. rewrite N.compare_refl. reflexivity.
    + decide_lt n m.
    + decide_gt n m.
  - decide_lt n m.
  - decide_gt n m.
Qed.

Lemma four_digits_split (n : N) :
  four_digits n = two_digits (n / 100) ++ two_digits (n mod 100).
Proof.
  unfold four_digits, two_digits. cbn [append].
  replace (n / 100 / 10) with (n / 1000) by lia_div.
  replace ((n / 100) mod 10) with (n / 100 mod 10) by reflexivity.
  replace (n mod 100 / 10 mod 10) with (n / 10 mod 10) by lia_div.
  replace ((n mod 100) mod 10) with (n mod 10) by lia_div.
  reflexivity.
Qed.

Lemma compare_four_digits (n m : N) (s t : string) :
  n < 10000 -> m < 10000 ->
  String.compare (four_digits n ++ s) (four_digits m ++ t) =
  match n ?= m with
  | Eq => String.compare s t
  | c => c
  end.
Proof.
  intros Hn Hm. rewrite !four_digits_split, !append_assoc.
  rewrite compare_two_digits by lia_div.
  destruct (N.compare_spec (n / 100) (m / 100)) as [E1|L1|G1];
    [|decide_lt n m|decide_gt n m].
  rewrite compare_two_digits by lia_div.
  destruct (N.compare_spec (n mod 100) (m mod 100)) as [E2|L2|G2];
    [|decide_lt n m|decide_gt n m].
  replace m with n by lia_div. rewrite N.compare_refl. reflexivity.
Qed.

(** The text comparison of the counting query is the comparison of the
    calendar days. *)
Lemma created_at_since_day (today d : DateTime) :
  wf_datetime today -> wf_datetime d ->
  String.leb (sql_date today) (sql_current_timestamp d) =
  on_or_after_day today d.
Proof.
  intros Ht Hd. unfold wf_datetime in *.
  unfold String.leb, sql_current_timestamp, sql_date, on_or_after_day.
  rewrite !append_assoc.
  rewrite compare_four_digits by lia.
  rewrite (N.compare_antisym (year today) (year d)).
  destruct (year today ?= year d); cbn [CompOpp]; try reflexivity.
  cbn [append String.compare]. change (Ascii.compare "-" "-") with Eq.
  cbv iota.
  rewrite compare_two_digits by lia.
  rewrite (N.compare_antisym (month today) (month d)).
  destruct (month today ?= month d); cbn [CompOpp]; try reflexivity.
  cbn [append String.compare]. change (Ascii.compare "-" "-") with Eq.
  cbv iota.
  rewrite <- (append_nil_r (two_digits (day today))) at 1.
  rewrite compare_two_digits by lia.
  unfold N.ltb. rewrite (N.compare_antisym (day today) (day d)).
  destruct (day today ?= day d); reflexivity.
Qed.

(** ** The sequence number as text *)

Lemma toString_aux_grows (fuel : nat) (n : N) (acc : string) :
  fuel <> O ->
  (String.length acc + 1 <= String.length (toString_aux fuel n acc))%nat.
Proof.
  revert n acc. induction fuel as [|f IH]; intros n acc Hf; [congruence|].
  simpl. destruct (n <? 10); simpl; [lia|].
  destruct f as [|f']; simpl; [lia|].
  specialize (IH (n / 10) (String (digit (n mod 10)) acc)).
  simpl in IH. lia.
Qed.

Lemma toString_aux_at_most (k fuel : nat) (n : N) (acc : string) :
  n < 10 ^ N.of_nat (S k) ->
  (String.length (toString_aux fuel n acc) <= String.length acc + S k)%nat.
Proof.
  revert fuel n acc. induction k as [|k IH]; intros fuel n acc Hn.
  - destruct fuel as [|f]; simpl; [lia|].
    change (10 ^ N.of_nat 1) with 10 in Hn.
    apply N.ltb_lt in Hn. rewrite Hn. simpl. lia.
  - destruct fuel as [|f]; simpl; [lia|].
    destruct (n <? 10); simpl; [lia|].
    specialize (IH f (n / 10) (String (digit (n mod 10)) acc)).
    simpl in IH. rewrite Nat.add_succ_r. apply IH.
    replace (N.of_nat (S (S k))) with (N.succ (N.of_nat (S k))) in Hn by lia.
    rewrite N.pow_succ_r' in Hn.
    apply N.Div0.div_lt_upper_bound. exact Hn.
Qed.

Lemma toString_aux_at_least (k fuel : nat) (n : N) (acc : string) :
  10 ^ N.of_nat k <= n -> (k < fuel)%nat ->
  (String.length acc + S k <= String.length (toString_aux fuel n acc))%nat.
Proof.
  revert fuel n acc. induction k as [|k IH]; intros fuel n acc Hn Hf.
  - pose proof (toString_aux_grows fuel n acc). lia.
  - destruct fuel as [|f]; [lia|]. simpl.
    replace (N.of_nat (S k)) with (N.succ (N.of_nat k)) in Hn by lia.
    rewrite N.pow_succ_r' in Hn.
    assert (H1 : 1 <= 10 ^ N.of_nat k).
    { pose proof (N.pow_nonzero 10 (N.of_nat k)). lia. }
    assert (Hge : (n <? 10) = false) by (apply N.ltb_ge; lia).
    rewrite Hge.
    specialize (IH f (n / 10) (String (digit (n mod 10)) acc)).
    simpl in IH. rewrite Nat.add_succ_r. apply IH; [|lia].
    apply N.div_le_lower_bound; [discriminate | exact Hn].
Qed.

Lemma toString_aux_app (fuel : nat) (n : N) (acc : string) :
  toString_aux fuel n acc = toString_aux fuel n "" ++ acc.
Proof.
  revert n acc. induction fuel as [|f IH]; intros n acc; simpl.
  - reflexivity.
  - destruct (n <? 10); [reflexivity|].
    rewrite (IH (n / 10) (String _ acc)), (IH (n / 10) (String _ "")).
    rewrite append_assoc. reflexivity.
Qed.

Lemma digits_value_app (s t : string) (v : N) :
  digits_value (s ++ t) v =
  match digits_value s v with
  | Some w => digits_value t w
  | None => None
  end.
Proof.
  revert v. induction s as [|c s IH]; intros v; simpl.
  - reflexivity.
  - destruct (is_digit c); [apply IH | reflexivity].
Qed.

Lemma digits_value_digit (d w : N) :
  d < 10 -> digits_value (String (digit d) "") w = Some (10 * w + d).
Proof.
  intros Hd. cbn [digits_value]. unfold is_digit.
  rewrite N_of_ascii_digit by exact Hd.
  replace (48 <=? 48 + d) with true by (symmetry; apply N.leb_le; lia).
  replace (48 + d <=? 57) with true by (symmetry; apply N.leb_le; lia).
  cbn [andb]. f_equal. lia.
Qed.

Lemma size_nat_bound (n : N) : n < 2 ^ N.of_nat (N.size_nat n).
Proof.
  destruct n as [|p]; simpl N.size_nat; [reflexivity|].
  apply N2Z.inj_lt. rewrite N2Z.inj_pow, nat_N_Z.
  apply Zpower2_Psize. apply Nat.le_refl.
Qed.

Lemma toString_aux_value (fuel : nat) (n : N) :
  (0 < fuel)%nat -> n < 2 ^ N.of_nat fuel ->
  digits_value (toString_aux fuel n "") 0 = Some n.
Proof.
  revert n. induction fuel as [|f IH]; intros n Hf Hn; [lia|].
  simpl. destruct (N.ltb_spec n 10) as [Hlt|Hge].
  - rewrite digits_value_digit by exact Hlt. reflexivity.
  - replace (N.of_nat (S f)) with (N.succ (N.of_nat f)) in Hn by lia.
    rewrite N.pow_succ_r' in Hn.
    assert (Hf' : (0 < f)%nat).
    { destruct f as [|f']; [simpl in Hn; lia | lia]. }
    assert (Hn' : n / 10 < 2 ^ N.of_nat f).
    { revert Hn. generalize (2 ^ N.of_nat f). intros X HX. lia_div. }
    rewrite toString_aux_app, digits_value_app, (IH (n / 10) Hf' Hn').
    rewrite digits_value_digit by apply mod10_lt.
    f_equal. lia_div.
Qed.

(** The fuel of [toString] is enough: the text reads back as the number. *)
Lemma toString_reads_back (n : N) : digits_number (toString n) = Some n.
Proof.
  assert (Hv : digits_value (toString n) 0 = Some n).
  { unfold toString. apply toString_aux_value; [lia|].
    pose proof (size_nat_bound n) as Hb.
    replace (N.of_nat (S (N.size_nat n)))
      with (N.succ (N.of_nat (N.size_nat n))) by lia.
    rewrite N.pow_succ_r'. lia. }
  unfold digits_number. destruct (toString n) eqn:E; [|exact Hv].
  pose proof (toString_aux_grows (S (N.size_nat n)) n "") as Hg.
  unfold toString in E. rewrite E in Hg. simpl in Hg. lia.
Qed.

Lemma size_nat_at_least_4 (n : N) : 8 <= n -> (4 <= N.size_nat n)%nat.
Proof.
  intros H. destruct n as [|p]; [lia|]. simpl.
  destruct (Pos.eq_dec p 8) as [->|Hne]; [simpl; lia|].
  change 4%nat with (Pos.size_nat 8).
  apply Pos.size_nat_monotone. lia.
Qed.

Lemma length_repeat_char (c : ascii) (k : nat) :
  String.length (repeat_char c k) = k.
Proof. induction k as [|k IH]; simpl; [reflexivity | now rewrite IH]. Qed.

Lemma length_padStart (w : nat) (c : ascii) (s : string) :
  String.length (padStart w c s) = Nat.max w (String.length s).
Proof.
  unfold padStart. rewrite length_append, length_repeat_char. lia.
Qed.

Lemma padStart_long (w : nat) (c : ascii) (s : string) :
  (w <= String.length s)%nat -> padStart w c s = s.
Proof.
  intros H. unfold padStart.
  replace (w - String.length s)%nat with O by lia. reflexivity.
Qed.

(** Up to 9999 the sequence has exactly four characters. *)
Lemma sequentialNumber_four (count : N) :
  count + 1 <= 9999 -> String.length (sequentialNumber count) = 4%nat.
Proof.
  intros H. unfold sequentialNumber. rewrite length_padStart.
  pose proof (toString_aux_at_most 3 (S (N.size_nat (count + 1)))
                (count + 1) "") as Hle.
  change (10 ^ N.of_nat 4) with 10000 in Hle.
  change (String.length "") with O in Hle.
  unfold toString. lia.
Qed.

(** From 9999 rows on, nothing is padded and five characters or more come
    out. *)
Lemma sequentialNumber_overflow (count : N) :
  9999 <= count ->
  sequentialNumber count = toString (count + 1) /\
  (5 <= String.length (toString (count + 1)))%nat.
Proof.
  intros H.
  assert (Hlen : (5 <= String.length (toString (count + 1)))%nat).
  { unfold toString.
    pose proof (toString_aux_at_least 4 (S (N.size_nat (count + 1)))
                  (count + 1) "") as Hge.
    change (10 ^ N.of_nat 4) with 10000 in Hge.
    pose proof (size_nat_at_least_4 (count + 1)).
    change (String.length "") with O in Hge. lia. }
  split; [|exact Hlen].
  unfold sequentialNumber. apply padStart_long. lia.
Qed.

(** The sequence is made of decimal digits. *)
Lemma is_digit_digit (d : N) : d < 10 -> is_digit (digit d) = true.
Proof.
  intros Hd. unfold is_digit. rewrite N_of_ascii_digit by exact Hd.
  apply andb_true_iff. split; apply N.leb_le; lia.
Qed.

Lemma all_digits_app (a b : string) :
  all_digits (a ++ b) = all_digits a && all_digits b.
Proof.
  induction a as [|c a IH]; simpl; [reflexivity|].
  rewrite IH, andb_assoc. reflexivity.
Qed.

Lemma all_digits_toString_aux (fuel : nat) (n : N) (acc : string) :
  all_digits acc = true -> all_digits (toString_aux fuel n acc) = true.
Proof.
  revert n acc. induction fuel as [|f IH]; intros n acc Ha; simpl.
  - exact Ha.
  - destruct (N.ltb_spec n 10) as [Hlt|Hge].
    + simpl. rewrite is_digit_digit by exact Hlt. exact Ha.
    + apply IH. simpl. rewrite is_digit_digit by apply mod10_lt. exact Ha.
Qed.

Lemma all_digits_repeat_zero (k : nat) :
  all_digits (repeat_char "0" k) = true.
Proof. induction k as [|k IH]; simpl; [reflexivity | exact IH]. Qed.

Lemma all_digits_sequentialNumber (c : N) :
  all_digits (sequentialNumber c) = true.
Proof.
  unfold sequentialNumber, padStart.
  rewrite all_digits_app, all_digits_repeat_zero. simpl.
  apply all_digits_toString_aux. reflexivity.
Qed.

(** Read back as a number, the sequence is the count plus one, whatever
    its length: the padding adds zeros in front only. *)
Lemma digits_value_repeat_zero (k : nat) :
  digits_value (repeat_char "0" k) 0 = Some 0.
Proof. induction k as [|k IH]; simpl; [reflexivity | exact IH]. Qed.

Lemma sequentialNumber_value (c : N) :
  digits_value (sequentialNumber c) 0 = Some (c + 1).
Proof.
  unfold sequentialNumber, padStart.
  rewrite digits_value_app, digits_value_repeat_zero.
  pose proof (toString_reads_back (c + 1)) as H.
  unfold digits_number in H. destruct (toString (c + 1)) eqn:E.
  - discriminate.
  - exact H.
Qed.

Lemma sequentialNumber_reads_back (c : N) :
  digits_number (sequentialNumber c) = Some (c + 1).
Proof.
  pose proof (sequentialNumber_value c) as H. unfold digits_number.
  destruct (sequentialNumber c) eqn:E; [|exact H].
  simpl in H. injection H as H. lia.
Qed.

(** Read back as a number, the eight digits of the date are the year, the
    month and the day, two decimal places each for the last two. *)
Lemma digits_value_cons_digit (d w : N) (s : string) :
  d < 10 -> digits_value (String (digit d) s) w = digits_value s (10 * w + d).
Proof.
  intros Hd. cbn [digits_value]. rewrite is_digit_digit by exact Hd.
  rewrite N_of_ascii_digit by exact Hd. f_equal. lia.
Qed.

Lemma two_decimal_places (n : N) :
  n < 100 -> n = 10 * (n / 10 mod 10) + n mod 10.
Proof. intros H. lia_div. Qed.

Lemma four_decimal_places (n : N) :
  n <= 9999 ->
  n = 1000 * (n / 1000 mod 10) + 100 * (n / 100 mod 10) +
      10 * (n / 10 mod 10) + n mod 10.
Proof.
  intros H.
  assert (H3 : n / 1000 mod 10 = n / 1000) by lia_div.
  assert (H2 : n / 100 mod 10 = n / 100 - 10 * (n / 1000)) by lia_div.
  assert (H1 : n / 10 mod 10 = n / 10 - 10 * (n / 100)) by lia_div.
  lia_div.
Qed.

Lemma yyyymmdd_reads_back (t : DateTime) :
  wf_datetime t ->
  digits_number (yyyymmdd t) =
  Some (year t * 10000 + month t * 100 + day t).
Proof.
  intros [Hy [Hm [Hd _]]].
  pose proof (four_decimal_places (year t) Hy) as Ey.
  assert (Em : month t = 10 * (month t / 10 mod 10) + month t mod 10)
    by (apply two_decimal_places; lia).
  assert (Ed : day t = 10 * (day t / 10 mod 10) + day t mod 10)
    by (apply two_decimal_places; lia).
  unfold yyyymmdd, four_digits, two_digits, digits_number.
  cbn [append]. rewrite !digits_value_cons_digit by apply mod10_lt.
  cbn [digits_value]. f_equal.
  generalize dependent (year t / 1000 mod 10).
  generalize dependent (year t / 100 mod 10).
  generalize dependent (year t / 10 mod 10).
  generalize dependent (year t mod 10).
  generalize dependent (month t / 10 mod 10).
  generalize dependent (month t mod 10).
  generalize dependent (day t / 10 mod 10).
  generalize dependent (day t mod 10).
  intros. lia.
Qed.

(** ** The submit handler *)

Section Submit.

Context `{RT : Runtime}.

Lemma not_paused (db : DB) :
  payment_status db <> "paused" ->
  String.eqb (payment_status db) "paused" = false.
Proof. intros H. apply String.eqb_neq. exact H. Qed.

Lemma find_fresh_last (tid : string) (rows : list Payment) (row : Payment) :
  has_transaction_id tid rows = false -> transaction_id row = tid ->
  find (fun r => String.eqb (transaction_id r) tid) (rows ++ [row]) =
  Some row.
Proof.
  unfold has_transaction_id. intros Hf Hr.
  induction rows as [|x rows IH]; simpl in *.
  - rewrite Hr, String.eqb_refl. reflexivity.
  - apply orb_false_iff in Hf. destruct Hf as [Hx Hrest].
    rewrite Hx. apply IH. exact Hrest.
Qed.

(** The handler has three outcomes: 403 while paused, 500 with the
    database untouched, or 200 with one row appended. *)
Lemma submit_outcomes (clk : Clock) (db : DB) (b : PaymentBody) :
  (payment_status db = "paused" /\
   submit_manual_payment clk db b =
     (mkResponse 403 (ErrorBody paused_message), db)) \/
  (payment_status db <> "paused" /\
   submit_manual_payment clk db b =
     (mkResponse 500 (ErrorBody "Failed to save payment"), db)) \/
  (payment_status db <> "paused" /\
   has_transaction_id (make_transactionId clk db) (payments db) = false /\
   exists cn cp ca cm,
     let row := new_row clk db cn cp ca cm in
     submit_manual_payment clk db b =
       (json (SavedBody (make_transactionId clk db) (Some row)),
        db_with_row db row)).
Proof.
  unfold submit_manual_payment.
  destruct (String.eqb (payment_status db) "paused") eqn:Ep.
  - left. apply String.eqb_eq in Ep. split; [exact Ep | reflexivity].
  - right. apply String.eqb_neq in Ep.
    destruct (insert_payment _ _ _ _ _ _ _ _) as [db'|] eqn:Hins.
    + right. apply insert_payment_some in Hins.
      destruct Hins as [cn [cp [ca [cm [Hfresh ->]]]]].
      split; [exact Ep|]. split; [exact Hfresh|].
      exists cn, cp, ca, cm. simpl.
      unfold select_by_transaction_id. simpl.
      rewrite find_fresh_last by (exact Hfresh || reflexivity).
      reflexivity.
    + left. split; [exact Ep | reflexivity].
Qed.

(** Strings and a number are stored as they come. *)
Lemma insert_payment_plain (t : DateTime) (db : DB) (tid : string)
    (n p a : string) (q : Q) (st : string) :
  has_transaction_id tid (payments db) = false ->
  insert_payment t db tid (JStr n) (JStr p) (JStr a) (JNum (Finite q)) st =
  Some (mkDB (payments db ++
               [mkPayment (next_rowid db) tid n p a (Real (Finite q)) st
                  false (sql_current_timestamp t)])
          (next_rowid db) (payment_status db)).
Proof.
  intros H. rewrite insert_payment_fields. unfold insert_row. simpl.
  rewrite H. reflexivity.
Qed.

Lemma insert_payment_duplicate (t : DateTime) (db : DB) (tid : string)
    (vn vp va vm : jsval) (st : string) :
  has_transaction_id tid (payments db) = true ->
  insert_payment t db tid vn vp va vm st = None.
Proof.
  intros H. rewrite insert_payment_fields.
  destruct (bind_arguments false _) as [[|bn [|bp [|ba [|bm [|? ?]]]]]|];
    try reflexivity.
  unfold insert_row.
  destruct (text_not_null bn) as [cn|]; [|reflexivity].
  destruct (text_not_null bp) as [cp|]; [|reflexivity].
  destruct (text_not_null ba) as [ca|]; [|reflexivity].
  destruct (real_not_null bm) as [cm|]; [|reflexivity].
  rewrite H. reflexivity.
Qed.

(** The rows counted by the query are the rows created on the current UTC
    day or later, when every row carries the timestamp of an instant. *)
Lemma count_since_day (today : DateTime) (db : DB)
    (created : Payment -> DateTime) :
  wf_datetime today ->
  (forall r, In r (payments db) ->
     wf_datetime (created r) /\
     created_at r = sql_current_timestamp (created r)) ->
  count_since (sql_date today) db =
  N.of_nat
    (List.length
       (filter (fun r => on_or_after_day today (created r)) (payments db))).
Proof.
  intros Ht Hrows. unfold count_since. do 2 f_equal.
  apply filter_ext_in. intros r Hr. destruct (Hrows r Hr) as [Hwf ->].
  apply created_at_since_day; assumption.
Qed.

(** C2.  A successful submit answers with the row it stored, whose
    transaction id is REC-, the eight digits of the current UTC date, a
    dash, and the count of the rows created on or after the start of the
    current day (trashed or not) plus one, padded with zeros to four
    characters.  The date digits read back as year, month and day; the
    sequence is a text of decimal digits that reads back as the count plus
    one, of exactly four characters up to 9999, 0001 when no row of the day
    exists and 0002 when one does. *)
Theorem transaction_id_format (clk : Clock) (db db' : DB) (b : PaymentBody)
    (created : Payment -> DateTime) (res : Response) :
  wf_datetime (js_now clk) ->
  wf_datetime (count_now clk) ->
  (forall r, In r (payments db) ->
     wf_datetime (created r) /\
     created_at r = sql_current_timestamp (created r)) ->
  submit_manual_payment clk db b = (res, db') ->
  code res = 200 ->
  let count :=
    N.of_nat
      (List.length
         (filter (fun r => on_or_after_day (count_now clk) (created r))
            (payments db))) in
  exists row,
    body res = SavedBody (transaction_id row) (Some row) /\
    payments db' = (payments db ++ [row])%list /\
    transaction_id row =
      "REC-" ++ yyyymmdd (js_now clk) ++ "-" ++
      padStart 4 "0"%char (toString (count + 1)) /\
    digits_number (yyyymmdd (js_now clk)) =
      Some (year (js_now clk) * 10000 + month (js_now clk) * 100 +
            day (js_now clk)) /\
    all_digits (padStart 4 "0"%char (toString (count + 1))) = true /\
    digits_number (padStart 4 "0"%char (toString (count + 1))) =
      Some (count + 1) /\
    (count + 1 <= 9999 ->
     String.length (padStart 4 "0"%char (toString (count + 1))) = 4%nat) /\
    (count = 0 ->
     transaction_id row = "REC-" ++ yyyymmdd (js_now clk) ++ "-0001") /\
    (count = 1 ->
     transaction_id row = "REC-" ++ yyyymmdd (js_now clk) ++ "-0002").
Proof.
  intros Hjs Hwf Hrows Hsub Hcode count.
  assert (Hcount : count_since (sql_date (count_now clk)) db = count).
  { apply count_since_day; assumption. }
  destruct (submit_outcomes clk db b)
    as [[_ H]|[[_ H]|[_ [_ [cn [cp [ca [cm H]]]]]]]];
    rewrite H in Hsub; inversion Hsub; subst res db'; clear Hsub;
    try (simpl in Hcode; discriminate Hcode).
  exists (new_row clk db cn cp ca cm).
  assert (Htid : transaction_id (new_row clk db cn cp ca cm) =
                 "REC-" ++ yyyymmdd (js_now clk) ++ "-" ++
                 padStart 4 "0"%char (toString (count + 1))).
  { simpl. unfold make_transactionId.
    rewrite dateStr_yyyymmdd, Hcount. reflexivity. }
  split; [reflexivity|]. split; [reflexivity|]. split; [exact Htid|].
  split; [apply yyyymmdd_reads_back; exact Hjs|].
  split; [apply all_digits_sequentialNumber|].
  split; [apply sequentialNumber_reads_back|].
  split; [apply sequentialNumber_four|].
  split; intros Hc; rewrite Htid, Hc; reflexivity.
Qed.

(** The second submit of a day, run after the first: the first takes 0001,
    the second 0002. *)
Lemma first_and_second_of_day (c1 c2 : Clock) (db db1 db2 : DB)
    (b1 b2 : PaymentBody) (created : Payment -> DateTime)
    (r1 r2 : Response) :
  wf_datetime (count_now c1) -> wf_datetime (insert_now c1) ->
  wf_datetime (count_now c2) ->
  same_day (count_now c1) (insert_now c1) ->
  same_day (insert_now c1) (count_now c2) ->
  (forall r, In r (payments db) ->
     wf_datetime (created r) /\
     created_at r = sql_current_timestamp (created r) /\
     on_or_after_day (count_now c1) (created r) = false) ->
  submit_manual_payment c1 db b1 = (r1, db1) -> code r1 = 200 ->
  submit_manual_payment c2 db1 b2 = (r2, db2) -> code r2 = 200 ->
  exists row1 row2,
    body r1 = SavedBody ("REC-" ++ yyyymmdd (js_now c1) ++ "-0001")
                (Some row1) /\
    body r2 = SavedBody ("REC-" ++ yyyymmdd (js_now c2) ++ "-0002")
                (Some row2) /\
    payments db2 = (payments db ++ [row1; row2])%list.
Proof.
  intros W1 W1' W2 [Sy [Sm Sd]] [Ty [Tm Td]] Hrows H1 C1 H2 C2.
  assert (Hday : forall r, on_or_after_day (count_now c2) r =
                           on_or_after_day (count_now c1) r).
  { intros r. unfold on_or_after_day. rewrite <- Ty, <- Tm, <- Td.
    rewrite <- Sy, <- Sm, <- Sd. reflexivity. }
  assert (Hold : forall today,
            (forall r, on_or_after_day today r =
                       on_or_after_day (count_now c1) r) ->
            wf_datetime today ->
            filter (fun r => String.leb (sql_date today) (created_at r))
              (payments db) = []).
  { intros today Hsame Wt.
    induction (payments db) as [|x l IH]; [reflexivity|]. simpl.
    destruct (Hrows x (or_introl eq_refl)) as [Wx [Ex Nx]].
    rewrite Ex, created_at_since_day, Hsame, Nx by assumption.
    apply IH. intros r Hr. apply Hrows. right. exact Hr. }
  destruct (submit_outcomes c1 db b1)
    as [[_ H]|[[_ H]|[_ [_ [cn [cp [ca [cm H]]]]]]]];
    rewrite H in H1; inversion H1; subst r1 db1; clear H1;
    try (simpl in C1; discriminate C1).
  set (row1 := new_row c1 db cn cp ca cm) in *.
  destruct (submit_outcomes c2 (db_with_row db row1) b2)
    as [[_ H']|[[_ H']|[_ [_ [dn [dp [da [dm H']]]]]]]];
    rewrite H' in H2; inversion H2; subst r2 db2; clear H2;
    try (simpl in C2; discriminate C2).
  set (row2 := new_row c2 (db_with_row db row1) dn dp da dm) in *.
  exists row1, row2. simpl body. simpl payments.
  rewrite <- app_assoc. simpl app.
  split; [|split; [|reflexivity]]; do 2 f_equal.
  - unfold make_transactionId, count_since.
    rewrite dateStr_yyyymmdd, (Hold (count_now c1)) by (reflexivity || exact W1).
    reflexivity.
  - unfold make_transactionId, count_since. simpl payments.
    rewrite dateStr_yyyymmdd, filter_app, (Hold (count_now c2))
      by (exact Hday || exact W2).
    simpl. rewrite created_at_since_day by assumption.
    replace (on_or_after_day (count_now c2) (insert_now c1)) with true;
      [reflexivity|].
    symmetry. unfold on_or_after_day. rewrite Ty, Tm, Td.
    rewrite !N.compare_refl, N.ltb_irrefl. reflexivity.
Qed.

End Submit.

Section Confirm.

Context `{RT : Runtime}.

Lemma submit_plain (clk : Clock) (db : DB) (n p a : string) (q : Q) :
  payment_status db <> "paused" ->
  has_transaction_id (make_transactionId clk db) (payments db) = false ->
  let row := new_row clk db n p a (Real (Finite q)) in
  submit_manual_payment clk db (plain_body n p a q) =
    (json (SavedBody (make_transactionId clk db) (Some row)),
     db_with_row db row).
Proof.
  intros Hp Hf. unfold submit_manual_payment, plain_body.
  rewrite not_paused by exact Hp. simpl.
  rewrite insert_payment_plain by exact Hf.
  unfold select_by_transaction_id. simpl.
  rewrite find_fresh_last by (exact Hf || reflexivity).
  reflexivity.
Qed.

Lemma initiate_outcomes (db : DB) (b : PaymentBody) :
  payment_status db <> "paused" ->
  initiate_manual_payment db b =
    (mkResponse 500 (ErrorBody "Failed to initiate payment"), db) \/
  exists pn tn,
    initiate_manual_payment db b =
      (json (UpiUrlBody
               ("upi://pay?pa=" ++ env_or ADMIN_UPI_ID "9511648488@ybl" ++
                "&pn=" ++ pn ++ "&am=" ++ js_to_string (body_amount b) ++
                "&cu=INR&tn=" ++ tn)), db).
Proof.
  intros Hp. unfold initiate_manual_payment.
  rewrite not_paused by exact Hp.
  destruct (encodeURIComponent (env_or ADMIN_NAME "Abhay Rathod")) as [pn|];
    [|left; reflexivity].
  destruct (encodeURIComponent _) as [tn|]; [|left; reflexivity].
  right. exists pn, tn. reflexivity.
Qed.

(** C3, as the code has it.  The submit handler validates nothing, exactly
    as the initiate handler of the server: with the gate open, initiate
    answers any body with the transfer URL built from its fields (or 500
    when the URL cannot be encoded), and submit answers any body with the
    stored row or with the general 500 of a failed insertion; text fields
    and a finite amount are stored exactly as submitted, whatever they are,
    when the receipt id is free.  The three checks (no field empty, a phone
    of exactly ten digits, a parsed amount not below 100) are made by the
    form handler [handlePayment] alone, before it posts to the initiate
    route: when one fails it sets the message, sends no request and leaves
    the database as it is. *)
Theorem validation_only_in_the_form (clk : Clock) (db : DB)
    (n p a : string) (q : Q) (st : AppState) :
  payment_status db <> "paused" ->
  has_transaction_id (make_transactionId clk db) (payments db) = false ->
  let row := new_row clk db n p a (Real (Finite q)) in
  let f := formData st in
  submit_manual_payment clk db (plain_body n p a q) =
    (json (SavedBody (make_transactionId clk db) (Some row)),
     db_with_row db row) /\
  (forall b,
     submit_manual_payment clk db b =
       (mkResponse 500 (ErrorBody "Failed to save payment"), db) \/
     exists cn cp ca cm,
       submit_manual_payment clk db b =
         (json (SavedBody (make_transactionId clk db)
                  (Some (new_row clk db cn cp ca cm))),
          db_with_row db (new_row clk db cn cp ca cm))) /\
  (forall b,
     initiate_manual_payment db b =
       (mkResponse 500 (ErrorBody "Failed to initiate payment"), db) \/
     exists pn tn,
       initiate_manual_payment db b =
         (json (UpiUrlBody
                  ("upi://pay?pa=" ++ env_or ADMIN_UPI_ID "9511648488@ybl" ++
                   "&pn=" ++ pn ++ "&am=" ++ js_to_string (body_amount b) ++
                   "&cu=INR&tn=" ++ tn)), db)) /\
  (forall msg, validate f = Some msg ->
     In msg validation_messages /\
     handlePayment st db =
       (mkAppState (view st) false (Some msg) (upiUrl st) f, false, db)) /\
  (validate f = None <->
   form_name f <> "" /\ form_phone f <> "" /\ form_address f <> "" /\
   form_amount f <> "" /\ ten_digits (form_phone f) = true /\
   num_lt (parseFloat (form_amount f)) (Finite 100) = false).
Proof.
  intros Hp Hf. cbv zeta.
  split; [apply submit_plain; assumption|].
  split.
  { intros b. destruct (submit_outcomes clk db b)
      as [[H _]|[[_ H]|[_ [_ [cn [cp [ca [cm H]]]]]]]].
    - contradiction.
    - left. exact H.
    - right. exists cn, cp, ca, cm. exact H. }
  split; [intros b; apply initiate_outcomes; exact Hp|].
  split.
  - intros msg Hv. split.
    + unfold validate in Hv. unfold validation_messages.
      destruct (_ || _ || _ || _); [inversion Hv; simpl; tauto|].
      destruct (negb _); [inversion Hv; simpl; tauto|].
      destruct (num_lt _ _); [inversion Hv; simpl; tauto | discriminate].
    + unfold handlePayment. rewrite Hv. reflexivity.
  - unfold validate.
    destruct (String.eqb_spec (form_name (formData st)) "") as [E1|E1];
      simpl; [split; [discriminate | tauto]|].
    destruct (String.eqb_spec (form_phone (formData st)) "") as [E2|E2];
      simpl; [split; [discriminate | tauto]|].
    destruct (String.eqb_spec (form_address (formData st)) "") as [E3|E3];
      simpl; [split; [discriminate | tauto]|].
    destruct (String.eqb_spec (form_amount (formData st)) "") as [E4|E4];
      simpl; [split; [discriminate | tauto]|].
    destruct (ten_digits (form_phone (formData st))); simpl;
      [|split; [discriminate | intuition discriminate]].
    destruct (num_lt _ _);
      [split; [discriminate | intuition discriminate] | tauto].
Qed.

(** C4, as the code has it.  With 9999 rows or more counted for the day the
    handler raises no capacity error: the sequence is count + 1 printed in
    full, five characters or more, and the submit then succeeds with that
    id or fails with the general 500 of a failed insertion; it succeeds
    when the id is free and the fields are texts and a finite amount. *)
Theorem sequence_overflow_goes_unchecked (clk : Clock) (db : DB)
    (b : PaymentBody) :
  payment_status db <> "paused" ->
  9999 <= count_since (sql_date (count_now clk)) db ->
  let count := count_since (sql_date (count_now clk)) db in
  let tid := "REC-" ++ yyyymmdd (js_now clk) ++ "-" ++ toString (count + 1) in
  make_transactionId clk db = tid /\
  (5 <= String.length (toString (count + 1)))%nat /\
  (submit_manual_payment clk db b =
     (mkResponse 500 (ErrorBody "Failed to save payment"), db) \/
   exists row,
     transaction_id row = tid /\
     submit_manual_payment clk db b =
       (json (SavedBody tid (Some row)), db_with_row db row)) /\
  (forall n p a q,
     has_transaction_id tid (payments db) = false ->
     submit_manual_payment clk db (plain_body n p a q) =
       (json (SavedBody tid (Some (new_row clk db n p a (Real (Finite q))))),
        db_with_row db (new_row clk db n p a (Real (Finite q))))).
Proof.
  intros Hp Hc. cbv zeta.
  destruct (sequentialNumber_overflow _ Hc) as [Hseq Hlen].
  assert (Htid : make_transactionId clk db =
                 "REC-" ++ yyyymmdd (js_now clk) ++ "-" ++
                 toString (count_since (sql_date (count_now clk)) db + 1)).
  { unfold make_transactionId. rewrite dateStr_yyyymmdd, Hseq. reflexivity. }
  split; [exact Htid|]. split; [exact Hlen|]. split.
  - destruct (submit_outcomes clk db b)
      as [[H _]|[[_ H]|[_ [_ [cn [cp [ca [cm H]]]]]]]].
    + contradiction.
    + left. exact H.
    + right. exists (new_row clk db cn cp ca cm). rewrite <- Htid.
      split; [reflexivity | exact H].
  - intros n p a q Hf. rewrite <- Htid in *.
    apply submit_plain; assumption.
Qed.

(** C5, as the code has it.  When the receipt id is already in the table
    the single insertion fails on the UNIQUE constraint and the handler
    answers at once with the general 500: no second id is generated and the
    database is left as it was. *)
Theorem duplicate_transaction_id_is_fatal (clk : Clock) (db : DB)
    (b : PaymentBody) :
  payment_status db <> "paused" ->
  has_transaction_id (make_transactionId clk db) (payments db) = true ->
  submit_manual_payment clk db b =
    (mkResponse 500 (ErrorBody "Failed to save payment"), db).
Proof.
  intros Hp Hd. unfold submit_manual_payment.
  rewrite not_paused by exact Hp.
  rewrite insert_payment_duplicate by exact Hd. reflexivity.
Qed.

End Confirm.

(** ** Examples for the submit handler *)

Lemma one_payment_reached :
  snd (submit_sample (at_instant noon) initial_db alice) = one_payment.
Proof. vm_compute. reflexivity. Qed.

Lemma wf_noon : wf_datetime noon.
Proof. unfold wf_datetime. simpl. lia. Defined.

Lemma wf_later : wf_datetime later.
Proof. unfold wf_datetime. simpl. lia. Defined.

Lemma transaction_id_format_witness :
  exists row,
    payments two_payments = [alice_row false; row] /\
    transaction_id row = "REC-20261103-0002".
Proof.
  destruct (@transaction_id_format sample_runtime (at_instant later)
              one_payment two_payments bob (fun _ => noon)
              (json (SavedBody "REC-20261103-0002" (Some (bob_row false)))))
    as [row [_ [P [_ [_ [_ [_ [_ [_ O]]]]]]]]].
  - exact wf_later.
  - exact wf_later.
  - intros r [<-|[]]. split; [exact wf_noon | reflexivity].
  - vm_compute. reflexivity.
  - reflexivity.
  - exists row. split; [exact P | apply O; reflexivity].
Defined.

(** C3 as stated fails: a submit with a five-digit phone and the amount 99,
    which the form turns down, is stored by the server. *)
Lemma submit_stores_invalid_fields :
  @validate sample_runtime short_phone =
    Some "Please enter a valid 10-digit phone number" /\
  @request_body sample_runtime short_phone = short_phone_body /\
  submit_sample (at_instant noon) initial_db short_phone_body =
    (json (SavedBody "REC-20261103-0001" (Some carol_row)),
     mkDB [carol_row] 1 "active").
Proof. vm_compute. repeat split. Qed.

Lemma validation_only_in_the_form_witness :
  submit_sample (at_instant noon) initial_db short_phone_body =
    (json (SavedBody "REC-20261103-0001" (Some carol_row)),
     mkDB [carol_row] 1 "active") /\
  @handlePayment sample_runtime
    (mkAppState ViewForm false None None short_phone) initial_db =
    (mkAppState ViewForm false
       (Some "Please enter a valid 10-digit phone number") None short_phone,
     false, initial_db).
Proof.
  destruct (@validation_only_in_the_form sample_runtime (at_instant noon)
              initial_db "Carol" "12345" "7 Mill Lane" 99%Q
              (mkAppState ViewForm false None None short_phone))
    as [S [_ [_ [V _]]]].
  - discriminate.
  - reflexivity.
  - split; [exact S|].
    exact (proj2 (V "Please enter a valid 10-digit phone number" eq_refl)).
Defined.

Lemma busy_day_starts_as_served :
  firstn 2 (payments busy_day) = [alice_row false; busy_row 2] /\
  snd (submit_sample (at_instant noon) (mkDB [alice_row false] 1 "active")
         alice) =
    mkDB (firstn 2 (payments busy_day)) 2 "active".
Proof. vm_compute. split; reflexivity. Qed.

(** C4 as stated fails: the 10001st payment of the day is stored with a
    five-digit sequence, and no error is raised. *)
Lemma overflowing_sequence_is_stored :
  count_since (sql_date noon) busy_day = 10000 /\
  fst (submit_sample (at_instant noon) busy_day alice) =
    json (SavedBody "REC-20261103-10001"
            (Some (mkPayment 10001 "REC-20261103-10001" "Alice" "9876543210"
                     "12 Hill Road" (Real (N_number 500)) "success" false
                     "2026-11-03 12:00:00"))) /\
  String.length "10001" = 5%nat.
Proof. vm_compute. repeat split. Qed.

Lemma sequence_overflow_goes_unchecked_witness :
  @make_transactionId (at_instant noon) busy_day = "REC-20261103-10001" /\
  submit_sample (at_instant noon) busy_day (plain_body "Dan" "" "" 1%Q) =
    (json (SavedBody "REC-20261103-10001"
             (Some (new_row (at_instant noon) busy_day "Dan" "" ""
                      (Real (Finite 1%Q))))),
     db_with_row busy_day
       (new_row (at_instant noon) busy_day "Dan" "" "" (Real (Finite 1%Q)))).
Proof.
  destruct (@sequence_overflow_goes_unchecked sample_runtime
              (at_instant noon) busy_day alice)
    as [T [_ [_ P]]].
  - discriminate.
  - vm_compute. discriminate.
  - split.
    + rewrite T. vm_compute. reflexivity.
    + replace "REC-20261103-10001" with
        ("REC-" ++ yyyymmdd (js_now (at_instant noon)) ++ "-" ++
         toString (count_since (sql_date (count_now (at_instant noon)))
                     busy_day + 1))
        by (vm_compute; reflexivity).
      apply P. vm_compute. reflexivity.
Defined.

Lemma after_purge_rows : after_purge = mkDB [bob_row false] 2 "active".
Proof. vm_compute. reflexivity. Qed.

(** C5 as stated fails: the next submit of the day counts one row, takes
    0002 again, and is answered 500 after the one insertion. *)
Lemma duplicate_id_is_not_retried :
  @make_transactionId (at_instant later) after_purge = "REC-20261103-0002" /\
  has_transaction_id "REC-20261103-0002" (payments after_purge) = true /\
  submit_sample (at_instant later) after_purge alice =
    (mkResponse 500 (ErrorBody "Failed to save payment"), after_purge).
Proof. vm_compute. repeat split. Qed.

Lemma duplicate_transaction_id_is_fatal_witness :
  submit_sample (at_instant later) after_purge alice =
    (mkResponse 500 (ErrorBody "Failed to save payment"), after_purge).
Proof.
  apply (@duplicate_transaction_id_is_fatal sample_runtime).
  - discriminate.
  - reflexivity.
Defined.

(** * Further properties of the handlers *)

(** ** The gate setting over request sequences *)

Section GateSequences.

Context `{RT : Runtime}.

Lemma handle_valid_status (db : DB) (rq : Request) :
  valid_status (payment_status db) ->
  valid_status (payment_status (snd (handle db rq))).
Proof.
  intros Hv. destruct rq; simpl; try exact Hv.
  - unfold initiate_manual_payment.
    destruct (String.eqb _ _); [exact Hv|].
    destruct (encodeURIComponent _); [|exact Hv].
    destruct (encodeURIComponent _); exact Hv.
  - destruct (submit_outcomes clk db b)
      as [[_ H]|[[_ H]|[_ [_ [cn [cp [ca [cm H]]]]]]]];
      rewrite H; exact Hv.
  - rewrite admin_login_reads_only. exact Hv.
  - unfold update_status. destruct st; try exact Hv.
    destruct (String.eqb_spec s "active") as [->|Ha]; simpl.
    + left. reflexivity.
    + destruct (String.eqb_spec s "paused") as [->|Hp]; simpl.
      * right. reflexivity.
      * exact Hv.
Qed.

(** X1.  Whatever requests arrive, the gate setting stays one of 'active'
    and 'paused': update-status stores these two values only and answers
    400 to anything else. *)
Theorem gate_setting_stays_valid (db : DB) (rqs : list Request) :
  valid_status (payment_status db) ->
  valid_status (payment_status (snd (serve db rqs))) /\
  (forall v, v <> JStr "active" -> v <> JStr "paused" ->
     update_status db v = (mkResponse 400 (ErrorBody "Invalid status"), db)).
Proof.
  intros Hv. split.
  - revert db Hv. induction rqs as [|rq rqs IH]; intros db Hv; simpl.
    + exact Hv.
    + pose proof (handle_valid_status db rq Hv) as H1.
      destruct (handle db rq) as [r db1]. simpl in H1.
      specialize (IH db1 H1). destruct (serve db1 rqs). exact IH.
  - intros v Ha Hp. unfold update_status. destruct v; try reflexivity.
    destruct (String.eqb_spec s "active") as [->|_]; [congruence|].
    destruct (String.eqb_spec s "paused") as [->|_]; [congruence|].
    reflexivity.
Qed.

(** X2.  Once the setting is 'paused' and until an update-status request
    arrives, every initiate and every submit is answered 403, and the
    table, the AUTOINCREMENT counter and the setting only change by what
    the admin routes do: no row is added. *)
Theorem paused_until_update_status (db : DB) (rqs : list Request) :
  payment_status db = "paused" ->
  forallb (fun rq => negb (is_update_status rq)) rqs = true ->
  let out := serve db rqs in
  (forall rq res, In (rq, res) (fst out) -> is_payment_request rq = true ->
     res = mkResponse 403 (ErrorBody paused_message)) /\
  payment_status (snd out) = "paused" /\
  sqlite_sequence (snd out) = sqlite_sequence db /\
  (List.length (payments (snd out)) <= List.length (payments db))%nat.
Proof.
  revert db. induction rqs as [|rq rqs IH]; intros db Hp Hn; simpl.
  - repeat split; try tauto. lia.
  - simpl in Hn. apply andb_true_iff in Hn. destruct Hn as [Hrq Hn].
    assert (Hstep : payment_status (snd (handle db rq)) = "paused" /\
                    sqlite_sequence (snd (handle db rq)) = sqlite_sequence db /\
                    (List.length (payments (snd (handle db rq))) <=
                     List.length (payments db))%nat /\
                    (is_payment_request rq = true ->
                     fst (handle db rq) =
                     mkResponse 403 (ErrorBody paused_message))).
    { destruct rq; simpl in *; try discriminate;
        try (repeat split; (exact Hp || reflexivity || lia || discriminate)).
      - unfold initiate_manual_payment. rewrite Hp. simpl.
        repeat split; (exact Hp || reflexivity || lia).
      - unfold submit_manual_payment. rewrite Hp. simpl.
        repeat split; (exact Hp || reflexivity || lia).
      - rewrite admin_login_reads_only.
        repeat split; (exact Hp || reflexivity || lia || discriminate).
      - repeat split; try (exact Hp || reflexivity || discriminate).
        rewrite length_map. lia.
      - repeat split; try (exact Hp || reflexivity || discriminate).
        rewrite length_map. lia.
      - repeat split; try (exact Hp || reflexivity || discriminate).
        apply filter_length_le.
      - repeat split; try (exact Hp || reflexivity || discriminate).
        rewrite length_map. lia.
      - repeat split; try (exact Hp || reflexivity || discriminate).
        rewrite length_map. lia.
      - repeat split; try (exact Hp || reflexivity || discriminate).
        apply filter_length_le. }
    destruct (handle db rq) as [r db1]. simpl in Hstep.
    destruct Hstep as [Hp1 [Hs1 [Hl1 Hr1]]].
    specialize (IH db1 Hp1 Hn). destruct (serve db1 rqs) as [rs db2].
    simpl in *. destruct IH as [Hall [Hp2 [Hs2 Hl2]]].
    split; [|split; [exact Hp2 | split; [congruence | lia]]].
    intros rq' res [Heq|Hin] Hpay.
    + inversion Heq; subst. apply Hr1. exact Hpay.
    + eapply Hall; eassumption.
Qed.

End GateSequences.

(** ** Records over request sequences *)

Section History.

Context `{RT : Runtime}.

(** What one request can do to the table: every row afterwards is a row
    from before, up to its flag, or the one new row, which takes the next
    rowid. *)
Lemma handle_rows (db : DB) (rq : Request) (r' : Payment) :
  In r' (payments (snd (handle db rq))) ->
  (exists r, In r (payments db) /\ r' = set_is_trashed (is_trashed r') r) \/
  (id r' = next_rowid db /\
   sqlite_sequence (snd (handle db rq)) = next_rowid db).
Proof.
  assert (Hsame : forall l, In r' l ->
            exists r, In r l /\ r' = set_is_trashed (is_trashed r') r).
  { intros l Hin. exists r'. split; [exact Hin|].
    symmetry. apply set_is_trashed_same. }
  assert (Hmap : forall (f : Payment -> bool) (b : bool) (l : list Payment),
            In r' (map (fun r => if f r then set_is_trashed b r else r) l) ->
            exists r, In r l /\ r' = set_is_trashed (is_trashed r') r).
  { intros f b l Hin. apply in_map_iff in Hin.
    destruct Hin as [r [Hr Hin]]. exists r. split; [exact Hin|].
    destruct (f r); subst r'; [reflexivity|].
    symmetry. apply set_is_trashed_same. }
  destruct rq; simpl; intros Hin; try (left; apply Hsame; exact Hin).
  - unfold initiate_manual_payment in Hin.
    destruct (String.eqb _ _); [left; apply Hsame; exact Hin|].
    destruct (encodeURIComponent _); [|left; apply Hsame; exact Hin].
    destruct (encodeURIComponent _); left; apply Hsame; exact Hin.
  - destruct (submit_outcomes clk db b)
      as [[_ H]|[[_ H]|[_ [_ [cn [cp [ca [cm H]]]]]]]];
      rewrite H in *; simpl in *; try (left; apply Hsame; exact Hin).
    apply in_app_iff in Hin. destruct Hin as [Hin|[<-|[]]].
    + left. apply Hsame. exact Hin.
    + right. split; reflexivity.
  - rewrite admin_login_reads_only in Hin. left. apply Hsame. exact Hin.
  - unfold update_status in Hin. destruct st;
      try (left; apply Hsame; exact Hin).
    destruct (_ && _); left; apply Hsame; exact Hin.
  - left. eapply Hmap. exact Hin.
  - left. eapply Hmap. exact Hin.
  - left. apply filter_In in Hin. apply Hsame. tauto.
  - left. eapply Hmap. exact Hin.
  - left. eapply Hmap. exact Hin.
  - left. apply filter_In in Hin. apply Hsame. tauto.
Qed.

(** The counter after one request: unchanged, or advanced to the next
    rowid. *)
Lemma handle_counter (db : DB) (rq : Request) :
  sqlite_sequence (snd (handle db rq)) = sqlite_sequence db \/
  sqlite_sequence (snd (handle db rq)) = next_rowid db.
Proof.
  destruct rq; simpl; try (left; reflexivity).
  - unfold initiate_manual_payment. destruct (String.eqb _ _);
      [left; reflexivity|].
    destruct (encodeURIComponent _); [|left; reflexivity].
    destruct (encodeURIComponent _); left; reflexivity.
  - destruct (submit_outcomes clk db b)
      as [[_ H]|[[_ H]|[_ [_ [cn [cp [ca [cm H]]]]]]]];
      rewrite H; simpl; [left | left | right]; reflexivity.
  - rewrite admin_login_reads_only. left. reflexivity.
  - unfold update_status. destruct st; try (left; reflexivity).
    destruct (_ && _); left; reflexivity.
Qed.

Lemma next_rowid_above (db : DB) :
  (sqlite_sequence db < next_rowid db)%Z /\
  (forall r, In r (payments db) -> (id r < next_rowid db)%Z).
Proof.
  unfold next_rowid. split; [lia|].
  intros r Hr. apply max_rowid_bound in Hr. lia.
Qed.

Lemma handle_counter_ok (db : DB) (rq : Request) :
  counter_ok db ->
  counter_ok (snd (handle db rq)) /\
  (sqlite_sequence db <= sqlite_sequence (snd (handle db rq)))%Z.
Proof.
  intros Hc. pose proof (next_rowid_above db) as [Hn _].
  split.
  - intros r' Hin. destruct (handle_rows db rq r' Hin) as [[r [Hr Heq]]|[Hid Hs]].
    + assert (Hid : id r' = id r) by (rewrite Heq; reflexivity).
      specialize (Hc r Hr).
      destruct (handle_counter db rq) as [H|H]; rewrite H; lia.
    + rewrite Hs, Hid. lia.
  - destruct (handle_counter db rq) as [H|H]; rewrite H; lia.
Qed.

(** X3.  Row ids are never used twice.  Over any sequence of requests the
    AUTOINCREMENT counter never goes down and stays above every id of the
    table, and an id found in the table afterwards was in the table before
    or is greater than the counter was: an id that has been permanently
    deleted does not come back. *)
Theorem rowids_never_reused (db : DB) (rqs : list Request) :
  counter_ok db ->
  let db' := snd (serve db rqs) in
  counter_ok db' /\
  (sqlite_sequence db <= sqlite_sequence db')%Z /\
  (forall r', In r' (payments db') ->
     In (id r') (map id (payments db)) \/ (sqlite_sequence db < id r')%Z).
Proof.
  revert db. induction rqs as [|rq rqs IH]; intros db Hc; simpl.
  - split; [exact Hc|]. split; [lia|].
    intros r' Hin. left. apply in_map. exact Hin.
  - pose proof (handle_counter_ok db rq Hc) as [Hc1 Hm1].
    pose proof (handle_rows db rq) as Hrows.
    pose proof (next_rowid_above db) as [Hn _].
    destruct (handle db rq) as [r db1]. simpl in *.
    specialize (IH db1 Hc1). destruct (serve db1 rqs) as [rs db2].
    simpl in *. destruct IH as [Hc2 [Hm2 Hids]].
    split; [exact Hc2|]. split; [lia|].
    intros r' Hin. destruct (Hids r' Hin) as [Hold|Hnew]; [|right; lia].
    apply in_map_iff in Hold. destruct Hold as [x [Hx Hxin]].
    destruct (Hrows x Hxin) as [[r0 [Hr0 Heq]]|[Hid _]].
    + left. rewrite <- Hx, Heq. apply in_map_iff. exists r0.
      split; [reflexivity | exact Hr0].
    + right. rewrite <- Hx, Hid. exact Hn.
Qed.

(** X4.  A record is written once.  Over any sequence of requests, a row
    whose id is not above the old counter is a row of the table from
    before with, at most, its [is_trashed] flag changed: no request alters
    the transaction id, name, phone, address, amount, status or creation
    time of a stored record. *)
Theorem stored_fields_never_change (db : DB) (rqs : list Request)
    (r' : Payment) :
  counter_ok db ->
  In r' (payments (snd (serve db rqs))) ->
  (id r' <= sqlite_sequence db)%Z ->
  exists r, In r (payments db) /\ r' = set_is_trashed (is_trashed r') r.
Proof.
  revert db. induction rqs as [|rq rqs IH]; intros db Hc Hin Hid; simpl in *.
  - exists r'. split; [exact Hin|]. symmetry. apply set_is_trashed_same.
  - pose proof (handle_counter_ok db rq Hc) as [Hc1 Hm1].
    pose proof (handle_rows db rq) as Hrows.
    pose proof (next_rowid_above db) as [Hn _].
    destruct (handle db rq) as [r db1]. simpl in *.
    specialize (IH db1 Hc1). destruct (serve db1 rqs) as [rs db2].
    simpl in *. destruct (IH Hin ltac:(lia)) as [x [Hx Heq]].
    destruct (Hrows x Hx) as [[r0 [Hr0 Heq0]]|[Hidx _]].
    + exists r0. split; [exact Hr0|]. rewrite Heq, Heq0. reflexivity.
    + exfalso. assert (id r' = id x) by (rewrite Heq; reflexivity). lia.
Qed.

Lemma handle_keeps_untrashed (db : DB) (rq : Request) (r : Payment) :
  is_trash_request rq = false ->
  In r (payments db) -> is_trashed r = false ->
  In r (payments (snd (handle db rq))).
Proof.
  intros Hrq Hin Ht.
  assert (Hmap : forall (f : Payment -> bool) (l : list Payment),
            In r l ->
            In r (map (fun x => if f x then set_is_trashed false x else x) l)).
  { intros f l Hl. apply in_map_iff. exists r. split; [|exact Hl].
    destruct (f r); [|reflexivity].
    rewrite <- Ht. apply set_is_trashed_same. }
  destruct rq; simpl in *; try discriminate; try exact Hin.
  - unfold initiate_manual_payment. destruct (String.eqb _ _); [exact Hin|].
    destruct (encodeURIComponent _); [|exact Hin].
    destruct (encodeURIComponent _); exact Hin.
  - destruct (submit_outcomes clk db b)
      as [[_ H]|[[_ H]|[_ [_ [cn [cp [ca [cm H]]]]]]]];
      rewrite H; simpl; try exact Hin.
    apply in_app_iff. left. exact Hin.
  - rewrite admin_login_reads_only. exact Hin.
  - unfold update_status. destruct st; try exact Hin.
    destruct (_ && _); exact Hin.
  - apply Hmap. exact Hin.
  - apply filter_In. split; [exact Hin|]. rewrite Ht.
    rewrite andb_false_r. reflexivity.
  - apply Hmap. exact Hin.
  - apply filter_In. split; [exact Hin|]. rewrite Ht. reflexivity.
Qed.

(** X5.  Nothing is destroyed that was not moved to the trash first.  Over
    a sequence of requests without a move-to-trash request (single or
    all), every record that was active is still in the table, unchanged
    and active, whatever permanent-delete and empty-trash requests the
    sequence holds. *)
Theorem untrashed_records_survive (db : DB) (rqs : list Request)
    (r : Payment) :
  forallb (fun rq => negb (is_trash_request rq)) rqs = true ->
  In r (payments db) -> is_trashed r = false ->
  In r (payments (snd (serve db rqs))) /\
  In r (select_active (snd (serve db rqs))).
Proof.
  intros Hn Hin Ht.
  assert (H : In r (payments (snd (serve db rqs)))).
  { revert db Hin. induction rqs as [|rq rqs IH]; intros db Hin; simpl.
    - exact Hin.
    - simpl in Hn. apply andb_true_iff in Hn. destruct Hn as [Hrq Hn].
      apply negb_true_iff in Hrq.
      pose proof (handle_keeps_untrashed db rq r Hrq Hin Ht) as H1.
      destruct (handle db rq) as [res db1]. simpl in H1.
      specialize (IH Hn db1 H1). destruct (serve db1 rqs). exact IH. }
  split; [exact H|]. apply in_select_active. split; assumption.
Qed.

End History.

(** ** The two listings *)

Lemma insert_desc_permutation (r : Payment) (l : list Payment) :
  Permutation (insert_desc r l) (r :: l).
Proof.
  induction l as [|x l IH]; simpl; [apply Permutation_refl|].
  destruct (String.leb (created_at x) (created_at r)).
  - apply Permutation_refl.
  - apply perm_trans with (x :: r :: l); [|apply perm_swap].
    apply perm_skip. exact IH.
Qed.

Lemma order_by_permutation (l : list Payment) :
  Permutation (order_by_created_at_desc l) l.
Proof.
  induction l as [|x l IH]; simpl; [apply perm_nil|].
  apply perm_trans with (x :: order_by_created_at_desc l).
  - apply insert_desc_permutation.
  - apply perm_skip. exact IH.
Qed.

Lemma insert_desc_sorted (r : Payment) (l : list Payment) :
  Sorted not_older l -> Sorted not_older (insert_desc r l).
Proof.
  induction l as [|x l IH]; simpl; intros Hs.
  - repeat constructor.
  - destruct (String.leb (created_at x) (created_at r)) eqn:E.
    + constructor; [exact Hs|]. constructor. exact E.
    + apply Sorted_inv in Hs. destruct Hs as [Hs Hhd].
      constructor; [apply IH; exact Hs|].
      assert (Hxr : not_older x r).
      { unfold not_older.
        destruct (String.leb_total (created_at r) (created_at x)) as [H|H];
          [exact H | congruence]. }
      destruct l as [|y l]; simpl.
      * constructor. exact Hxr.
      * destruct (String.leb (created_at y) (created_at r));
          constructor; [exact Hxr|].
        inversion Hhd; assumption.
Qed.

Lemma order_by_sorted (l : list Payment) :
  Sorted not_older (order_by_created_at_desc l).
Proof.
  induction l as [|x l IH]; simpl; [constructor|].
  apply insert_desc_sorted. exact IH.
Qed.

Lemma filter_split_permutation {A : Type} (f : A -> bool) (l : list A) :
  Permutation (filter (fun x => negb (f x)) l ++ filter f l) l.
Proof.
  induction l as [|x l IH]; simpl; [apply perm_nil|].
  destruct (f x); simpl.
  - apply Permutation_sym. apply Permutation_cons_app.
    apply Permutation_sym. exact IH.
  - apply perm_skip. exact IH.
Qed.

(** X6.  The active listing and the trash listing split the table: taken
    together they hold every row exactly as often as the table does, the
    first only rows with the flag clear and the second only rows with the
    flag set, and each lists its rows newest first by creation time. *)
Theorem listings_split_the_table (db : DB) :
  Permutation (select_active db ++ select_trashed db) (payments db) /\
  Sorted not_older (select_active db) /\
  Sorted not_older (select_trashed db) /\
  (forall r, In r (select_active db) -> is_trashed r = false) /\
  (forall r, In r (select_trashed db) -> is_trashed r = true).
Proof.
  split; [|split; [|split; [|split]]].
  - unfold select_active, select_trashed.
    eapply perm_trans; [|apply (filter_split_permutation is_trashed)].
    apply Permutation_app; apply order_by_permutation.
  - apply order_by_sorted.
  - apply order_by_sorted.
  - intros r Hr. apply in_select_active in Hr. tauto.
  - intros r Hr. apply in_select_trashed in Hr. tauto.
Qed.

(** ** Repeating and combining the admin routes *)

Section AdminRoutes.

Context `{RT : Runtime}.

Lemma filter_twice {A : Type} (f : A -> bool) (l : list A) :
  filter f (filter f l) = filter f l.
Proof.
  induction l as [|x l IH]; simpl; [reflexivity|].
  destruct (f x) eqn:E; simpl; [rewrite E, IH|]; auto.
Qed.

(** X7.  Every admin write is idempotent: sent a second time right after
    the first, a move to trash, a restore, a permanent delete, each of the
    three batch forms and a status update leave the database as the first
    left it and are answered as the first was. *)
Theorem admin_writes_are_idempotent (db : DB) (rq : Request) :
  privileged rq = true ->
  handle (snd (handle db rq)) rq = handle db rq.
Proof.
  destruct rq; simpl; try discriminate; intros _.
  - unfold update_status. destruct st; try reflexivity.
    destruct (String.eqb s "active") eqn:Ea,
             (String.eqb s "paused") eqn:Ep; simpl;
      rewrite ?Ea, ?Ep; reflexivity.
  - unfold delete_payment, update_is_trashed_by_id, with_payments. simpl.
    rewrite map_map. do 2 f_equal. apply map_ext. intros r.
    destruct (id_matches param r) eqn:E; [|rewrite E; reflexivity].
    rewrite id_matches_set_is_trashed, E. reflexivity.
  - unfold restore_payment, update_is_trashed_by_id, with_payments. simpl.
    rewrite map_map. do 2 f_equal. apply map_ext. intros r.
    destruct (id_matches param r) eqn:E; [|rewrite E; reflexivity].
    rewrite id_matches_set_is_trashed, E. reflexivity.
  - unfold permanent_delete, delete_trashed_by_id, with_payments. simpl.
    rewrite filter_twice. reflexivity.
  - unfold clear_payments, trash_all, with_payments. simpl.
    rewrite map_map. do 2 f_equal. apply map_ext. intros r.
    destruct (is_trashed r) eqn:E; simpl; [rewrite E|]; reflexivity.
  - unfold restore_payments, restore_all, with_payments. simpl.
    rewrite map_map. do 2 f_equal. apply map_ext. intros r.
    destruct (is_trashed r) eqn:E; simpl; [|rewrite E]; reflexivity.
  - unfold empty_trash, delete_all_trashed, with_payments. simpl.
    rewrite filter_twice. reflexivity.
Qed.

(** X8.  Moving an active record to the trash takes it from the active
    listing to the trash listing with its other columns unchanged, and
    changes the place of no record with another id. *)
Theorem delete_payment_moves_to_trash (db : DB) (param : string)
    (r : Payment) :
  In r (payments db) -> id_matches param r = true ->
  is_trashed r = false ->
  let db' := snd (delete_payment db param) in
  ~ In r (select_active db') /\
  In (set_is_trashed true r) (select_trashed db') /\
  (forall x, id_matches param x = false ->
     (In x (select_active db') <-> In x (select_active db)) /\
     (In x (select_trashed db') <-> In x (select_trashed db))).
Proof.
  intros Hin Hm Ht. simpl.
  assert (Hrows : forall x,
            In x (payments (update_is_trashed_by_id true param db)) <->
            exists y, In y (payments db) /\
                      x = if id_matches param y then set_is_trashed true y
                          else y).
  { intros x. simpl. rewrite in_map_iff. split.
    - intros [y [Hy Hyin]]. exists y. split; [exact Hyin | now symmetry].
    - intros [y [Hyin Hy]]. exists y. split; [now symmetry | exact Hyin]. }
  assert (Hother : forall x, id_matches param x = false ->
            (In x (payments (update_is_trashed_by_id true param db)) <->
             In x (payments db))).
  { intros x Hx. rewrite Hrows. split.
    - intros [y [Hyin Hy]]. destruct (id_matches param y) eqn:E.
      + subst x. rewrite id_matches_set_is_trashed in Hx. congruence.
      + subst x. exact Hyin.
    - intros Hxin. exists x. rewrite Hx. split; [exact Hxin | reflexivity]. }
  split; [|split].
  - rewrite in_select_active, Hrows. intros [[y [Hyin Hy]] _].
    destruct (id_matches param y) eqn:E.
    + rewrite Hy in Ht. discriminate.
    + subst y. congruence.
  - rewrite in_select_trashed, Hrows. split; [|reflexivity].
    exists r. rewrite Hm. split; [exact Hin | reflexivity].
  - intros x Hx. rewrite !in_select_active, !in_select_trashed.
    rewrite (Hother x Hx). tauto.
Qed.

End AdminRoutes.

(** ** Receipt ids *)

Lemma all_digits_yyyymmdd (t : DateTime) :
  all_digits (yyyymmdd t) = true /\ String.length (yyyymmdd t) = 8%nat.
Proof.
  unfold yyyymmdd, four_digits, two_digits. cbn [append all_digits].
  rewrite !is_digit_digit by apply mod10_lt. split; reflexivity.
Qed.

Lemma sequentialNumber_inj (c c' : N) :
  sequentialNumber c = sequentialNumber c' -> c = c'.
Proof.
  intros H. pose proof (sequentialNumber_value c) as H1.
  rewrite H, sequentialNumber_value in H1. inversion H1. lia.
Qed.

Lemma append_inj_same_length (a a' b b' : string) :
  String.length a = String.length a' ->
  a ++ b = a' ++ b' -> a = a' /\ b = b'.
Proof.
  revert a'. induction a as [|c a IH]; intros [|c' a'] Hl H;
    simpl in *; try discriminate.
  - split; [reflexivity | exact H].
  - inversion H; subst. inversion Hl as [Hl'].
    destruct (IH a' Hl' H2) as [-> ->]. split; reflexivity.
Qed.

(** X9.  The shape of a receipt id: REC-, eight decimal digits, a dash,
    and four or more decimal digits, whatever the table, for a clock that
    reads an instant of the years 0 to 9999. *)
Theorem transaction_id_shape (clk : Clock) (db : DB) :
  wf_datetime (js_now clk) ->
  exists d s,
    make_transactionId clk db = "REC-" ++ d ++ "-" ++ s /\
    String.length d = 8%nat /\ all_digits d = true /\
    (4 <= String.length s)%nat /\ all_digits s = true.
Proof.
  intros _.
  exists (yyyymmdd (js_now clk)),
         (sequentialNumber (count_since (sql_date (count_now clk)) db)).
  destruct (all_digits_yyyymmdd (js_now clk)) as [Hd Hl].
  split; [|split; [exact Hl | split; [exact Hd | split]]].
  - unfold make_transactionId. rewrite dateStr_yyyymmdd. reflexivity.
  - unfold sequentialNumber. rewrite length_padStart. lia.
  - apply all_digits_sequentialNumber.
Qed.

(** X10.  The sequence of a receipt id is never cut: read as a number it is
    the count plus one, however large.  So two receipt ids are equal only
    for the same date digits and the same count. *)
Theorem transaction_id_determines_count (clk clk' : Clock) (db db' : DB) :
  digits_number
    (sequentialNumber (count_since (sql_date (count_now clk)) db)) =
    Some (count_since (sql_date (count_now clk)) db + 1) /\
  (make_transactionId clk db = make_transactionId clk' db' ->
   yyyymmdd (js_now clk) = yyyymmdd (js_now clk') /\
   count_since (sql_date (count_now clk)) db =
   count_since (sql_date (count_now clk')) db').
Proof.
  split.
  - pose proof (sequentialNumber_value
                  (count_since (sql_date (count_now clk)) db)) as H.
    unfold digits_number. destruct (sequentialNumber _) eqn:E;
      [simpl in H; injection H; lia | exact H].
  - unfold make_transactionId. rewrite !dateStr_yyyymmdd. intros H.
    apply (append_inj_same_length "REC-" "REC-") in H; [|reflexivity].
    destruct H as [_ H].
    apply append_inj_same_length in H.
    + destruct H as [Hd H]. split; [exact Hd|].
      apply (append_inj_same_length "-" "-") in H; [|reflexivity].
      destruct H as [_ H]. apply sequentialNumber_inj. exact H.
    + destruct (all_digits_yyyymmdd (js_now clk)) as [_ ->].
      destruct (all_digits_yyyymmdd (js_now clk')) as [_ ->]. reflexivity.
Qed.

(** ** More on the submit handler *)

Section SubmitMore.

Context `{RT : Runtime}.

Lemma text_not_null_storable (v : jsval) :
  storable v = true <->
  exists b c, bind_param v = Some b /\ text_not_null b = Some c.
Proof.
  destruct v as [| |b|n|s|items|t]; simpl;
    try (split; [discriminate | intros [b0 [c [H _]]]; discriminate H]).
  - split; [discriminate|]. intros [b0 [c [H H']]].
    inversion H; subst. discriminate H'.
  - destruct n; simpl.
    + split; [discriminate|]. intros [b0 [c [H H']]].
      inversion H; subst. discriminate H'.
    + split; [|reflexivity]. intros _. eexists _, _. split; reflexivity.
    + split; [|reflexivity]. intros _. eexists _, _. split; reflexivity.
  - split; [|reflexivity]. intros _. eexists _, _. split; reflexivity.
Qed.

Lemma real_not_null_storable (v : jsval) :
  storable v = true <->
  exists b c, bind_param v = Some b /\ real_not_null b = Some c.
Proof.
  destruct v as [| |b|n|s|items|t]; simpl;
    try (split; [discriminate | intros [b0 [c [H _]]]; discriminate H]).
  - split; [discriminate|]. intros [b0 [c [H H']]].
    inversion H; subst. discriminate H'.
  - destruct n; simpl.
    + split; [discriminate|]. intros [b0 [c [H H']]].
      inversion H; subst. discriminate H'.
    + split; [|reflexivity]. intros _. eexists _, _. split; reflexivity.
    + split; [|reflexivity]. intros _. eexists _, _. split; reflexivity.
  - split; [|reflexivity]. intros _.
    destruct (sql_real_of_text s) eqn:E; eexists _, _;
      (split; [reflexivity|]); simpl; rewrite E; reflexivity.
Qed.

Lemma bind_array_app (l1 l2 : list jsval) :
  bind_array (l1 ++ l2) =
  match bind_array l1, bind_array l2 with
  | Some bs, Some cs => Some (bs ++ cs)%list
  | _, _ => None
  end.
Proof.
  induction l1 as [|v l1 IH]; simpl.
  - destruct (bind_array l2); reflexivity.
  - destruct (bind_param v); [|reflexivity]. rewrite IH.
    destruct (bind_array l1), (bind_array l2); reflexivity.
Qed.

Lemma bind_array_length (l : list jsval) (bs : list sqlval) :
  bind_array l = Some bs -> List.length bs = List.length l.
Proof.
  revert bs. induction l as [|v l IH]; simpl; intros bs H.
  - inversion H. reflexivity.
  - destruct (bind_param v); [|discriminate].
    destruct (bind_array l) as [cs|]; [|discriminate].
    inversion H. simpl. f_equal. apply IH. reflexivity.
Qed.

(** Without a plain object among them, the arguments give the values of
    their elements, arrays spread, in order. *)
Lemma bind_arguments_spread (o : bool) (args : list jsval) :
  (forall v, In v args -> is_plain_object v = false) ->
  bind_arguments o args = bind_array (flat_map spread args).
Proof.
  induction args as [|v args IH]; intros Hobj; [reflexivity|].
  assert (Hrest : bind_arguments o args = bind_array (flat_map spread args)).
  { apply IH. intros w Hw. apply Hobj. right. exact Hw. }
  assert (Hv : is_plain_object v = false) by (apply Hobj; left; reflexivity).
  cbn [flat_map]. rewrite bind_array_app.
  destruct v as [| |b|n|s|items|t]; try discriminate Hv;
    cbn [bind_arguments spread bind_array bind_param]; try rewrite Hrest;
    try reflexivity.
  all: try destruct n; try destruct (bind_array items);
    destruct (bind_array (flat_map spread args)); reflexivity.
Qed.

Lemma insert_row_succeeds (t : DateTime) (db : DB) (tid : string)
    (vn vp va vm : jsval) (st : string) :
  (exists db',
     match bind_array [vn; vp; va; vm] with
     | Some [bn; bp; ba; bm] => insert_row t db tid bn bp ba bm st
     | _ => None
     end = Some db') <->
  storable vn = true /\ storable vp = true /\ storable va = true /\
  storable vm = true /\ has_transaction_id tid (payments db) = false.
Proof.
  rewrite (text_not_null_storable vn), (text_not_null_storable vp),
    (text_not_null_storable va), (real_not_null_storable vm).
  cbn [bind_array]. unfold insert_row. split.
  - intros [db' H].
    destruct (bind_param vn) as [bn|]; [|discriminate].
    destruct (bind_param vp) as [bp|]; [|discriminate].
    destruct (bind_param va) as [ba|]; [|discriminate].
    destruct (bind_param vm) as [bm|]; [|discriminate].
    destruct (text_not_null bn) as [cn|] eqn:En; [|discriminate].
    destruct (text_not_null bp) as [cp|] eqn:Ep; [|discriminate].
    destruct (text_not_null ba) as [ca|] eqn:Ea; [|discriminate].
    destruct (real_not_null bm) as [cm|] eqn:Em; [|discriminate].
    destruct (has_transaction_id tid (payments db)); [discriminate|].
    repeat split; eexists _, _; (split; [reflexivity | eassumption]).
  - intros [[bn [cn [Hn Hn']]] [[bp [cp [Hp Hp']]] [[ba [ca [Ha Ha']]]
             [[bm [cm [Hm Hm']]] Hf]]]].
    rewrite Hn, Hp, Ha, Hm, Hn', Hp', Ha', Hm', Hf. eexists. reflexivity.
Qed.

(** The insertion goes through exactly when the fields, arrays spread,
    give four values that can be stored and the id is free. *)
Lemma insert_payment_succeeds (t : DateTime) (db : DB) (tid : string)
    (b : PaymentBody) (st : string) :
  no_plain_object b ->
  (exists db',
     insert_payment t db tid (body_name b) (body_phone b) (body_address b)
       (body_amount b) st = Some db') <->
  (exists vn vp va vm,
     field_values b = [vn; vp; va; vm] /\
     storable vn = true /\ storable vp = true /\ storable va = true /\
     storable vm = true) /\
  has_transaction_id tid (payments db) = false.
Proof.
  intros [On [Op [Oa Om]]].
  rewrite insert_payment_fields, bind_arguments_spread.
  2:{ intros v [<-|[<-|[<-|[<-|[]]]]]; assumption. }
  cbn [flat_map]. rewrite app_nil_r. fold (field_values b).
  destruct (field_values b) as [|vn [|vp [|va [|vm [|v l]]]]] eqn:E.
  5:{ rewrite insert_row_succeeds. split.
      - intros [Hn [Hp [Ha [Hm Hf]]]]. split; [|exact Hf].
        exists vn, vp, va, vm. tauto.
      - intros [[x1 [x2 [x3 [x4 [H [Hn [Hp [Ha Hm]]]]]]]] Hf].
        inversion H; subst. tauto. }
  all: split;
    [ intros [db' H];
      match type of H with
      | match bind_array ?l with _ => _ end = _ =>
          destruct (bind_array l) as [bs|] eqn:B; [|discriminate H]
      end;
      apply bind_array_length in B;
      destruct bs as [|? [|? [|? [|? [|? ?]]]]]; try discriminate H;
      discriminate B
    | intros [[x1 [x2 [x3 [x4 [H _]]]]] _]; discriminate H ].
Qed.

Lemma spread_single (v : jsval) :
  is_array v = false -> is_plain_object v = false -> spread v = [v].
Proof. destruct v; simpl; intros; try reflexivity; discriminate. Qed.

Lemma field_values_no_array (b : PaymentBody) :
  no_plain_object b -> no_array b ->
  field_values b =
  [body_name b; body_phone b; body_address b; body_amount b].
Proof.
  intros [On [Op [Oa Om]]] [An [Ap [Aa Am]]]. unfold field_values.
  rewrite !spread_single by assumption. reflexivity.
Qed.

(** X11.  When a submit succeeds.  The driver spreads an array field over
    the placeholders, so what counts is the list of values the four fields
    give together.  For a body without a plain object among its fields, the
    submit is answered 200 exactly when the gate is not paused, the fields
    give exactly four values, each a string or a number (null, a boolean and
    a nested array or object are refused, and a missing field as well), and
    the receipt id is not yet in the table; when no field is an array this
    asks each field to be a string or a number.  In every other case the
    database is left as it was. *)
Theorem submit_succeeds_exactly_when (clk : Clock) (db : DB)
    (b : PaymentBody) :
  no_plain_object b ->
  (code (fst (submit_manual_payment clk db b)) = 200 <->
   payment_status db <> "paused" /\
   (exists vn vp va vm,
      field_values b = [vn; vp; va; vm] /\
      storable vn = true /\ storable vp = true /\ storable va = true /\
      storable vm = true) /\
   has_transaction_id (make_transactionId clk db) (payments db) = false) /\
  (no_array b ->
   (code (fst (submit_manual_payment clk db b)) = 200 <->
    payment_status db <> "paused" /\
    storable (body_name b) = true /\ storable (body_phone b) = true /\
    storable (body_address b) = true /\ storable (body_amount b) = true /\
    has_transaction_id (make_transactionId clk db) (payments db) = false)) /\
  (code (fst (submit_manual_payment clk db b)) <> 200 ->
   snd (submit_manual_payment clk db b) = db).
Proof.
  intros Hobj.
  pose proof (insert_payment_succeeds (insert_now clk) db
                (make_transactionId clk db) b "success" Hobj) as Hins.
  assert (Hmain :
    code (fst (submit_manual_payment clk db b)) = 200 <->
    payment_status db <> "paused" /\
    (exists vn vp va vm,
       field_values b = [vn; vp; va; vm] /\
       storable vn = true /\ storable vp = true /\ storable va = true /\
       storable vm = true) /\
    has_transaction_id (make_transactionId clk db) (payments db) = false).
  { unfold submit_manual_payment.
    destruct (String.eqb_spec (payment_status db) "paused") as [Hp|Hp]; simpl.
    - split; [discriminate | tauto].
    - destruct (insert_payment _ _ _ _ _ _ _ _) as [db'|]; simpl.
      + split; [|reflexivity].
        intros _. split; [exact Hp|]. apply Hins. exists db'. reflexivity.
      + split; [discriminate|].
        intros [_ H]. apply Hins in H. destruct H as [db' H]. discriminate H. }
  split; [exact Hmain|]. split.
  - intros Harr. rewrite Hmain.
    rewrite (field_values_no_array b Hobj Harr). split.
    + intros [Hp [[vn [vp [va [vm [E H]]]]] Hf]]. inversion E; subst. tauto.
    + intros [Hp [Hn [Hph [Ha [Hm Hf]]]]]. split; [exact Hp|].
      split; [|exact Hf]. eexists _, _, _, _. split; [reflexivity|]. tauto.
  - unfold submit_manual_payment.
    destruct (String.eqb (payment_status db) "paused"); simpl;
      [reflexivity|].
    destruct (insert_payment _ _ _ _ _ _ _ _) as [db'|]; simpl;
      [congruence | reflexivity].
Qed.

Lemma count_all_of_day (D today : DateTime) (db : DB) :
  wf_datetime today -> same_day today D ->
  (forall r, In r (payments db) ->
     exists t, wf_datetime t /\ same_day t D /\
               created_at r = sql_current_timestamp t) ->
  count_since (sql_date today) db = N.of_nat (List.length (payments db)).
Proof.
  intros Wt [Sy [Sm Sd]] Hrows. unfold count_since. do 2 f_equal.
  apply filter_unchanged. intros r Hr.
  destruct (Hrows r Hr) as [t [Wr [[Ty [Tm Td]] ->]]].
  rewrite created_at_since_day by assumption.
  unfold on_or_after_day. rewrite Ty, Tm, Td, Sy, Sm, Sd.
  rewrite !N.compare_refl, N.ltb_irrefl. reflexivity.
Qed.

Lemma yyyymmdd_same_day (a b : DateTime) :
  same_day a b -> yyyymmdd a = yyyymmdd b.
Proof. intros [Hy [Hm Hd]]. unfold yyyymmdd. rewrite Hy, Hm, Hd. reflexivity. Qed.

Lemma receipt_of_day_fresh (D : DateTime) (k : nat) (rows : list Payment) :
  map transaction_id rows = map (receipt_of_day D) (seq 0 k) ->
  has_transaction_id (receipt_of_day D k) rows = false.
Proof.
  intros Hm. unfold has_transaction_id.
  destruct (existsb _ rows) eqn:E; [|reflexivity]. exfalso.
  apply existsb_exists in E. destruct E as [r [Hr Heq]].
  apply String.eqb_eq in Heq.
  assert (Hin : In (transaction_id r) (map (receipt_of_day D) (seq 0 k))).
  { rewrite <- Hm. apply in_map. exact Hr. }
  apply in_map_iff in Hin. destruct Hin as [j [Hj Hjin]].
  apply in_seq in Hjin. rewrite Heq in Hj. unfold receipt_of_day in Hj.
  apply (append_inj_same_length "REC-" "REC-") in Hj; [|reflexivity].
  destruct Hj as [_ Hj].
  apply append_inj_same_length in Hj; [|reflexivity].
  destruct Hj as [_ Hj].
  apply (append_inj_same_length "-" "-") in Hj; [|reflexivity].
  destruct Hj as [_ Hj]. apply sequentialNumber_inj in Hj. lia.
Qed.

Lemma submits_of_a_day_from (D : DateTime)
    (subs : list (Clock * PaymentBody)) (db : DB) (k : nat) :
  payment_status db <> "paused" ->
  map transaction_id (payments db) = map (receipt_of_day D) (seq 0 k) ->
  (forall r, In r (payments db) ->
     exists t, wf_datetime t /\ same_day t D /\
               created_at r = sql_current_timestamp t) ->
  Forall (fun cb => on_day D (fst cb) /\ is_plain (snd cb)) subs ->
  let out := serve db
               (map (fun cb => SubmitManualPayment (fst cb) (snd cb)) subs) in
  Forall (fun x => code (snd x) = 200) (fst out) /\
  map transaction_id (payments (snd out)) =
    map (receipt_of_day D) (seq 0 (k + List.length subs)).
Proof.
  revert db k. induction subs as [|[clk b] subs IH];
    intros db k Hp Htids Hrows Hall; simpl.
  - split; [constructor|]. rewrite Nat.add_0_r. exact Htids.
  - inversion Hall as [|? ? [Hday [n [p [a [q Hb]]]]] Hall']; subst.
    simpl in Hday, Hb. subst b.
    destruct Hday as [Wc [Wi [Sj [Sc Si]]]].
    assert (Hlen : List.length (payments db) = k).
    { rewrite <- (length_map transaction_id), Htids, length_map, length_seq.
      reflexivity. }
    assert (Htid : make_transactionId clk db = receipt_of_day D k).
    { unfold make_transactionId, receipt_of_day.
      rewrite dateStr_yyyymmdd, (yyyymmdd_same_day _ _ Sj).
      rewrite (count_all_of_day D) by assumption.
      rewrite Hlen. reflexivity. }
    assert (Hfresh : has_transaction_id (make_transactionId clk db)
                       (payments db) = false).
    { rewrite Htid. apply receipt_of_day_fresh. exact Htids. }
    rewrite (submit_plain clk db n p a q Hp Hfresh).
    set (row := new_row clk db n p a (Real (Finite q))).
    assert (Htids' : map transaction_id (payments (db_with_row db row)) =
                     map (receipt_of_day D) (seq 0 (S k))).
    { unfold db_with_row. cbn [payments].
      rewrite map_app, Htids, seq_S, map_app. cbn [map Nat.add].
      unfold row. cbn [transaction_id new_row]. rewrite Htid. reflexivity. }
    assert (Hrows' : forall r, In r (payments (db_with_row db row)) ->
              exists t, wf_datetime t /\ same_day t D /\
                        created_at r = sql_current_timestamp t).
    { intros r Hr. unfold db_with_row in Hr. cbn [payments] in Hr.
      apply in_app_iff in Hr. destruct Hr as [Hr|[<-|[]]].
      - apply Hrows. exact Hr.
      - exists (insert_now clk). split; [exact Wi|].
        split; [exact Si | reflexivity]. }
    pose proof (IH (db_with_row db row) (S k) Hp Htids' Hrows' Hall') as IH'.
    cbv zeta in IH'.
    destruct (serve (db_with_row db row) _) as [rs db2].
    destruct IH' as [Hcodes Hfinal].
    cbn [fst snd] in *. split; [constructor; [reflexivity | exact Hcodes]|].
    rewrite Hfinal, Nat.add_succ_r. reflexivity.
Qed.

(** X12.  A day of confirms on an empty table.  Submits of texts and finite
    amounts whose clock reads all fall on one UTC day, served one after the
    other with the gate open, all succeed, and the k-th is stored with
    the sequence k of that day: no receipt id is given twice and no
    submit fails on a duplicate. *)
Theorem submits_of_a_day_all_succeed (D : DateTime)
    (subs : list (Clock * PaymentBody)) (db : DB) :
  payment_status db <> "paused" ->
  payments db = [] ->
  Forall (fun cb => on_day D (fst cb) /\ is_plain (snd cb)) subs ->
  let out := serve db
               (map (fun cb => SubmitManualPayment (fst cb) (snd cb)) subs) in
  Forall (fun x => code (snd x) = 200) (fst out) /\
  map transaction_id (payments (snd out)) =
    map (receipt_of_day D) (seq 0 (List.length subs)).
Proof.
  intros Hp He Hall.
  apply (submits_of_a_day_from D subs db 0 Hp); [| |exact Hall].
  - rewrite He. reflexivity.
  - rewrite He. intros r [].
Qed.

(** X13.  Receipt ids come back after a wipe.  Once every record has been
    moved to the trash and the trash emptied, the table is empty while the
    AUTOINCREMENT counter is kept, and the next submit of texts and a
    finite amount succeeds with the sequence 0001 of its day, whether or
    not 0001 had been issued that day before. *)
Theorem wipe_restarts_the_sequence (clk : Clock) (db : DB)
    (n p a : string) (q : Q) :
  payment_status db <> "paused" ->
  let wiped := snd (empty_trash (snd (clear_payments db))) in
  let row := new_row clk wiped n p a (Real (Finite q)) in
  payments wiped = [] /\
  sqlite_sequence wiped = sqlite_sequence db /\
  submit_manual_payment clk wiped (plain_body n p a q) =
    (json (SavedBody ("REC-" ++ yyyymmdd (js_now clk) ++ "-0001") (Some row)),
     db_with_row wiped row) /\
  id row = (Z.max 0 (sqlite_sequence db) + 1)%Z.
Proof.
  intros Hp. cbv zeta.
  assert (He : payments (snd (empty_trash (snd (clear_payments db)))) = []).
  { simpl. induction (payments db) as [|x l IH]; simpl; [reflexivity|].
    destruct (is_trashed x) eqn:E; simpl; [rewrite E|]; simpl; exact IH. }
  split; [exact He|]. split; [reflexivity|].
  assert (Htid : make_transactionId clk
                   (snd (empty_trash (snd (clear_payments db)))) =
                 "REC-" ++ yyyymmdd (js_now clk) ++ "-0001").
  { unfold make_transactionId, count_since.
    rewrite dateStr_yyyymmdd, He. reflexivity. }
  split.
  - rewrite <- Htid. apply submit_plain; [exact Hp|].
    rewrite He. reflexivity.
  - unfold new_row. cbn [id]. unfold next_rowid. rewrite He. reflexivity.
Qed.

(** X14.  The receipt id is a key.  In every state the server reaches from
    one that satisfies the constraints of the schema, ids and receipt ids
    are without repetition, and looking a stored row up by its receipt id
    finds that row. *)
Theorem transaction_ids_identify_rows (db : DB) (rqs : list Request) :
  db_ok db ->
  let db' := snd (serve db rqs) in
  db_ok db' /\
  (forall r, In r (payments db') ->
     select_by_transaction_id (transaction_id r) db' = Some r).
Proof.
  intros Hok. cbv zeta. pose proof (serve_db_ok rqs db Hok) as Hok'.
  split; [exact Hok'|]. destruct Hok' as [_ Hnd].
  unfold select_by_transaction_id.
  induction (payments (snd (serve db rqs))) as [|x l IH]; intros r Hin;
    [destruct Hin|].
  simpl in Hnd. apply NoDup_cons_iff in Hnd. destruct Hnd as [Hx Hl].
  simpl. destruct Hin as [->|Hin].
  - rewrite String.eqb_refl. reflexivity.
  - destruct (String.eqb_spec (transaction_id x) (transaction_id r)) as [E|E].
    + exfalso. apply Hx. rewrite E. apply in_map. exact Hin.
    + apply IH; assumption.
Qed.

End SubmitMore.

(** * Properties of the client *)

(** ** The search box *)

Lemma prefix_app (t b : string) : String.prefix t (t ++ b) = true.
Proof.
  induction t as [|c t IH]; simpl; [destruct b; reflexivity|].
  destruct (ascii_dec c c) as [_|Hne]; [exact IH | congruence].
Qed.

Lemma includes_empty (s : string) : includes s "" = true.
Proof. destruct s; reflexivity. Qed.

Lemma includes_prefix (s t : string) :
  String.prefix t s = true -> includes s t = true.
Proof. intros H. destruct s; cbn [includes]; rewrite H; reflexivity. Qed.

Lemma includes_middle (a t b : string) : includes (a ++ t ++ b) t = true.
Proof.
  induction a as [|c a IH].
  - change ("" ++ t ++ b) with (t ++ b).
    apply includes_prefix. apply prefix_app.
  - cbn [append includes]. rewrite IH. apply orb_true_r.
Qed.

(** X15.  The search box of the dashboard.  With the box empty every
    listed payment is shown; a payment is shown whenever the term occurs in
    its phone, or occurs in its name when letter case is set aside; only
    listed payments are shown, in their order; and filtering the rows a
    second time, as the table does, removes nothing. *)
Theorem search_shows_matching_payments (toLowerCase : string -> string)
    (term : string) (rows : list Payment) :
  filteredPayments toLowerCase "" rows = rows /\
  (forall p a b, In p rows -> phone p = a ++ term ++ b ->
     In p (filteredPayments toLowerCase term rows)) /\
  (forall p a b, In p rows ->
     toLowerCase (name p) = a ++ toLowerCase term ++ b ->
     In p (filteredPayments toLowerCase term rows)) /\
  (forall p, In p (filteredPayments toLowerCase term rows) -> In p rows) /\
  filteredPayments toLowerCase term
    (filteredPayments toLowerCase term rows) =
  filteredPayments toLowerCase term rows.
Proof.
  unfold filteredPayments. split; [|split; [|split; [|split]]].
  - apply filter_unchanged. intros p _. unfold matches_search.
    rewrite (includes_empty (phone p)). apply orb_true_iff. left.
    apply orb_true_r.
  - intros p a b Hin Hp. apply filter_In. split; [exact Hin|].
    unfold matches_search. rewrite Hp, includes_middle.
    rewrite orb_true_r. reflexivity.
  - intros p a b Hin Hp. apply filter_In. split; [exact Hin|].
    unfold matches_search. rewrite Hp, includes_middle. reflexivity.
  - intros p Hp. apply filter_In in Hp. tauto.
  - apply filter_twice.
Qed.

(** ** The payment form and the confirmation *)

Section PaymentFlow.

Context `{RT : Runtime}.

Lemma handlePayment_reads_only (st : AppState) (db : DB) :
  snd (handlePayment st db) = db /\
  formData (fst (fst (handlePayment st db))) = formData st.
Proof.
  unfold handlePayment. destruct (validate (formData st)); [split; reflexivity|].
  assert (Hdb : snd (initiate_manual_payment db (request_body (formData st)))
                = db).
  { unfold initiate_manual_payment. destruct (String.eqb _ _); [reflexivity|].
    destruct (encodeURIComponent _); [|reflexivity].
    destruct (encodeURIComponent _); reflexivity. }
  destruct (initiate_manual_payment db _) as [res db']. simpl in Hdb.
  subst db'. destruct (body res); try (split; reflexivity).
  destruct (String.eqb error ""); split; reflexivity.
Qed.



Lemma submit_null_amount (clk : Clock) (db : DB) (vn vp va : jsval) :
  code (fst (submit_manual_payment clk db
               (mkPaymentBody vn vp va JNull))) <> 200 /\
  snd (submit_manual_payment clk db (mkPaymentBody vn vp va JNull)) = db /\
  (forall t p,
     body (fst (submit_manual_payment clk db
                  (mkPaymentBody vn vp va JNull))) <> SavedBody t p).
Proof.
  unfold submit_manual_payment.
  destruct (String.eqb _ _); simpl;
    [split; [discriminate | split; [reflexivity | discriminate]]|].
  assert (H : insert_payment (insert_now clk) db (make_transactionId clk db)
                vn vp va JNull "success" = None).
  { rewrite insert_payment_fields.
    change [vn; vp; va; JNull] with ([vn; vp; va] ++ [JNull])%list.
    rewrite (bind_arguments_last _ _ JNull SqlNull eq_refl).
    destruct (bind_arguments false [vn; vp; va])
      as [[|bn [|bp [|ba [|x l]]]]|]; cbn [List.app]; try reflexivity.
    - unfold insert_row.
      destruct (text_not_null bn); [|reflexivity].
      destruct (text_not_null bp); [|reflexivity].
      destruct (text_not_null ba); reflexivity.
    - destruct l; reflexivity. }
  rewrite H. simpl. split; [discriminate | split; [reflexivity | discriminate]].
Qed.


End PaymentFlow.

Section PausedAndUnparsed.

Context `{RT : Runtime}.

(** X17.  What the user is told while the gate is paused.  With a form that
    passes the checks, the form handler shows the server's own message
    that payments are paused, and the confirmation shows only that the
    payment could not be saved; neither moves to another view nor writes
    to the database. *)
Theorem paused_gate_messages (clk : Clock) (u : Ui) (db : DB) :
  payment_status db = "paused" ->
  validate (formData (app u)) = None ->
  submitPaymentForm (u, db) =
    (set_app (mkAppState (view (app u)) false (Some paused_message)
                (upiUrl (app u)) (formData (app u))) u, db) /\
  confirmPayment clk (u, db) =
    (set_app (mkAppState (view (app u)) false
                (Some "Failed to save payment") (upiUrl (app u))
                (formData (app u))) u, db).
Proof.
  intros Hp Hv. split.
  - unfold submitPaymentForm, handlePayment, initiate_manual_payment.
    rewrite Hv, Hp. reflexivity.
  - unfold confirmPayment, submit_manual_payment. rewrite Hp. reflexivity.
Qed.

(** X18.  An amount that does not parse to a finite number is never
    stored: the confirmation sends null for it, the insertion fails, and
    the page shows that the payment could not be saved, with the database
    as it was.  The checks of the form do not catch it: when the parse
    gives NaN or plus infinity and the other checks pass, the form is
    accepted. *)
Theorem unparsed_amount_is_never_stored (clk : Clock) (u : Ui) (db : DB) :
  (forall q, parseFloat (form_amount (formData (app u))) <> Finite q) ->
  let f := formData (app u) in
  confirmPayment clk (u, db) =
    (set_app (mkAppState (view (app u)) false
                (Some "Failed to save payment") (upiUrl (app u)) f) u, db) /\
  (form_name f <> "" -> form_phone f <> "" -> form_address f <> "" ->
   form_amount f <> "" -> ten_digits (form_phone f) = true ->
   parseFloat (form_amount f) <> Infinity true ->
   validate f = None).
Proof.
  intros Hnf. cbv zeta. split.
  - unfold confirmPayment, request_body.
    assert (Hj : json_number (parseFloat (form_amount (formData (app u)))) =
                 JNull).
    { destruct (parseFloat _) as [| |q] eqn:E; try reflexivity.
      exfalso. apply (Hnf q). reflexivity. }
    rewrite Hj.
    pose proof (submit_null_amount clk db
                  (JStr (form_name (formData (app u))))
                  (JStr (form_phone (formData (app u))))
                  (JStr (form_address (formData (app u))))) as [_ [Hs Hb]].
    destruct (submit_manual_payment clk db _) as [res db2]. simpl in *.
    subst db2. destruct (body res) eqn:Eb; try reflexivity.
    exfalso. exact (Hb _ _ eq_refl).
  - intros H1 H2 H3 H4 H5 H6. unfold validate.
    destruct (String.eqb_spec (form_name (formData (app u))) "");
      [contradiction|].
    destruct (String.eqb_spec (form_phone (formData (app u))) "");
      [contradiction|].
    destruct (String.eqb_spec (form_address (formData (app u))) "");
      [contradiction|].
    destruct (String.eqb_spec (form_amount (formData (app u))) "");
      [contradiction|].
    simpl. rewrite H5. simpl.
    destruct (parseFloat (form_amount (formData (app u)))) as [|[|]|q] eqn:E;
      simpl; try reflexivity.
    + congruence.
    + exfalso. apply (Hnf q). reflexivity.
Qed.

End PausedAndUnparsed.

(** ** The page over sequences of events *)

Section Page.

Context `{RT : Runtime}.

Lemma ui_run_invariant (P : World -> Prop) (db : DB) :
  P (mount (initial_ui, db)) ->
  (forall w e, P w -> P (ui_step w e)) ->
  forall es, P (ui_run db es).
Proof.
  intros H0 Hstep es. unfold ui_run.
  generalize dependent (mount (initial_ui, db)).
  induction es as [|e es IH]; intros w Hw; simpl; [exact Hw|].
  apply IH. apply Hstep. exact Hw.
Qed.

Lemma ui_run_snoc (db : DB) (es : list UiEvent) (e : UiEvent) :
  ui_run db (es ++ [e]) = ui_step (ui_run db es) e.
Proof. unfold ui_run. rewrite fold_left_app. reflexivity. Qed.

Lemma mount_effect (u : Ui) (db : DB) :
  mount (u, db) =
    (blockReceipts
       (setTrashPayments (select_trashed db)
          (if String.eqb (payment_status db) "" then u
           else setPaymentStatus (payment_status db) u)), db).
Proof.
  unfold mount, fetchPaymentStatus. simpl.
  destruct (String.eqb (payment_status db) ""); reflexivity.
Qed.

Lemma submitPaymentForm_effect (u : Ui) (db : DB) :
  exists a,
    submitPaymentForm (u, db) = (set_app a u, db) /\
    formData a = formData (app u) /\
    (view a = view (app u) \/ view a = ViewQr).
Proof.
  pose proof (handlePayment_reads_only (app u) db) as [Hdb Hf].
  assert (Hv : view (fst (fst (handlePayment (app u) db))) = view (app u) \/
               view (fst (fst (handlePayment (app u) db))) = ViewQr).
  { unfold handlePayment. destruct (validate _); [left; reflexivity|].
    destruct (initiate_manual_payment db _) as [res db'].
    destruct (body res); simpl; try (right; reflexivity).
    destruct (String.eqb error ""); simpl; [right | left]; reflexivity. }
  unfold submitPaymentForm.
  destruct (handlePayment (app u) db) as [[a s] db']. simpl in *.
  subst db'. exists a. split; [reflexivity|]. split; assumption.
Qed.

Lemma confirmPayment_effect (clk : Clock) (u : Ui) (db : DB) :
  confirmPayment clk (u, db) =
    (set_app (mkAppState (view (app u)) false
                (Some "Failed to save payment") (upiUrl (app u))
                (formData (app u))) u, db) \/
  exists row,
    is_trashed row = false /\
    confirmPayment clk (u, db) =
      (if receipts_blocked u then
         alert "Payment submitted successfully"
           (set_app (mkAppState ViewForm false None (upiUrl (app u))
                       (mkFormData "" "" "" ""))
              (setLastPayment (Some row) u))
       else
         set_app (mkAppState ViewSuccess false None (upiUrl (app u))
                    (formData (app u)))
           (setLastPayment (Some row) u),
       db_with_row db row).
Proof.
  unfold confirmPayment.
  destruct (submit_outcomes clk db (request_body (formData (app u))))
    as [[_ H]|[[_ H]|[_ [_ [cn [cp [ca [cm H]]]]]]]]; rewrite H.
  - left. reflexivity.
  - left. reflexivity.
  - right. exists (new_row clk db cn cp ca cm). split; [reflexivity|].
    simpl. destruct (receipts_blocked u); reflexivity.
Qed.

Lemma handleAdminLogin_effect (username password : string) (u : Ui)
    (db : DB) :
  (username = env_or ADMIN_USERNAME "Abhay" /\
   password = env_or ADMIN_PASSWORD "Abhay123" /\
   handleAdminLogin username password (u, db) =
     (setView ViewAdminDashboard
        (setPayments (select_active db) (setAdminAuth true u)), db)) \/
  ((username <> env_or ADMIN_USERNAME "Abhay" \/
    password <> env_or ADMIN_PASSWORD "Abhay123") /\
   handleAdminLogin username password (u, db) =
     (setError (Some "Invalid credentials") u, db)).
Proof.
  unfold handleAdminLogin, admin_login. simpl.
  destruct (String.eqb_spec username (env_or ADMIN_USERNAME "Abhay"))
    as [Hu|Hu]; simpl.
  - destruct (String.eqb_spec password (env_or ADMIN_PASSWORD "Abhay123"))
      as [Hp|Hp]; simpl.
    + left. split; [exact Hu|]. split; [exact Hp | reflexivity].
    + right. split; [right; exact Hp | reflexivity].
  - right. split; [left; exact Hu | reflexivity].
Qed.

Lemma togglePaymentStatus_effect (pause : bool) (u : Ui) (db : DB) :
  let v := if pause then "paused" else "active" in
  togglePaymentStatus v (u, db) =
    (setPaymentStatus v u, update_payment_status v db).
Proof. destruct pause; reflexivity. Qed.

(** X19.  The phone field of the form never holds anything but decimal
    digits, whatever is typed or pasted into it and whatever else happens
    on the page; so the phone check of the form fails only on a length
    other than ten. *)
Theorem phone_field_holds_digits_only (db : DB) (es : list UiEvent) :
  let f := formData (app (fst (ui_run db es))) in
  all_digits (form_phone f) = true /\
  ten_digits (form_phone f) = Nat.eqb (String.length (form_phone f)) 10.
Proof.
  cbv zeta.
  assert (H : all_digits
                (form_phone (formData (app (fst (ui_run db es))))) = true).
  { apply (ui_run_invariant
             (fun w => all_digits (form_phone (formData (app (fst w)))) =
                       true)).
    - rewrite mount_effect.
      destruct (String.eqb (payment_status db) ""); reflexivity.
    - intros [u d] e Hw. simpl in Hw.
      destruct e; cbn [ui_step]; try (simpl; exact Hw).
      + simpl. induction v as [|c v IH]; simpl; [reflexivity|].
        destruct (is_digit c) eqn:E; simpl; [rewrite E|]; exact IH.
      + destruct (submitPaymentForm_effect u d) as [a [-> [Hf _]]].
        simpl. rewrite Hf. exact Hw.
      + destruct (confirmPayment_effect clk u d) as [->|[row [_ ->]]];
          simpl; [exact Hw|].
        destruct (receipts_blocked u); simpl; [reflexivity | exact Hw].
      + destruct (handleAdminLogin_effect username password u d)
          as [[_ [_ ->]]|[_ ->]]; simpl; exact Hw.
      + unfold toggleTrash. destruct (negb (showTrash u)); simpl; exact Hw.
      + destruct confirmed; simpl; exact Hw.
      + destruct confirmed; simpl; exact Hw.
      + destruct confirmed; simpl; exact Hw. }
  split; [exact H|]. unfold ten_digits. rewrite H. apply andb_true_r.
Qed.

Lemma adminAuth_step (w : World) (e : UiEvent) :
  adminAuth (fst (ui_step w e)) = true ->
  adminAuth (fst w) = true \/
  e = SubmitLoginForm (env_or ADMIN_USERNAME "Abhay")
        (env_or ADMIN_PASSWORD "Abhay123").
Proof.
  destruct w as [u d]. destruct e; cbn [ui_step];
    try (simpl; intros H; left; exact H).
  - simpl. discriminate.
  - destruct (submitPaymentForm_effect u d) as [a [-> _]]. simpl. tauto.
  - destruct (confirmPayment_effect clk u d) as [->|[row [_ ->]]]; simpl;
      [tauto|]. destruct (receipts_blocked u); simpl; tauto.
  - destruct (handleAdminLogin_effect username password u d)
      as [[-> [-> _]]|[_ ->]]; simpl; [right; reflexivity | tauto].
  - unfold toggleTrash. destruct (negb (showTrash u)); simpl; tauto.
  - destruct confirmed; simpl; tauto.
  - destruct confirmed; simpl; tauto.
  - destruct confirmed; simpl; tauto.
Qed.

(** X20.  The dashboard is shown only to a logged-in admin.  Whatever
    happens on the page, the view is the admin dashboard only while
    [adminAuth] is set, [adminAuth] is set only if the login form was
    submitted with the configured user name and password, and the
    success view is never shown, the receipts being blocked from the first
    render on. *)
Theorem dashboard_only_after_login (db : DB) (es : list UiEvent) :
  let u := fst (ui_run db es) in
  (view (app u) = ViewAdminDashboard -> adminAuth u = true) /\
  (adminAuth u = true ->
   In (SubmitLoginForm (env_or ADMIN_USERNAME "Abhay")
         (env_or ADMIN_PASSWORD "Abhay123")) es) /\
  view (app u) <> ViewSuccess.
Proof.
  cbv zeta. split; [|split].
  - apply (ui_run_invariant
             (fun w => view (app (fst w)) = ViewAdminDashboard ->
                       adminAuth (fst w) = true)).
    + rewrite mount_effect.
      destruct (String.eqb (payment_status db) ""); discriminate.
    + intros [u d] e Hw. simpl in Hw.
      destruct e; cbn [ui_step];
        try (simpl; exact Hw); try (simpl; discriminate).
      * destruct (submitPaymentForm_effect u d) as [a [-> [_ [Hv|Hv]]]];
          simpl; rewrite Hv; [exact Hw | discriminate].
      * destruct (confirmPayment_effect clk u d) as [->|[row [_ ->]]];
          simpl; [exact Hw|].
        destruct (receipts_blocked u); simpl; discriminate.
      * destruct (handleAdminLogin_effect username password u d)
          as [[_ [_ ->]]|[_ ->]]; simpl; [reflexivity | exact Hw].
      * unfold toggleTrash. destruct (negb (showTrash u)); simpl; exact Hw.
      * destruct confirmed; simpl; exact Hw.
      * destruct confirmed; simpl; exact Hw.
      * destruct confirmed; simpl; exact Hw.
  - induction es as [|e es IH] using rev_ind.
    + unfold ui_run. simpl fold_left. rewrite mount_effect.
      destruct (String.eqb (payment_status db) ""); discriminate.
    + rewrite ui_run_snoc. intros H. apply in_app_iff.
      destruct (adminAuth_step _ _ H) as [Hold| ->].
      * left. apply IH. exact Hold.
      * right. left. reflexivity.
  - assert (H : view (app (fst (ui_run db es))) <> ViewSuccess /\
                receipts_blocked (fst (ui_run db es)) = true).
    { apply (ui_run_invariant
               (fun w => view (app (fst w)) <> ViewSuccess /\
                         receipts_blocked (fst w) = true)).
      - rewrite mount_effect.
        destruct (String.eqb (payment_status db) "");
          (split; [discriminate | reflexivity]).
      - intros [u d] e [Hv Hb]. simpl in Hv, Hb.
        destruct e; cbn [ui_step];
          try (simpl; split; [exact Hv || discriminate | exact Hb]).
        + destruct (submitPaymentForm_effect u d) as [a [-> [_ [Ha|Ha]]]];
            simpl; rewrite Ha; split;
            [exact Hv | exact Hb | discriminate | exact Hb].
        + destruct (confirmPayment_effect clk u d) as [->|[row [_ ->]]];
            simpl; [split; [exact Hv | exact Hb]|].
          rewrite Hb. simpl. split; [discriminate | exact Hb].
        + destruct (handleAdminLogin_effect username password u d)
            as [[_ [_ ->]]|[_ ->]]; simpl;
            (split; [exact Hv || discriminate | exact Hb]).
        + unfold toggleTrash. destruct (negb (showTrash u)); simpl;
            (split; [exact Hv | exact Hb]).
        + destruct confirmed; simpl; (split; [exact Hv | exact Hb]).
        + destruct confirmed; simpl; (split; [exact Hv | exact Hb]).
        + destruct confirmed; simpl; (split; [exact Hv | exact Hb]). }
    exact (proj1 H).
Qed.

End Page.

(** ** The lists of the dashboard and the table of the server *)

Section InSync.

Context `{RT : Runtime}.

Lemma select_trashed_new_row (db : DB) (row : Payment) :
  is_trashed row = false ->
  select_trashed (db_with_row db row) = select_trashed db.
Proof.
  intros Hr. unfold select_trashed, db_with_row. cbn [payments].
  rewrite filter_app. simpl. rewrite Hr, app_nil_r. reflexivity.
Qed.

Lemma filter_after_filter {A : Type} (f g : A -> bool) (l : list A) :
  (forall x, f x = true -> g x = true) ->
  filter f (filter g l) = filter f l.
Proof.
  intros Hfg. induction l as [|x l IH]; simpl; [reflexivity|].
  destruct (g x) eqn:Eg; simpl.
  - rewrite IH. reflexivity.
  - destruct (f x) eqn:Ef; [|exact IH].
    rewrite (Hfg x Ef) in Eg. discriminate.
Qed.

Lemma select_active_permanent_delete (param : string) (db : DB) :
  select_active (delete_trashed_by_id param db) = select_active db.
Proof.
  unfold select_active, delete_trashed_by_id. cbn [payments with_payments].
  rewrite filter_after_filter; [reflexivity|].
  intros x Hx. apply negb_true_iff in Hx. rewrite Hx, andb_false_r.
  reflexivity.
Qed.

Lemma select_active_empty_trash (db : DB) :
  select_active (delete_all_trashed db) = select_active db /\
  select_trashed (delete_all_trashed db) = [].
Proof.
  unfold select_active, select_trashed, delete_all_trashed.
  cbn [payments with_payments]. split.
  - rewrite filter_twice. reflexivity.
  - replace (filter is_trashed
               (filter (fun r => negb (is_trashed r)) (payments db)))
      with (@nil Payment); [reflexivity|].
    induction (payments db) as [|x l IH]; simpl; [reflexivity|].
    destruct (is_trashed x) eqn:E; simpl; [|rewrite E]; exact IH.
Qed.

Lemma select_active_trash_all (db : DB) : select_active (trash_all db) = [].
Proof.
  unfold select_active, trash_all. cbn [payments with_payments].
  replace (filter (fun r => negb (is_trashed r))
             (map (fun r => if negb (is_trashed r)
                            then set_is_trashed true r else r) (payments db)))
    with (@nil Payment); [reflexivity|].
  induction (payments db) as [|x l IH]; simpl; [reflexivity|].
  destruct (is_trashed x) eqn:E; simpl; [rewrite E|]; exact IH.
Qed.

(** The lists of the page agree with the server. *)
Definition in_sync (w : World) : Prop :=
  trashPayments (fst w) = select_trashed (snd w) /\
  (view (app (fst w)) = ViewAdminDashboard ->
   listedPayments (fst w) = select_active (snd w)) /\
  paymentStatus (fst w) = payment_status (snd w) /\
  valid_status (payment_status (snd w)).

Lemma in_sync_step (w : World) (e : UiEvent) :
  in_sync w -> in_sync (ui_step w e).
Proof.
  destruct w as [u d]. unfold in_sync. cbn [fst snd].
  intros [Ht [Hl [Hs Hv]]].
  destruct e; cbn [ui_step];
    try (simpl; repeat split; solve [assumption | discriminate]).
  - destruct (submitPaymentForm_effect u d) as [a [-> [_ [Ha|Ha]]]];
      cbn [fst snd]; simpl; rewrite Ha;
      repeat split; solve [assumption | discriminate].
  - destruct (confirmPayment_effect clk u d) as [->|[row [Hrow ->]]];
      cbn [fst snd].
    + simpl. repeat split; assumption.
    + rewrite (select_trashed_new_row d row Hrow).
      destruct (receipts_blocked u); simpl;
        repeat split; solve [assumption | discriminate].
  - destruct (handleAdminLogin_effect username password u d)
      as [[_ [_ ->]]|[_ ->]]; simpl;
      repeat split; solve [assumption | reflexivity].
  - rewrite (togglePaymentStatus_effect false). simpl.
    repeat split; try assumption. left. reflexivity.
  - rewrite (togglePaymentStatus_effect true). simpl.
    repeat split; try assumption. right. reflexivity.
  - unfold toggleTrash. destruct (negb (showTrash u)); simpl;
      repeat split; solve [assumption | reflexivity].
  - destruct confirmed; simpl; [|repeat split; assumption].
    destruct (select_active_empty_trash d) as [Ha He].
    unfold select_active, select_trashed in *. simpl in *.
    rewrite Ha, He. repeat split; assumption.
  - destruct confirmed; simpl; repeat split;
      solve [assumption | reflexivity].
  - destruct confirmed; simpl; [|repeat split; assumption].
    pose proof (select_active_permanent_delete (id_text i) d) as Ha.
    unfold select_active in *. simpl in *. rewrite Ha.
    repeat split; solve [assumption | reflexivity].
Qed.

Lemma in_sync_clearPayments (confirmed : bool) (w : World) :
  in_sync w -> in_sync (clearPayments confirmed w).
Proof.
  destruct w as [u d]. unfold in_sync. cbn [fst snd].
  intros [Ht [Hl [Hs Hv']]].
  destruct confirmed; simpl; [|repeat split; assumption].
  pose proof (select_active_trash_all d) as Ha.
  unfold select_active in Ha. simpl in Ha.
  repeat split; try assumption; try reflexivity.
  intros _. symmetry. exact Ha.
Qed.

(** X21.  The dashboard shows what the server holds, on a settled page.
    The page does not wait for the lists it fetches after a login, a
    delete or a restore, so an answer can arrive after a later event; the
    statement is about a page on which that does not happen.  Assume that
    this browser is the only client and that every request a handler
    sends, the fetches it does not wait for included, is answered, in the
    order sent, before the next event.  Then the agreement of the page with
    the server (the trash list is the trash listing of the server, the gate
    switch shows the gate setting and, while the dashboard is shown, the
    payments list is the active listing) holds after the first render, is
    kept by every handler, the unused [clearPayments] included, and so
    holds after any sequence of such events: the lists that the handlers
    set without asking the server again (empty after emptying the trash,
    untouched after a permanent delete) are the lists the server would
    send. *)
Theorem dashboard_shows_the_server_state (db : DB) (es : list UiEvent)
    (confirmed : bool) :
  valid_status (payment_status db) ->
  in_sync (mount (initial_ui, db)) /\
  (forall w e, in_sync w -> in_sync (ui_step w e)) /\
  (forall w, in_sync w -> in_sync (clearPayments confirmed w)) /\
  in_sync (ui_run db es).
Proof.
  intros Hv.
  assert (H0 : in_sync (mount (initial_ui, db))).
  { rewrite mount_effect. unfold in_sync.
    destruct (String.eqb_spec (payment_status db) "") as [E|E]; simpl.
    - destruct Hv as [Hv|Hv]; rewrite Hv in E; discriminate.
    - repeat split; solve [assumption | discriminate | reflexivity]. }
  split; [exact H0|]. split; [exact in_sync_step|].
  split; [apply in_sync_clearPayments|].
  apply (ui_run_invariant in_sync); [exact H0 | exact in_sync_step].
Qed.

End InSync.

(** ** Examples for the further properties *)

Lemma counter_ok_two_payments : counter_ok two_payments.
Proof.
  intros r Hr. vm_compute in Hr.
  destruct Hr as [<-|[<-|[]]]; vm_compute; discriminate.
Defined.

Lemma gate_setting_stays_valid_witness :
  valid_status
    (payment_status
       (snd (serve_sample initial_db
               [UpdateStatus (JStr "paused"); UpdateStatus (JStr "closed");
                UpdateStatus JNull]))).
Proof.
  exact (proj1 (@gate_setting_stays_valid sample_runtime initial_db
                  [UpdateStatus (JStr "paused"); UpdateStatus (JStr "closed");
                   UpdateStatus JNull] (or_introl eq_refl))).
Defined.

Lemma paused_until_update_status_witness :
  payment_status
    (snd (serve_sample paused_db
            [SubmitManualPayment (at_instant noon) alice;
             InitiateManualPayment bob; ClearPayments])) = "paused".
Proof.
  exact (proj1 (proj2
    (@paused_until_update_status sample_runtime paused_db
       [SubmitManualPayment (at_instant noon) alice;
        InitiateManualPayment bob; ClearPayments] eq_refl eq_refl))).
Defined.

Lemma rowids_never_reused_witness :
  counter_ok
    (snd (serve_sample two_payments
            [DeletePayment "1"; PermanentDelete "1";
             SubmitManualPayment (at_instant noon) alice])).
Proof.
  exact (proj1
    (@rowids_never_reused sample_runtime two_payments
       [DeletePayment "1"; PermanentDelete "1";
        SubmitManualPayment (at_instant noon) alice]
       counter_ok_two_payments)).
Defined.

Lemma stored_fields_never_change_witness :
  exists r,
    In r (payments two_payments) /\
    alice_row true = set_is_trashed (is_trashed (alice_row true)) r.
Proof.
  apply (@stored_fields_never_change sample_runtime two_payments
           [DeletePayment "1"; UpdateStatus (JStr "paused")]
           (alice_row true) counter_ok_two_payments).
  - vm_compute. left. reflexivity.
  - vm_compute. discriminate.
Defined.

Lemma untrashed_records_survive_witness :
  In (bob_row false)
    (select_active
       (snd (serve_sample first_in_trash
               [PermanentDelete "2"; EmptyTrash; RestorePayments]))).
Proof.
  refine (proj2
    (@untrashed_records_survive sample_runtime first_in_trash
       [PermanentDelete "2"; EmptyTrash; RestorePayments]
       (bob_row false) eq_refl _ eq_refl)).
  vm_compute. right. left. reflexivity.
Defined.

Lemma admin_writes_are_idempotent_witness :
  @handle sample_runtime
    (snd (@handle sample_runtime two_payments (DeletePayment "1")))
    (DeletePayment "1") =
  @handle sample_runtime two_payments (DeletePayment "1").
Proof.
  exact (@admin_writes_are_idempotent sample_runtime two_payments
           (DeletePayment "1") eq_refl).
Defined.

Lemma delete_payment_moves_to_trash_witness :
  In (alice_row true)
    (select_trashed (snd (@delete_payment sample_runtime two_payments "1"))).
Proof.
  refine (proj1 (proj2
    (@delete_payment_moves_to_trash sample_runtime two_payments "1"
       (alice_row false) _ eq_refl eq_refl))).
  vm_compute. left. reflexivity.
Defined.

Lemma transaction_id_shape_witness :
  exists d s,
    make_transactionId (at_instant noon) two_payments =
      "REC-" ++ d ++ "-" ++ s /\
    String.length d = 8%nat /\ all_digits d = true /\
    (4 <= String.length s)%nat /\ all_digits s = true.
Proof.
  apply (transaction_id_shape (at_instant noon) two_payments). exact wf_noon.
Defined.

(** The fields of [spread_body] hold no plain object, and their values are
    four texts and numbers: the submit goes through. *)
Lemma submit_succeeds_exactly_when_witness :
  no_plain_object spread_body /\
  code (fst (submit_sample (at_instant noon) initial_db spread_body)) = 200.
Proof.
  assert (H : no_plain_object spread_body).
  { unfold no_plain_object. simpl. tauto. }
  split; [exact H|].
  apply (proj1 (@submit_succeeds_exactly_when sample_runtime
                  (at_instant noon) initial_db spread_body H)).
  split; [discriminate|]. split; [|reflexivity].
  exists (JStr "Dev"), (JStr "9000000001"), (JStr "3 Park Row"),
         (JNum (N_number 250)).
  split; [reflexivity|]. simpl. tauto.
Defined.

(** What it stores: the two elements of the array sent as the name become
    the name and the phone. *)
Lemma array_fields_are_spread :
  submit_sample (at_instant noon) initial_db spread_body =
    (json (SavedBody "REC-20261103-0001" (Some dev_row)),
     mkDB [dev_row] 1 "active").
Proof. vm_compute. reflexivity. Qed.

Lemma on_day_noon_later : on_day noon (at_instant later).
Proof.
  split; [exact wf_later | split; [exact wf_later|]].
  unfold same_day. simpl. repeat split.
Defined.

Lemma on_day_noon_noon : on_day noon (at_instant noon).
Proof.
  split; [exact wf_noon | split; [exact wf_noon|]].
  unfold same_day. simpl. repeat split.
Defined.

Lemma submits_of_a_day_all_succeed_witness :
  map transaction_id
    (payments
       (snd (serve_sample initial_db
               [SubmitManualPayment (at_instant noon) alice;
                SubmitManualPayment (at_instant later) bob]))) =
  [receipt_of_day noon 0; receipt_of_day noon 1].
Proof.
  refine (proj2
    (@submits_of_a_day_all_succeed sample_runtime noon
       [(at_instant noon, alice); (at_instant later, bob)] initial_db
       _ eq_refl _)).
  - discriminate.
  - constructor; [|constructor; [|constructor]].
    + split; [exact on_day_noon_noon|].
      exists "Alice", "9876543210", "12 Hill Road", (inject_Z 500).
      reflexivity.
    + split; [exact on_day_noon_later|].
      exists "Bob", "9123456780", "4 Lake View", (inject_Z 250).
      reflexivity.
Defined.

Lemma wipe_restarts_the_sequence_witness :
  payments (snd (empty_trash (snd (clear_payments two_payments)))) = [] /\
  fst (submit_sample (at_instant later)
         (snd (empty_trash (snd (clear_payments two_payments))))
         (plain_body "Bob" "9123456780" "4 Lake View" 250%Q)) =
    json (SavedBody "REC-20261103-0001"
            (Some (mkPayment 3 "REC-20261103-0001" "Bob" "9123456780"
                     "4 Lake View" (Real (Finite 250%Q)) "success" false
                     "2026-11-03 12:30:15"))).
Proof.
  destruct (@wipe_restarts_the_sequence sample_runtime (at_instant later)
              two_payments "Bob" "9123456780" "4 Lake View" 250%Q)
    as [He [_ [Hs _]]].
  - discriminate.
  - split; [exact He|]. unfold submit_sample. rewrite Hs. reflexivity.
Defined.

Lemma transaction_ids_identify_rows_witness :
  select_by_transaction_id "REC-20261103-0002"
    (snd (serve_sample two_payments [DeletePayment "2"])) =
  Some (bob_row true).
Proof.
  refine (proj2
    (@transaction_ids_identify_rows sample_runtime two_payments
       [DeletePayment "2"] two_payments_ok) (bob_row true) _).
  vm_compute. right. left. reflexivity.
Defined.


Lemma paused_gate_messages_witness :
  app_error
    (app (fst (@submitPaymentForm sample_runtime
                 (page_with alice_form, paused_db)))) =
    Some paused_message /\
  app_error
    (app (fst (@confirmPayment sample_runtime (at_instant noon)
                 (page_with alice_form, paused_db)))) =
    Some "Failed to save payment".
Proof.
  destruct (@paused_gate_messages sample_runtime (at_instant noon)
              (page_with alice_form) paused_db eq_refl eq_refl)
    as [H1 H2].
  rewrite H1, H2. split; reflexivity.
Defined.

Lemma unparsed_amount_is_never_stored_witness :
  @validate sample_runtime worded_amount = None /\
  snd (@confirmPayment sample_runtime (at_instant noon)
         (page_with worded_amount, initial_db)) = initial_db.
Proof.
  destruct (@unparsed_amount_is_never_stored sample_runtime
              (at_instant noon) (page_with worded_amount) initial_db)
    as [H1 H2].
  - intros q H. vm_compute in H. discriminate H.
  - split.
    + apply H2; try discriminate; reflexivity.
    + rewrite H1. reflexivity.
Defined.

Lemma dashboard_shows_the_server_state_witness :
  in_sync
    (@ui_run sample_runtime two_payments
       [ClickAdminLogin; SubmitLoginForm "Abhay" "Abhay123";
        ClickTrashRow 1 true; ClickTrashBin; ClickEmptyTrash true]).
Proof.
  exact (proj2 (proj2 (proj2
    (@dashboard_shows_the_server_state sample_runtime two_payments
       [ClickAdminLogin; SubmitLoginForm "Abhay" "Abhay123";
        ClickTrashRow 1 true; ClickTrashBin; ClickEmptyTrash true]
       true (or_introl eq_refl))))).
Defined.

(** Without the assumption the agreement can fail.  The answer to the
    [fetchPayments()] of the login lists both payments; when it arrives
    only after the first payment has been moved to the trash, the page
    lists a payment that the server no longer holds as active. *)
Lemma late_answer_shows_stale_list :
  let w := @ui_run sample_runtime two_payments
             [ClickAdminLogin; SubmitLoginForm "Abhay" "Abhay123";
              ClickTrashRow 1 true] in
  let late := on_ui (setPayments (select_active two_payments)) w in
  in_sync w /\
  listedPayments (fst late) = [bob_row false; alice_row false] /\
  select_active (snd late) = [bob_row false] /\
  ~ in_sync late.
Proof.
  cbv zeta. split; [|split; [|split]].
  - apply (ui_run_invariant in_sync).
    + vm_compute. repeat split; try discriminate. left. reflexivity.
    + intros w e. apply in_sync_step.
  - vm_compute. reflexivity.
  - vm_compute. reflexivity.
  - intros [_ [H _]]. specialize (H eq_refl). vm_compute in H. discriminate H.
Qed.

Lemma dashboard_run_example :
  let w := @ui_run sample_runtime two_payments
             [ClickAdminLogin; SubmitLoginForm "Abhay" "Abhay123";
              ClickTrashRow 1 true; ClickTrashBin; ClickEmptyTrash true] in
  view (app (fst w)) = ViewAdminDashboard /\
  listedPayments (fst w) = [bob_row false] /\
  trashPayments (fst w) = [] /\
  payments (snd w) = [bob_row false].
Proof. vm_compute. repeat split. Qed.
